(** * Webhook dispatch service (adws): a shallow embedding

    The development follows the Python sources

    - [adws/adw_modules/webhook_security.py]  (module [WebhookSecurity]),
    - [adws/adw_modules/port_manager.py]      (module [PortManager]),
    - [adws/adw_triggers/ngrok_manager.py]    (module [NgrokManager]),
    - [adws/adw_triggers/trigger_webhook.py]  (module [TriggerWebhook]).

    Python values are modelled as follows.  A [str] is a [string]: a sequence
    of code points below 256 (the range an HTTP header decoded as latin-1 can
    carry).  [bytes] is a [list byte].  An [int] is a [Z], a [float] a
    [spec_float].  A call that
    may raise returns an [Exc]; the operating system, the sockets, the child
    processes and the helper modules that are not part of these four files
    answer through oracles that see the whole history of effects so far. *)

From Stdlib Require Import ZArith List String Ascii Bool Lia.
From Stdlib Require Import Strings.Byte DecimalString.
From Stdlib Require Floats.SpecFloat.
Import ListNotations.
Open Scope string_scope.
Open Scope list_scope.
Open Scope Z_scope.

(* ===================================================================== *)
(** * Python basics *)
(* ===================================================================== *)

Module Py.

(** Exception classes met in the sources.  All of them derive from
    [Exception]; [ProcessLookupError], [PermissionError],
    [FileNotFoundError] and [gaierror] derive from [OSError].  A class
    that is not listed goes by its name. *)
Inductive exn : Type :=
| OSError (errno : Z)
| ProcessLookupError
| PermissionError
| FileNotFoundError
| gaierror
| OverflowError
| TypeError
| AttributeError
| ValueError
| JSONDecodeError
| TimeoutExpired
| RuntimeError
| OtherException (name : string).

(** [isinstance(e, OSError)] *)
Definition is_OSError (e : exn) : bool :=
  match e with
  | OSError _ | ProcessLookupError | PermissionError
  | FileNotFoundError | gaierror => true
  | _ => false
  end.

Definition is_ProcessLookupError (e : exn) : bool :=
  match e with ProcessLookupError => true | _ => false end.

Definition is_PermissionError (e : exn) : bool :=
  match e with PermissionError => true | _ => false end.

Definition is_TimeoutExpired (e : exn) : bool :=
  match e with TimeoutExpired => true | _ => false end.

(** What encoding and decoding text raise; both classes derive from
    [UnicodeError], which derives from [ValueError]. *)
Definition UnicodeEncodeError : exn := OtherException "UnicodeEncodeError".
Definition UnicodeDecodeError : exn := OtherException "UnicodeDecodeError".

(** The result of a call: a value, or a raised exception. *)
Inductive Exc (A : Type) : Type :=
| Return (a : A)
| Raise (e : exn).
Arguments Return {A} a.
Arguments Raise {A} e.

Definition returns {A} (r : Exc A) : bool :=
  match r with Return _ => true | Raise _ => false end.

(** ** Strings *)

(** Code point of a character. *)
Definition ord (c : ascii) : Z := Z.of_N (N_of_ascii c).
Definition chr (n : Z) : ascii := ascii_of_N (Z.to_N n).

(** [str.lower()] on code points below 256: the ASCII capitals and the
    latin-1 capitals (0xC0..0xDE, the multiplication sign 0xD7 apart) move
    up by 32. *)
Definition lower_char (c : ascii) : ascii :=
  let n := ord c in
  if ((65 <=? n) && (n <=? 90))
     || ((192 <=? n) && (n <=? 222) && negb (n =? 215))
  then chr (n + 32) else c.

Fixpoint lower (s : string) : string :=
  match s with
  | EmptyString => EmptyString
  | String c t => String (lower_char c) (lower t)
  end.

(** [s.startswith(p)] *)
Definition startswith (s p : string) : bool := String.prefix p s.

(** [sub in s] for two strings. *)
Fixpoint contains (sub s : string) : bool :=
  String.prefix sub s ||
  match s with
  | EmptyString => false
  | String _ t => contains sub t
  end.

(** [s[n:]] *)
Fixpoint drop (n : nat) (s : string) : string :=
  match n, s with
  | O, _ => s
  | S _, EmptyString => EmptyString
  | S k, String _ t => drop k t
  end.

(** [s[:n]] *)
Fixpoint take (n : nat) (s : string) : string :=
  match n, s with
  | O, _ => EmptyString
  | S _, EmptyString => EmptyString
  | S k, String c t => String c (take k t)
  end.

(** [str.isascii()] *)
Fixpoint isascii (s : string) : bool :=
  match s with
  | EmptyString => true
  | String c t => (ord c <? 128) && isascii t
  end.

(** Truth value of a string: [bool(s)]. *)
Definition str_truthy (s : string) : bool :=
  match s with EmptyString => false | _ => true end.

(** [s.encode("utf-8")] for code points below 256. *)
Definition utf8_char (c : ascii) : list byte :=
  let n := ord c in
  if n <? 128 then [byte_of_ascii c]
  else match Byte.of_N (Z.to_N (Z.lor 192 (Z.shiftr n 6))),
             Byte.of_N (Z.to_N (Z.lor 128 (Z.land n 63))) with
       | Some b1, Some b2 => [b1; b2]
       | _, _ => []
       end.

Fixpoint encode_utf8 (s : string) : list byte :=
  match s with
  | EmptyString => []
  | String c t => utf8_char c ++ encode_utf8 t
  end.

(** ** Effects

    A computation runs against the trace of the effects performed so far
    (latest first), may extend it, and returns a value or raises. *)
Section Eff.
Context {E : Type}.

Definition Eff (A : Type) : Type := list E -> Exc A * list E.

Definition ret {A} (a : A) : Eff A := fun h => (Return a, h).

Definition raise {A} (e : exn) : Eff A := fun h => (Raise e, h).

Definition bind {A B} (m : Eff A) (f : A -> Eff B) : Eff B :=
  fun h =>
    match m h with
    | (Return a, h') => f a h'
    | (Raise e, h') => (Raise e, h')
    end.

(** A pure call that may raise. *)
Definition lift {A} (r : Exc A) : Eff A := fun h => (r, h).

(** A call answered by the environment: the oracle sees the trace, and
    the call with its answer is recorded. *)
Definition call {A} (oracle : list E -> Exc A) (ev : Exc A -> E) : Eff A :=
  fun h => let r := oracle h in (r, ev r :: h).

(** [try: m  except <classes matched by handles>: handler] *)
Definition try_except {A} (m : Eff A) (handles : exn -> bool)
    (handler : exn -> Eff A) : Eff A :=
  fun h =>
    match m h with
    | (Raise e, h') => if handles e then handler e h' else (Raise e, h')
    | r => r
    end.
End Eff.

(** [except Exception] catches every class of [exn]. *)
Definition any_Exception (e : exn) : bool := true.

Declare Scope eff_scope.
Delimit Scope eff_scope with eff.
Notation "x <- m ;; k" := (bind m (fun x => k))
  (at level 61, m at next level, right associativity) : eff_scope.
Notation "m ;; k" := (bind m (fun _ => k))
  (at level 61, right associativity) : eff_scope.

End Py.
Import Py.

(* ===================================================================== *)
(** * hashlib.sha256 and hmac (FIPS 180-4, RFC 2104) *)
(* ===================================================================== *)

Module Sha256.

Definition mask32 : Z := 0xFFFFFFFF.

Definition add32 (x y : Z) : Z := Z.land (x + y) mask32.

Definition rotr (n x : Z) : Z :=
  Z.lor (Z.shiftr x n) (Z.land (Z.shiftl x (32 - n)) mask32).

Definition not32 (x : Z) : Z := Z.lxor x mask32.

Definition Ch (x y z : Z) : Z := Z.lxor (Z.land x y) (Z.land (not32 x) z).

Definition Maj (x y z : Z) : Z :=
  Z.lxor (Z.lxor (Z.land x y) (Z.land x z)) (Z.land y z).

Definition Sigma0 (x : Z) : Z :=
  Z.lxor (Z.lxor (rotr 2 x) (rotr 13 x)) (rotr 22 x).

Definition Sigma1 (x : Z) : Z :=
  Z.lxor (Z.lxor (rotr 6 x) (rotr 11 x)) (rotr 25 x).

Definition sigma0 (x : Z) : Z :=
  Z.lxor (Z.lxor (rotr 7 x) (rotr 18 x)) (Z.shiftr x 3).

Definition sigma1 (x : Z) : Z :=
  Z.lxor (Z.lxor (rotr 17 x) (rotr 19 x)) (Z.shiftr x 10).

(** The round constants are the first 32 bits of the fractional parts of
    the cube roots of the first 64 primes, the initial hash value those of
    the square roots of the first 8 primes. *)
Definition is_prime (n : Z) : bool :=
  (1 <? n)
  && forallb (fun d => negb (n mod Z.of_nat d =? 0))
             (seq 2 (Z.to_nat n - 2)).

Definition primes : list Z :=
  filter is_prime (map Z.of_nat (seq 2 310)).

(** Integer cube root of a number below 2^(3 * bits). *)
Fixpoint cube_root (bits : nat) (x r : Z) : Z :=
  match bits with
  | O => r
  | S i =>
      let r' := r + Z.shiftl 1 (Z.of_nat i) in
      cube_root i x (if r' * r' * r' <=? x then r' else r)
  end.

Definition K : list Z :=
  map (fun p => Z.land (cube_root 36 (Z.shiftl p 96) 0) mask32) primes.

Definition H0 : list Z :=
  map (fun p => Z.land (Z.sqrt (Z.shiftl p 64)) mask32) (firstn 8 primes).

Definition byte_val (b : byte) : Z := Z.of_N (Byte.to_N b).

(** Big-endian bytes of a [k]-byte number, as numbers below 256. *)
Fixpoint be_bytes (k : nat) (x : Z) : list Z :=
  match k with
  | O => []
  | S k' => Z.land (Z.shiftr x (8 * Z.of_nat k')) 255 :: be_bytes k' x
  end.

(** The message, the bit 1, zeros up to 56 modulo 64, the bit length. *)
Definition pad (msg : list Z) : list Z :=
  let len := Z.of_nat (List.length msg) in
  let zeros := Z.to_nat ((55 - len) mod 64) in
  msg ++ [128] ++ repeat 0 zeros ++ be_bytes 8 (8 * len).

Fixpoint words (fuel : nat) (bs : list Z) : list Z :=
  match fuel, bs with
  | S f, b0 :: b1 :: b2 :: b3 :: rest =>
      (Z.shiftl b0 24 + Z.shiftl b1 16 + Z.shiftl b2 8 + b3) :: words f rest
  | _, _ => []
  end.

(** Message schedule; [w] holds the words computed so far, latest first. *)
Fixpoint schedule (n : nat) (w : list Z) : list Z :=
  match n with
  | O => w
  | S n' =>
      let x := add32 (add32 (sigma1 (nth 1 w 0)) (nth 6 w 0))
                     (add32 (sigma0 (nth 14 w 0)) (nth 15 w 0)) in
      schedule n' (x :: w)
  end.

Definition round (st : list Z) (kw : Z * Z) : list Z :=
  match st with
  | [a; b; c; d; e; f; g; h] =>
      let t1 := add32 (add32 (add32 h (Sigma1 e)) (Ch e f g))
                      (add32 (fst kw) (snd kw)) in
      let t2 := add32 (Sigma0 a) (Maj a b c) in
      [add32 t1 t2; a; b; c; add32 d t1; e; f; g]
  | _ => st
  end.

Definition compress (h : list Z) (block : list Z) : list Z :=
  let w := rev (schedule 48 (rev (words 16 block))) in
  let st := fold_left round (combine K w) h in
  map (fun p => add32 (fst p) (snd p)) (combine h st).

Fixpoint blocks (fuel : nat) (h : list Z) (bs : list Z) : list Z :=
  match fuel with
  | O => h
  | S f =>
      match bs with
      | [] => h
      | _ => blocks f (compress h (firstn 64 bs)) (skipn 64 bs)
      end
  end.

(** The 32 digest bytes, as numbers below 256. *)
Definition digest (msg : list Z) : list Z :=
  let p := pad msg in
  flat_map (be_bytes 4) (blocks (S (List.length p / 64)) H0 p).

End Sha256.

Module Hmac.

Definition block_size : nat := 64.

Definition block_key (key : list Z) : list Z :=
  let k := if (Nat.ltb block_size (List.length key))
           then Sha256.digest key else key in
  k ++ repeat 0 (block_size - List.length k).

(** [hmac.new(key, msg, hashlib.sha256).digest()] *)
Definition digest (key msg : list byte) : list Z :=
  let k := block_key (map Sha256.byte_val key) in
  let ikey := map (Z.lxor 0x36) k in
  let okey := map (Z.lxor 0x5c) k in
  Sha256.digest (okey ++ Sha256.digest (ikey ++ map Sha256.byte_val msg)).

Definition hex_digit (n : Z) : ascii :=
  if n <? 10 then chr (48 + n) else chr (87 + n).

Fixpoint hex (bs : list Z) : string :=
  match bs with
  | [] => EmptyString
  | b :: t =>
      String (hex_digit (Z.shiftr (Z.land b 255) 4))
        (String (hex_digit (Z.land b 15)) (hex t))
  end.

(** [hmac.new(key, msg, hashlib.sha256).hexdigest()] *)
Definition hexdigest (key msg : list byte) : string := hex (digest key msg).

(** [hmac.compare_digest(a, b)] on two [str]: both must be ASCII only,
    otherwise [TypeError] is raised; else the result is [a == b]. *)
Definition compare_digest (a b : string) : Exc bool :=
  if isascii a && isascii b then Return (String.eqb a b)
  else Raise TypeError.

End Hmac.

(* ===================================================================== *)
(** * adw_modules/webhook_security.py *)
(* ===================================================================== *)

Module WebhookSecurity.

(** [validate_github_signature(payload_body, signature_header, secret)].
    [signature_header] is [Optional[str]]. *)
Definition validate_github_signature
    (payload_body : list byte) (signature_header : option string)
    (secret : string) : Exc bool :=
  match signature_header with
  | None => Return false
  | Some header =>
      if negb (str_truthy header) || negb (str_truthy secret)
      then Return false
      else if negb (startswith header "sha256=") then Return false
      else
        let expected_signature := drop 7 header in
        let calculated_signature :=
          Hmac.hexdigest (encode_utf8 secret) payload_body in
        Hmac.compare_digest calculated_signature expected_signature
  end.

End WebhookSecurity.

Open Scope eff_scope.

(** Unfolding of the effect combinators. *)
Ltac run := unfold bind, call, ret, raise, lift, try_except in *.

(* ===================================================================== *)
(** * adw_modules/port_manager.py *)
(* ===================================================================== *)

Module PortManager.

Inductive signal : Type := SIGTERM | SIGKILL.

(** Effects of the module.  [Connect] is the probe of [is_port_in_use]:
    [socket.socket(AF_INET, SOCK_STREAM)], [settimeout(1)] and
    [connect_ex((host, port))]; [Bind] is the confirmation of
    [find_available_port]: a fresh socket and [bind((host, port))];
    [Lookup] is a call of [get_process_using_port], [Kill] is [os.kill]
    and [Sleep] is [time.sleep], with the milliseconds asked for.  Each effect is recorded with its
    outcome.  Log lines are not recorded. *)
Inductive event : Type :=
| Connect (host : string) (port : Z) (r : Exc Z)
| Bind (host : string) (port : Z) (r : Exc unit)
| Lookup (port : Z) (r : Exc (option Z))
| Kill (pid : Z) (sig : signal) (r : Exc unit)
| Sleep (ms : Z).

Definition trace : Type := list event.

(** The operating system.  Every answer may depend on all that happened
    before.  [os_lookup] stands for [get_process_using_port], whose result
    is read off the output of [lsof] or [ss]: a pid, [None], or an exception
    of [subprocess.run] that its handler for [CalledProcessError] and
    [ValueError] does not catch. *)
Record OS : Type := {
  os_socket : trace -> Exc unit;
  os_connect_ex : trace -> string -> Z -> Exc Z;
  os_bind : trace -> string -> Z -> Exc unit;
  os_lookup : trace -> Z -> Exc (option Z);
  os_kill : trace -> Z -> signal -> Exc unit
}.

(** The socket module refuses a port outside 0..65535 with
    [OverflowError] before the system is asked.  The host is taken to
    resolve, as the numeric address the sources pass does; for a name
    that does not resolve, the module raises [gaierror] before it looks
    at the port. *)
Definition valid_port (port : Z) : bool := (0 <=? port) && (port <=? 65535).

(** [with socket.socket(...) as sock: sock.settimeout(1);
    sock.connect_ex((host, port))] *)
Definition sock_connect_ex (os : OS) (host : string) (port : Z) : Eff Z :=
  call (fun h =>
          match os_socket os h with
          | Raise e => Raise e
          | Return _ =>
              if valid_port port then os_connect_ex os h host port
              else Raise OverflowError
          end)
       (Connect host port).

(** [with socket.socket(...) as sock: sock.bind((host, port))] *)
Definition sock_bind (os : OS) (host : string) (port : Z) : Eff unit :=
  call (fun h =>
          match os_socket os h with
          | Raise e => Raise e
          | Return _ =>
              if valid_port port then os_bind os h host port
              else Raise OverflowError
          end)
       (Bind host port).

Definition sleep (ms : Z) : Eff (E := event) unit :=
  fun h => (Return tt, Sleep ms :: h).

Definition default_host : string := "127.0.0.1".

(** The body of the [try] of [is_port_in_use]. *)
Definition is_port_in_use_try (os : OS) (port : Z) (host : string)
  : Eff bool :=
  result <- sock_connect_ex os host port ;;
  ret (result =? 0).

(** [is_port_in_use(port, host)] *)
Definition is_port_in_use (os : OS) (port : Z) (host : string) : Eff bool :=
  try_except (is_port_in_use_try os port host) any_Exception
             (fun _ => ret false).

(** One pass of the loop of [kill_process_on_port]; [Some b] is
    [return b], [None] falls through to the next attempt. *)
Definition kill_attempt (os : OS) (port : Z) (force : bool) (attempt : Z)
  : Eff (option bool) :=
  pid <- call (fun h => os_lookup os h port) (Lookup port) ;;
  match pid with
  | None => ret (Some true)
  | Some pid =>
      try_except
        (let signal_type :=
           if force || (0 <? attempt) then SIGKILL else SIGTERM in
         _ <- call (fun h => os_kill os h pid signal_type)
                   (Kill pid signal_type) ;;
         _ <- sleep 500 ;;
         in_use <- is_port_in_use os port default_host ;;
         if negb in_use then ret (Some true) else ret None)
        any_Exception
        (fun e =>
           if is_ProcessLookupError e then ret (Some true)
           else if is_PermissionError e then ret (Some false)
           else ret None)
  end.

Fixpoint kill_loop (os : OS) (port : Z) (force : bool) (attempt : Z)
    (remaining : nat) : Eff bool :=
  match remaining with
  | O => ret false
  | S n =>
      r <- kill_attempt os port force attempt ;;
      match r with
      | Some b => ret b
      | None => kill_loop os port force (attempt + 1) n
      end
  end.

(** [kill_process_on_port(port, force, max_retries)]:
    [for attempt in range(max_retries)]. *)
Definition kill_process_on_port (os : OS) (port : Z) (force : bool)
    (max_retries : Z) : Eff bool :=
  kill_loop os port force 0 (Z.to_nat max_retries).

Fixpoint scan_ports (os : OS) (host : string) (port : Z) (remaining : nat)
  : Eff (option Z) :=
  match remaining with
  | O => ret None
  | S n =>
      in_use <- is_port_in_use os port host ;;
      if negb in_use then
        try_except
          (_ <- sock_bind os host port ;; ret (Some port))
          is_OSError
          (fun _ => scan_ports os host (port + 1) n)
      else scan_ports os host (port + 1) n
  end.

(** [find_available_port(start_port, end_port, host)]:
    [for port in range(start_port, end_port)]. *)
Definition find_available_port (os : OS) (start_port end_port : Z)
    (host : string) : Eff (option Z) :=
  scan_ports os host start_port (Z.to_nat (end_port - start_port)).

(** ** Vocabulary for the statements *)

(** Port [p] was tried and refused: the probe connected, or the bind
    failed with an [OSError]. *)
Definition rejected (host : string) (evs : trace) (p : Z) : Prop :=
  In (Connect host p (Return 0)) evs
  \/ exists e, is_OSError e = true /\ In (Bind host p (Raise e)) evs.

(** What made a bind on [p] raise [e] after the history [h]: the port is
    out of range, or socket creation or the bind itself failed. *)
Definition bind_raised (os : OS) (h : trace) (host : string) (p : Z)
    (e : exn) : Prop :=
  os_socket os h = Raise e
  \/ (valid_port p = false /\ e = OverflowError)
  \/ os_bind os h host p = Raise e.

(** The three outcomes of the scan of [n] ports from [port] on, started
    after the history [h]. *)
Definition scan_outcome (os : OS) (host : string) (h : trace) (port : Z)
    (n : nat) (r : Exc (option Z)) (evs : trace) : Prop :=
  match r with
  | Return (Some p) =>
      port <= p < port + Z.of_nat n
      /\ (exists evs', evs = Bind host p (Return tt) :: evs')
      /\ forall q, port <= q < p -> rejected host evs q
  | Return None =>
      forall q, port <= q < port + Z.of_nat n -> rejected host evs q
  | Raise e =>
      is_OSError e = false
      /\ exists p evs',
           port <= p < port + Z.of_nat n
           /\ evs = Bind host p (Raise e) :: evs'
           /\ bind_raised os (evs' ++ h) host p e
  end.



(** The signal of attempt [i] (counted from 0). *)
Definition signal_for (force : bool) (i : nat) : signal :=
  if force || (0 <? Z.of_nat i) then SIGKILL else SIGTERM.

(** Observations that end the loop with [True]: no owner found, the
    signalled process already gone, the port probed free. *)
Definition final_true (e : event) : bool :=
  match e with
  | Lookup _ (Return None) => true
  | Kill _ _ (Raise ProcessLookupError) => true
  | Connect _ _ (Return errno) => negb (errno =? 0)
  | Connect _ _ (Raise _) => true
  | _ => false
  end.






End PortManager.

(* ===================================================================== *)
(** * adw_triggers/trigger_webhook.py: the port at startup *)
(* ===================================================================== *)

Module PortConflict.
Import PortManager.

(** [get_port_info(port)["pid"]].  The two [ps] calls that fill the name
    and the command of the process sit in a [try] that swallows every
    exception and do not change the pid; they are not recorded. *)
Definition get_port_info_pid (os : OS) (port : Z) : Eff (option Z) :=
  in_use <- is_port_in_use os port default_host ;;
  if in_use then call (fun h => os_lookup os h port) (Lookup port)
  else ret None.

(** Truth value of an [Optional[int]]. *)
Definition int_truthy (o : option Z) : bool :=
  match o with Some n => negb (n =? 0) | None => false end.

(** [handle_port_conflict(port, max_retries)]; [RuntimeError] is the
    failure the startup code handles. *)
Definition handle_port_conflict (os : OS) (port : Z) (max_retries : Z)
  : Eff Z :=
  in_use <- is_port_in_use os port default_host ;;
  if in_use then
    pid <- get_port_info_pid os port ;;
    freed <- (if int_truthy pid
              then kill_process_on_port os port false max_retries
              else ret false) ;;
    if freed then
      _ <- sleep 1000 ;;
      ret port
    else
      alternative_port <-
        find_available_port os (port + 1) (port + 100) default_host ;;
      if int_truthy alternative_port then
        match alternative_port with
        | Some p => ret p
        | None => raise RuntimeError
        end
      else raise RuntimeError
  else ret port.

End PortConflict.

(* ===================================================================== *)
(** * adw_triggers/ngrok_manager.py *)
(* ===================================================================== *)

Module NgrokManager.

(** Effects on the child process held in [self.process] (a
    [subprocess.Popen], named here by its pid): [terminate()],
    [wait(timeout)] and [kill()]. *)
Inductive event : Type :=
| Terminate (proc : Z) (r : Exc unit)
| Wait (proc : Z) (timeout : option Z) (r : Exc Z)
| KillProc (proc : Z) (r : Exc unit).

Definition trace : Type := list event.

Record Procs : Type := {
  proc_terminate : trace -> Z -> Exc unit;
  proc_wait : trace -> Z -> option Z -> Exc Z;
  proc_kill : trace -> Z -> Exc unit
}.

(** The fields of a [NgrokManager] object. *)
Record t : Type := {
  port : Z;
  authtoken : option string;
  domain : option string;
  process : option Z;
  tunnel_url : option string;
  api_url : string
}.

(** [NgrokManager(port, authtoken, domain)], the environment variables
    already merged into [authtoken] and [domain]. *)
Definition init (port : Z) (authtoken domain : option string) : t :=
  {| port := port; authtoken := authtoken; domain := domain;
     process := None; tunnel_url := None;
     api_url := "http://localhost:4040/api" |}.

(** [self.process = None; self.tunnel_url = None] *)
Definition clear (self : t) : t :=
  {| port := port self; authtoken := authtoken self; domain := domain self;
     process := None; tunnel_url := None; api_url := api_url self |}.

(** The body of the [try] of [stop_tunnel], for [self.process = proc]. *)
Definition stop_tunnel_try (ps : Procs) (self : t) (proc : Z) : Eff t :=
  _ <- call (fun h => proc_terminate ps h proc) (Terminate proc) ;;
  _ <- try_except
         (_ <- call (fun h => proc_wait ps h proc (Some 5))
                    (Wait proc (Some 5)) ;;
          ret tt)
         is_TimeoutExpired
         (fun _ =>
            _ <- call (fun h => proc_kill ps h proc) (KillProc proc) ;;
            _ <- call (fun h => proc_wait ps h proc None) (Wait proc None) ;;
            ret tt) ;;
  ret (clear self).

(** [self.stop_tunnel()]; the result is the object after the call. *)
Definition stop_tunnel (ps : Procs) (self : t) : Eff t :=
  match process self with
  | None => ret self
  | Some proc =>
      try_except (stop_tunnel_try ps self proc) any_Exception
                 (fun _ => ret self)
  end.

(** ** Vocabulary for the statements *)

(** The runs of [stop_tunnel] on the process [proc], latest effect
    first, each with whether the stored state is cleared at the end. *)
Inductive stop_run (proc : Z) : trace -> bool -> Prop :=
| stop_signal_failed (e : exn) :
    stop_run proc [ Terminate proc (Raise e) ] false
| stop_exited (rc : Z) :
    stop_run proc
      [ Wait proc (Some 5) (Return rc); Terminate proc (Return tt) ] true
| stop_wait_failed (e : exn) :
    is_TimeoutExpired e = false ->
    stop_run proc
      [ Wait proc (Some 5) (Raise e); Terminate proc (Return tt) ] false
| stop_kill_failed (e : exn) :
    stop_run proc
      [ KillProc proc (Raise e); Wait proc (Some 5) (Raise TimeoutExpired);
        Terminate proc (Return tt) ] false
| stop_killed (rc : Z) :
    stop_run proc
      [ Wait proc None (Return rc); KillProc proc (Return tt);
        Wait proc (Some 5) (Raise TimeoutExpired);
        Terminate proc (Return tt) ] true
| stop_last_wait_failed (e : exn) :
    stop_run proc
      [ Wait proc None (Raise e); KillProc proc (Return tt);
        Wait proc (Some 5) (Raise TimeoutExpired);
        Terminate proc (Return tt) ] false.

(** An effect that raised an error; the bounded wait running out of time
    is not one. *)
Definition failed (e : event) : bool :=
  match e with
  | Terminate _ (Raise _) => true
  | Wait _ (Some _) (Raise x) => negb (is_TimeoutExpired x)
  | Wait _ None (Raise _) => true
  | KillProc _ (Raise _) => true
  | _ => false
  end.

End NgrokManager.

(* ===================================================================== *)
(** * adw_triggers/trigger_webhook.py *)
(* ===================================================================== *)

Module TriggerWebhook.

#[local] Set Warnings "-register-all".

(** ** JSON values, as [json.loads] builds them

    A number without fraction and exponent is an [int], any other number a
    [float]; the words [NaN], [Infinity] and [-Infinity] are read as the
    floats they name.  An object is its list of items (a [dict] has no two
    items with one key, and [get] reads the first). *)
Inductive json : Type :=
| JNull
| JBool (b : bool)
| JNum (n : Z)
| JFloat (x : SpecFloat.spec_float)
| JStr (s : string)
| JArr (items : list json)
| JObj (items : list (string * json)).

Fixpoint assoc (k : string) (items : list (string * json)) : option json :=
  match items with
  | [] => None
  | (k', v) :: rest => if String.eqb k' k then Some v else assoc k rest
  end.

(** [d.get(k, default)]; only a [dict] has the method. *)
Definition get (d : json) (k : string) (default : json) : Exc json :=
  match d with
  | JObj items =>
      Return (match assoc k items with Some v => v | None => default end)
  | _ => Raise AttributeError
  end.

(** [bool(v)] *)
Definition truthy (v : json) : bool :=
  match v with
  | JNull => false
  | JBool b => b
  | JNum n => negb (n =? 0)
  | JFloat x => match x with SpecFloat.S754_zero _ => false | _ => true end
  | JStr s => str_truthy s
  | JArr items => match items with [] => false | _ => true end
  | JObj items => match items with [] => false | _ => true end
  end.

(** [json.dumps(v, allow_nan=False)] goes through: no float in [v] is a
    NaN or an infinity. *)
Fixpoint compliant (v : json) : bool :=
  match v with
  | JFloat x =>
      match x with
      | SpecFloat.S754_nan | SpecFloat.S754_infinity _ => false
      | _ => true
      end
  | JArr items => forallb compliant items
  | JObj items => forallb (fun kv => compliant (snd kv)) items
  | _ => true
  end.

(** [v == s] for a string literal [s] *)
Definition eq_str (v : json) (s : string) : bool :=
  match v with JStr t => String.eqb t s | _ => false end.

(** [s in v]: substring of a [str], member of a [list], key of a [dict];
    [TypeError] for a value that is not iterable. *)
Definition str_in (s : string) (v : json) : Exc bool :=
  match v with
  | JStr t => Return (contains s t)
  | JArr items => Return (existsb (fun x => eq_str x s) items)
  | JObj items => Return (existsb (fun kv => String.eqb (fst kv) s) items)
  | _ => Raise TypeError
  end.

(** ** Requests

    [headers] are the header lines; [body] is the raw body and [json_] is
    what [await request.json()] yields for it. *)
Record Request : Type := {
  headers : list (string * string);
  body : list byte;
  json_ : Exc json
}.

(** [request.headers.get(name, default)]; header names compare without
    case. *)
Fixpoint headers_get (hs : list (string * string)) (name default : string)
  : string :=
  match hs with
  | [] => default
  | (k, v) :: rest =>
      if String.eqb (lower k) (lower name) then v
      else headers_get rest name default
  end.

(** [request.headers.get(name)], which is [None] when the header is not
    there. *)
Fixpoint headers_find (hs : list (string * string)) (name : string)
  : option string :=
  match hs with
  | [] => None
  | (k, v) :: rest =>
      if String.eqb (lower k) (lower name) then Some v
      else headers_find rest name
  end.

(** ** The collaborators

    [make_adw_id], [extract_adw_info], [ADWState], [setup_logger],
    [make_issue_comment] (modules [adw_modules.utils], [workflow_ops],
    [state], [github]) and [subprocess.Popen] are not part of this file;
    each is an oracle, and each call is recorded with its arguments.
    [make_adw_id] draws a fresh identifier and does not fail; the others
    may raise.  [StateSave] is [ADWState(id)], [update] and [save].
    [issue_number] is carried as the JSON value whose [str()] the code
    passes on.

    What [print] writes is not recorded, but writing may fail.  The
    strings of the model leave the code points above 255 out, so whether a
    text can be encoded is an answer of the environment: [printable] tells
    whether [sys.stdout] can encode the text of a value of the payload,
    and [encodable] whether UTF-8 can (a string with a lone surrogate
    cannot be encoded).  The stream is taken to be open and to encode the
    constant texts of the program, which it has printed when the module
    was loaded, and the messages of exceptions. *)
Inductive event : Type :=
| MakeAdwId (r : string)
| ExtractAdwInfo (text temp_id : string)
    (r : Exc (option string * option string))
| StateSave (adw_id : string) (issue_number : json) (r : Exc unit)
| SetupLogger (adw_id : string) (r : Exc unit)
| IssueComment (issue_number : json) (workflow adw_id reason : string)
    (r : Exc unit)
| Popen (script : string) (issue_number : json) (adw_id : string)
    (r : Exc Z).

Definition trace : Type := list event.

Record Env : Type := {
  make_adw_id : trace -> string;
  extract_adw_info :
    trace -> string -> string -> Exc (option string * option string);
  state_save : trace -> string -> json -> Exc unit;
  setup_logger : trace -> string -> Exc unit;
  make_issue_comment : trace -> json -> string -> string -> string -> Exc unit;
  popen : trace -> string -> json -> string -> Exc Z;
  printable : json -> bool;
  encodable : json -> bool
}.

(** [print(f"...")] of a text that holds the [values]. *)
Definition print (env : Env) (values : list json) : Eff (E := event) unit :=
  if forallb (printable env) values then ret tt
  else raise UnicodeEncodeError.

Definition ADW_BOT_IDENTIFIER : string := "[ADW-BOT]".

Definition AVAILABLE_WORKFLOWS : list string :=
  [ "adw_plan"; "adw_build"; "adw_test"; "adw_plan_build";
    "adw_plan_build_test" ].

(** The response bodies of [POST /gh-webhook]. *)
Inductive Body : Type :=
| Accepted (issue : json) (adw_id workflow reason : string)
| Ignored (event_type : string) (action : json)
| Error (message : string).

Definition status (b : Body) : string :=
  match b with
  | Accepted _ _ _ _ => "accepted"
  | Ignored _ _ => "ignored"
  | Error _ => "error"
  end.

(** Truth value of an [Optional[str]]. *)
Definition opt_truthy (o : option string) : bool :=
  match o with Some s => str_truthy s | None => false end.

Definition opt_is (o : option string) (s : string) : bool :=
  match o with Some t => String.eqb t s | None => false end.

(** What the two branches leave in [workflow], [provided_adw_id] and
    [trigger_reason]. *)
Record Decision : Type := {
  workflow : option string;
  provided_adw_id : option string;
  trigger_reason : string
}.

Definition no_decision : Decision :=
  {| workflow := None; provided_adw_id := None; trigger_reason := "" |}.

(** [make_adw_id()] *)
Definition new_adw_id (env : Env) : Eff string :=
  fun h => let i := make_adw_id env h in (Return i, MakeAdwId i :: h).

(** [temp_id = make_adw_id()],
    [workflow, provided_adw_id = extract_adw_info(text, temp_id)], and the
    reason when a workflow came back. *)
Definition classify_text (env : Env) (text : string) (label : string)
  : Eff Decision :=
  temp_id <- new_adw_id env ;;
  r <- call (fun h => extract_adw_info env h text temp_id)
            (ExtractAdwInfo text temp_id) ;;
  ret {| workflow := fst r;
         provided_adw_id := snd r;
         trigger_reason :=
           match fst r with
           | Some w => if str_truthy w
                       then (label ++ " with " ++ w ++ " workflow")%string
                       else ""
           | None => ""
           end |}.

(** The branch for [issues]/[opened]: [issue_body.lower()] needs a
    [str]. *)
Definition on_issue_opened (env : Env) (issue : json) : Eff Decision :=
  issue_body <- lift (get issue "body" (JStr "")) ;;
  match issue_body with
  | JStr text =>
      if contains "adw_" (lower text)
      then classify_text env text "New issue"
      else ret no_decision
  | _ => raise AttributeError
  end.

(** The branch for [issue_comment]/[created]: the body is printed, the
    marker test comes next, then [comment_body.lower()]. *)
Definition on_comment_created (env : Env) (payload : json) : Eff Decision :=
  comment <- lift (get payload "comment" (JObj [])) ;;
  comment_body <- lift (get comment "body" (JStr "")) ;;
  _ <- print env [comment_body] ;;
  is_bot <- lift (str_in ADW_BOT_IDENTIFIER comment_body) ;;
  if is_bot then ret no_decision
  else
    match comment_body with
    | JStr text =>
        if contains "adw_" (lower text)
        then classify_text env text "Comment"
        else ret no_decision
    | _ => raise AttributeError
    end.

(** The launch of a matched workflow, up to the accepted response.  The
    command line printed before the start holds the script, the number and
    the identifier. *)
Definition launch (env : Env) (issue_number : json) (w : string)
    (d : Decision) : Eff Body :=
  adw_id <- (match provided_adw_id d with
             | Some i => if str_truthy i then ret i else new_adw_id env
             | None => new_adw_id env
             end) ;;
  _ <- (match provided_adw_id d with
        | Some i =>
            if str_truthy i
            then call (fun h => state_save env h i issue_number)
                      (StateSave i issue_number)
            else ret tt
        | None => ret tt
        end) ;;
  _ <- call (fun h => setup_logger env h adw_id) (SetupLogger adw_id) ;;
  _ <- try_except
         (call (fun h => make_issue_comment env h issue_number w adw_id
                           (trigger_reason d))
               (IssueComment issue_number w adw_id (trigger_reason d)))
         any_Exception
         (fun _ => ret tt) ;;
  _ <- print env [JStr w; issue_number] ;;
  _ <- print env [JStr (w ++ ".py"); issue_number; JStr adw_id;
                  JStr (trigger_reason d)] ;;
  _ <- call (fun h => popen env h (w ++ ".py")%string issue_number adw_id)
            (Popen (w ++ ".py")%string issue_number adw_id) ;;
  _ <- print env [issue_number; JStr adw_id] ;;
  _ <- print env [JStr adw_id; JStr w] ;;
  ret (Accepted issue_number adw_id w (trigger_reason d)).

(** The [else] of [if workflow]. *)
Definition ignore (env : Env) (event_type : string)
    (action issue_number : json) : Eff Body :=
  _ <- print env [JStr event_type; action; issue_number] ;;
  ret (Ignored event_type action).

(** The body of the [try] of [github_webhook]. *)
Definition github_webhook_try (env : Env) (request : Request) : Eff Body :=
  let event_type := headers_get (headers request) "X-GitHub-Event" "" in
  payload <- lift (json_ request) ;;
  action <- lift (get payload "action" (JStr "")) ;;
  issue <- lift (get payload "issue" (JObj [])) ;;
  issue_number <- lift (get issue "number" JNull) ;;
  _ <- print env [JStr event_type; action; issue_number] ;;
  d <- (if String.eqb event_type "issues" && eq_str action "opened"
           && truthy issue_number
        then on_issue_opened env issue
        else if String.eqb event_type "issue_comment"
                && eq_str action "created" && truthy issue_number
        then on_comment_created env payload
        else ret no_decision) ;;
  let workflow :=
    if opt_is (workflow d) "adw_build"
       && negb (opt_truthy (provided_adw_id d))
    then None else workflow d in
  match workflow with
  | Some w =>
      if str_truthy w then launch env issue_number w d
      else ignore env event_type action issue_number
  | None => ignore env event_type action issue_number
  end.

(** The process-wide counters. *)
Record Server : Type := {
  processed_webhooks_count : Z
}.

(** [processed_webhooks_count += 1] *)
Definition counted (srv : Server) : Server :=
  {| processed_webhooks_count := processed_webhooks_count srv + 1 |}.

(** [github_webhook(request)]: the counter, then the [try] with its
    [except Exception], which prints the exception and returns the error
    body. *)
Definition github_webhook (env : Env) (srv : Server) (request : Request)
  : Eff (Body * Server) :=
  let srv' := counted srv in
  b <- try_except (github_webhook_try env request) any_Exception
         (fun _ => ret (Error "Internal error processing webhook")) ;;
  ret (b, srv').

(** The response is made of the body the handler returned:
    [JSONResponse] renders it with [json.dumps(content, allow_nan=False)],
    which raises [ValueError] for a float that is a NaN or an infinity,
    and encodes the text as UTF-8.  The accepted body holds the issue
    number, the identifier, the workflow and the reason; the reason of
    the ignored body holds the event type, which is the text of a header,
    and the action. *)
Definition render (env : Env) (b : Body) : Exc Body :=
  match b with
  | Accepted issue adw_id workflow reason =>
      if compliant issue then
        if forallb (encodable env)
             [issue; JStr adw_id; JStr workflow; JStr reason]
        then Return b else Raise UnicodeEncodeError
      else Raise ValueError
  | Ignored _ action =>
      if encodable env action then Return b else Raise UnicodeEncodeError
  | Error _ => Return b
  end.

(** The route: a body that was rendered goes out with code 200; an
    exception that leaves the handler, or the rendering, is answered with
    code 500. *)
Definition respond {A} (r : Exc A) : Z * option A :=
  match r with
  | Return a => (200, Some a)
  | Raise _ => (500, None)
  end.

Definition post_gh_webhook (env : Env) (srv : Server) (request : Request)
    (h : trace) : Z * option Body :=
  match fst (github_webhook env srv request h) with
  | Return (b, _) => respond (render env b)
  | Raise e => respond (Raise e)
  end.

(** ** Vocabulary for the statements *)

(** A body that cannot be read as the handler reads it: not JSON, not an
    object, or with an [issue] that is not an object. *)
Definition malformed (request : Request) : bool :=
  match json_ request with
  | Raise _ => true
  | Return (JObj items) =>
      match assoc "issue" items with
      | None | Some (JObj _) => false
      | Some _ => true
      end
  | Return _ => true
  end.

(** A payload without an issue number: no [issue] member, or an [issue]
    object whose [number] is missing or [null]. *)
Definition lacks_issue_number (items : list (string * json)) : Prop :=
  assoc "issue" items = None
  \/ exists fields,
       assoc "issue" items = Some (JObj fields)
       /\ (assoc "number" fields = None \/ assoc "number" fields = Some JNull).

Inductive kind : Type := IssueOpened | CommentCreated.

(** The two events that may trigger a workflow, with the text that is
    inspected: an issue that was opened, with its body, and a comment that
    was created, with its body; both on an issue whose number is true. *)
Inductive Eligible (request : Request) : kind -> string -> Prop :=
| eligible_issue (items fields : list (string * json)) (number : json)
    (text : string) :
    headers_get (headers request) "X-GitHub-Event" "" = "issues" ->
    json_ request = Return (JObj items) ->
    assoc "action" items = Some (JStr "opened") ->
    assoc "issue" items = Some (JObj fields) ->
    assoc "number" fields = Some number ->
    truthy number = true ->
    assoc "body" fields = Some (JStr text) ->
    Eligible request IssueOpened text
| eligible_comment (items fields cfields : list (string * json))
    (number : json) (text : string) :
    headers_get (headers request) "X-GitHub-Event" "" = "issue_comment" ->
    json_ request = Return (JObj items) ->
    assoc "action" items = Some (JStr "created") ->
    assoc "issue" items = Some (JObj fields) ->
    assoc "number" fields = Some number ->
    truthy number = true ->
    assoc "comment" items = Some (JObj cfields) ->
    assoc "body" cfields = Some (JStr text) ->
    Eligible request CommentCreated text.

(** The body of the [except] branch. *)
Definition internal_error : Body := Error "Internal error processing webhook".

(** The event type and the action of the two kinds of eligible events. *)
Definition event_type_of (k : kind) : string :=
  match k with IssueOpened => "issues" | CommentCreated => "issue_comment" end.

Definition action_of (k : kind) : json :=
  match k with
  | IssueOpened => JStr "opened"
  | CommentCreated => JStr "created"
  end.

(** [sys.stdout] can encode whatever is printed. *)
Definition stdout_ok (env : Env) : Prop :=
  forall v, printable env v = true.

(** The value of the signature header of a request. *)
Definition signature_header (request : Request) : option string :=
  headers_find (headers request) "X-Hub-Signature-256".

Definition is_make_id (e : event) : bool :=
  match e with MakeAdwId _ => true | _ => false end.

(** Effects that launch a job, and effects that classify. *)
Definition is_launch (e : event) : bool :=
  match e with Popen _ _ _ _ => true | _ => false end.

Definition is_classify (e : event) : bool :=
  match e with ExtractAdwInfo _ _ _ => true | _ => false end.

End TriggerWebhook.

(* ===================================================================== *)
(** * Concrete environments for running the code *)
(* ===================================================================== *)

Module Samples.

Definition bytes_of_string (s : string) : list byte := list_byte_of_string s.

(** ** Signatures *)

Definition hello : list byte := bytes_of_string "hello".

Definition hello_digest : string :=
  "e5a01537481fa0b2c697f787c7aff885412cf0760d08e08502259b39d2d6ae68".

(** The header GitHub sends for [hello] under the secret [s3cret]. *)
Definition good_header : string := ("sha256=" ++ hello_digest)%string.

(** The same header with the top bit of its last byte flipped: the final
    [8] (0x38) becomes the code point 0xB8. *)
Definition flipped_header : string :=
  ("sha256=" ++ take 63 hello_digest ++ String (chr 0xB8) "")%string.

(** ** Ports *)

(** Nothing listens (every connect is refused with ECONNREFUSED), binds
    succeed, no port has an owner. *)
Definition os_idle : PortManager.OS :=
  {| PortManager.os_socket := fun _ => Return tt;
     PortManager.os_connect_ex := fun _ _ _ => Return 111;
     PortManager.os_bind := fun _ _ _ => Return tt;
     PortManager.os_lookup := fun _ _ => Return None;
     PortManager.os_kill := fun _ _ _ => Return tt |}.

(** Process 4242 of another user listens on every port: connects succeed,
    binds fail with EADDRINUSE, signals are refused. *)
Definition os_denied : PortManager.OS :=
  {| PortManager.os_socket := fun _ => Return tt;
     PortManager.os_connect_ex := fun _ _ _ => Return 0;
     PortManager.os_bind := fun _ _ _ => Raise (OSError 98);
     PortManager.os_lookup := fun _ _ => Return (Some 4242);
     PortManager.os_kill := fun _ _ _ => Raise PermissionError |}.

(** Process 4242 listens on every port and survives SIGTERM; it goes away
    on SIGKILL. *)
Definition killed (h : PortManager.trace) : bool :=
  existsb (fun e => match e with
                    | PortManager.Kill _ PortManager.SIGKILL (Return _) => true
                    | _ => false
                    end) h.

Definition os_stubborn : PortManager.OS :=
  {| PortManager.os_socket := fun _ => Return tt;
     PortManager.os_connect_ex :=
       fun h _ _ => if killed h then Return 111 else Return 0;
     PortManager.os_bind :=
       fun h _ _ => if killed h then Return tt else Raise (OSError 98);
     PortManager.os_lookup :=
       fun h _ => if killed h then Return None else Return (Some 4242);
     PortManager.os_kill := fun _ _ _ => Return tt |}.

(** Ports 8001 and 8002 are taken, the others are free. *)
Definition os_two_taken : PortManager.OS :=
  {| PortManager.os_socket := fun _ => Return tt;
     PortManager.os_connect_ex :=
       fun _ _ p => if (p =? 8001) || (p =? 8002) then Return 0
                    else Return 111;
     PortManager.os_bind :=
       fun _ _ p => if (p =? 8001) || (p =? 8002) then Raise (OSError 98)
                    else Return tt;
     PortManager.os_lookup := fun _ _ => Return (Some 4242);
     PortManager.os_kill := fun _ _ _ => Raise PermissionError |}.

(** ** Tunnels *)

(** A manager whose tunnel process 777 is up. *)
Definition mgr_running : NgrokManager.t :=
  {| NgrokManager.port := 8001;
     NgrokManager.authtoken := Some "token";
     NgrokManager.domain := None;
     NgrokManager.process := Some 777;
     NgrokManager.tunnel_url := Some "https://example.ngrok.io";
     NgrokManager.api_url := "http://localhost:4040/api" |}.

(** The process exits on SIGTERM within the wait. *)
Definition procs_graceful : NgrokManager.Procs :=
  {| NgrokManager.proc_terminate := fun _ _ => Return tt;
     NgrokManager.proc_wait := fun _ _ _ => Return 0;
     NgrokManager.proc_kill := fun _ _ => Return tt |}.

(** The process ignores SIGTERM: the bounded wait times out, the wait
    after the kill returns. *)
Definition procs_hanging : NgrokManager.Procs :=
  {| NgrokManager.proc_terminate := fun _ _ => Return tt;
     NgrokManager.proc_wait :=
       fun _ _ timeout =>
         match timeout with
         | Some _ => Raise TimeoutExpired
         | None => Return (-9)
         end;
     NgrokManager.proc_kill := fun _ _ => Return tt |}.

(** The termination signal cannot be delivered. *)
Definition procs_refusing : NgrokManager.Procs :=
  {| NgrokManager.proc_terminate := fun _ _ => Raise PermissionError;
     NgrokManager.proc_wait := fun _ _ _ => Return 0;
     NgrokManager.proc_kill := fun _ _ => Raise PermissionError |}.

(** ** Webhook requests *)

Import TriggerWebhook.

Definition quote : ascii := chr 34.
Definition backslash : ascii := chr 92.

Fixpoint escape (s : string) : string :=
  match s with
  | EmptyString => EmptyString
  | String c t =>
      if Ascii.eqb c quote || Ascii.eqb c backslash
      then String backslash (String c (escape t))
      else String c (escape t)
  end.

Definition quoted (s : string) : string :=
  String quote (escape s ++ String quote "")%string.

(** The words for the floats that are not numbers, and for zero; the
    samples hold no other float. *)
Definition float_text (x : SpecFloat.spec_float) : string :=
  match x with
  | SpecFloat.S754_nan => "NaN"
  | SpecFloat.S754_infinity false => "Infinity"
  | SpecFloat.S754_infinity true => "-Infinity"
  | SpecFloat.S754_zero true => "-0.0"
  | _ => "0.0"
  end.

(** The compact JSON text of a value, as a client sends it. *)
Fixpoint dumps (v : json) : string :=
  match v with
  | JNull => "null"
  | JBool true => "true"
  | JBool false => "false"
  | JNum n => DecimalString.NilZero.string_of_int (Z.to_int n)
  | JFloat x => float_text x
  | JStr s => quoted s
  | JArr items =>
      ("[" ++ (fix go (l : list json) : string :=
                 match l with
                 | [] => ""
                 | x :: r =>
                     match r with
                     | [] => dumps x
                     | _ => dumps x ++ "," ++ go r
                     end
                 end) items ++ "]")%string
  | JObj items =>
      ("{" ++ (fix go (l : list (string * json)) : string :=
                 match l with
                 | [] => ""
                 | (k, x) :: r =>
                     match r with
                     | [] => quoted k ++ ":" ++ dumps x
                     | _ => quoted k ++ ":" ++ dumps x ++ "," ++ go r
                     end
                 end) items ++ "}")%string
  end.

(** The signature header GitHub computes for a body under a secret. *)
Definition sign (secret : string) (raw : list byte) : string :=
  ("sha256=" ++ Hmac.hexdigest (encode_utf8 secret) raw)%string.

(** A delivery of [payload] for the event [event_type]; [signature] is the
    value of [X-Hub-Signature-256], if the header is sent. *)
Definition delivery (event_type : string) (signature : option string)
    (payload : json) : Request :=
  {| headers :=
       ("x-github-event", event_type)
       :: ("content-type", "application/json")
       :: match signature with
          | Some s => [("x-hub-signature-256", s)]
          | None => []
          end;
     body := bytes_of_string (dumps payload);
     json_ := Return payload |}.

(** A delivery whose body is not JSON. *)
Definition garbage : Request :=
  {| headers := [("x-github-event", "issues")];
     body := bytes_of_string "not json";
     json_ := Raise JSONDecodeError |}.

Definition issue_opened (number : Z) (text : string) : json :=
  JObj [ ("action", JStr "opened");
         ("issue", JObj [ ("number", JNum number);
                          ("title", JStr "Test Issue");
                          ("body", JStr text) ]) ].

Definition comment_created (number : Z) (text : string) : json :=
  JObj [ ("action", JStr "created");
         ("issue", JObj [ ("number", JNum number) ]);
         ("comment", JObj [ ("body", JStr text) ]) ].

(** The ping GitHub sends when a hook is set up. *)
Definition ping : json :=
  JObj [ ("zen", JStr "Design for failure."); ("hook_id", JNum 0) ].

Definition workflow_tokens : list string :=
  [ "adw_plan_build_test"; "adw_plan_build"; "adw_plan"; "adw_build";
    "adw_test" ].

(** Modelled from the spec: [extract_adw_info] of
    [adw_modules/workflow_ops.py] is missing; section 4.4 has the content
    scanned for a workflow-name token.  The longest token found is
    reported, and no job identifier. *)
Definition scan_workflow (text : string) : option string :=
  find (fun w => contains w text) workflow_tokens.

(** Collaborators that all succeed. *)
Definition env_ok : Env :=
  {| make_adw_id := fun _ => "a1b2c3d4";
     extract_adw_info := fun _ text _ => Return (scan_workflow text, None);
     state_save := fun _ _ _ => Return tt;
     setup_logger := fun _ _ => Return tt;
     make_issue_comment := fun _ _ _ _ _ => Return tt;
     popen := fun _ _ _ _ => Return 4321;
     printable := fun _ => true;
     encodable := fun _ => true |}.

(** An opened issue whose number is not a number. *)
Definition issue_opened_nan (text : string) : json :=
  JObj [ ("action", JStr "opened");
         ("issue", JObj [ ("number", JFloat SpecFloat.S754_nan);
                          ("body", JStr text) ]) ].

Definition srv0 : Server := {| processed_webhooks_count := 0 |}.

End Samples.

From Stdlib Require DecimalPos DecimalZ.

(* ===================================================================== *)
(** * The webhook handler: what a delivery leads to *)
(* ===================================================================== *)

Module Dispatch.
Import TriggerWebhook.

(** The words that open the trigger reason in the two branches. *)
Definition label (k : kind) : string :=
  match k with
  | IssueOpened => "New issue"
  | CommentCreated => "Comment"
  end.

(** [f"{label} with {workflow} workflow"] *)
Definition reason_for (k : kind) (w : string) : string :=
  (label k ++ " with " ++ w ++ " workflow")%string.

(** [payload["issue"]["number"]], when the payload has one. *)
Definition issue_number_of (request : Request) : option json :=
  match json_ request with
  | Return (JObj items) =>
      match assoc "issue" items with
      | Some (JObj fields) => assoc "number" fields
      | _ => None
      end
  | _ => None
  end.

(** A job was started: [subprocess.Popen] returned. *)
Definition launched (e : event) : bool :=
  match e with Popen _ _ _ (Return _) => true | _ => false end.

(** The effects of classifying [text], latest first: the temporary
    identifier is drawn, then [extract_adw_info] is asked. *)
Definition classified (text temp : string)
    (r : Exc (option string * option string)) : trace :=
  [ ExtractAdwInfo text temp r; MakeAdwId temp ].

(** The effects of a launch that went through, latest first, for the
    workflow [w] on [issue] with the identifier [provided] by the
    classifier: the state of a provided identifier is saved, or else a new
    identifier is drawn; the logger is set up, the comment is posted (its
    outcome [rc] is of no consequence) and the script is started. *)
Inductive launch_run (issue : json) (w : string) (provided : option string)
    (reason adw_id : string) : trace -> Prop :=
| launch_resumed (rc : Exc unit) (pid : Z) :
    provided = Some adw_id ->
    str_truthy adw_id = true ->
    launch_run issue w provided reason adw_id
      [ Popen (w ++ ".py") issue adw_id (Return pid);
        IssueComment issue w adw_id reason rc;
        SetupLogger adw_id (Return tt);
        StateSave adw_id issue (Return tt) ]
| launch_fresh (rc : Exc unit) (pid : Z) :
    opt_truthy provided = false ->
    launch_run issue w provided reason adw_id
      [ Popen (w ++ ".py") issue adw_id (Return pid);
        IssueComment issue w adw_id reason rc;
        SetupLogger adw_id (Return tt);
        MakeAdwId adw_id ].

(** The decision taken for a delivery, with the effects it took: none,
    or the classification of the text of an eligible event that mentions
    [adw_] (and, for a comment, is not marked as the bot's). *)
Definition decided (request : Request) (d : Decision) (evs : trace) : Prop :=
  (d = no_decision /\ evs = [])
  \/ exists k text temp,
       Eligible request k text
       /\ contains "adw_" (lower text) = true
       /\ (k = CommentCreated -> contains ADW_BOT_IDENTIFIER text = false)
       /\ evs = classified text temp (Return (workflow d, provided_adw_id d))
       /\ trigger_reason d
          = match workflow d with
            | Some w => if str_truthy w then reason_for k w else ""
            | None => ""
            end.

End Dispatch.

(* ===================================================================== *)
(** * Port management: vocabulary for the traces *)
(* ===================================================================== *)

Module PortTraces.
Import PortManager.

(** Every signal in [evs] (latest effect first) comes right after an owner
    lookup for [port] that returned the very process signalled. *)
Fixpoint kills_follow_lookups (port : Z) (evs : trace) : bool :=
  match evs with
  | [] => true
  | Kill pid _ _ :: rest =>
      match rest with
      | Lookup p (Return (Some owner)) :: _ => (p =? port) && (owner =? pid)
      | _ => false
      end && kills_follow_lookups port rest
  | _ :: rest => kills_follow_lookups port rest
  end.

(** The probe found nothing listening: it did not connect. *)
Definition probed_free (r : Exc Z) : bool :=
  match r with
  | Return errno => negb (errno =? 0)
  | Raise _ => true
  end.

End PortTraces.

(* ===================================================================== *)
(** * Python strings: stripping, splitting, numbers *)
(* ===================================================================== *)

Module PyStr.

(** [c.isspace()] for a code point below 256: tab to carriage return, the
    four separators 0x1C..0x1F, the space, NEL (0x85) and the no-break
    space (0xA0). *)
Definition isspace (c : ascii) : bool :=
  let n := ord c in
  ((9 <=? n) && (n <=? 13)) || ((28 <=? n) && (n <=? 32))
  || (n =? 133) || (n =? 160).

(** [s.lstrip()], [s.rstrip()] and [s.strip()] *)
Fixpoint lstrip (s : string) : string :=
  match s with
  | EmptyString => EmptyString
  | String c t => if isspace c then lstrip t else s
  end.

Fixpoint rstrip (s : string) : string :=
  match s with
  | EmptyString => EmptyString
  | String c t =>
      match rstrip t with
      | EmptyString => if isspace c then EmptyString else String c EmptyString
      | r => String c r
      end
  end.

Definition strip (s : string) : string := rstrip (lstrip s).

(** [s.split(sep)] reads [s] from the left and cuts at each occurrence of
    [sep] that does not overlap the one before.  [split_from sep skip s] is
    the piece that starts here and the pieces after it, [skip] characters
    of a separator being still to pass. *)
Fixpoint split_from (sep : string) (skip : nat) (s : string)
  : string * list string :=
  match s with
  | EmptyString => (EmptyString, [])
  | String c t =>
      match skip with
      | S k => split_from sep k t
      | O =>
          if String.prefix sep s
          then let (p, ps) := split_from sep (String.length sep - 1) t in
               (EmptyString, p :: ps)
          else let (p, ps) := split_from sep 0 t in (String c p, ps)
      end
  end.

(** [s.split(sep)]; the empty separator is refused with [ValueError]. *)
Definition split (s sep : string) : Exc (list string) :=
  if str_truthy sep
  then Return (let (p, ps) := split_from sep 0 s in p :: ps)
  else Raise ValueError.

(** [s.split()]: the runs of characters between white space.
    [fields_from s] is the run that starts here and the runs after it. *)
Fixpoint fields_from (s : string) : string * list string :=
  match s with
  | EmptyString => (EmptyString, [])
  | String c t =>
      let (w, ws) := fields_from t in
      if isspace c then (EmptyString, if str_truthy w then w :: ws else ws)
      else (String c w, ws)
  end.

Definition fields (s : string) : list string :=
  let (w, ws) := fields_from s in if str_truthy w then w :: ws else ws.

(** [l[i]] for [i >= 0]; [IndexError] is not among the classes of [exn]
    and goes by its name. *)
Definition IndexError : exn := OtherException "IndexError".

Definition item {A} (l : list A) (i : nat) : Exc A :=
  match nth_error l i with
  | Some a => Return a
  | None => Raise IndexError
  end.

(** ** [int(s)] and [str(n)]

    [int] takes a decimal numeral: white space around it is dropped, one
    sign may lead, and single underscores may stand between digits.  Below
    256 the decimal digits are [0] to [9].  Integers are unbounded, but a
    numeral of more than [max_str_digits] digits (leading zeros counted,
    underscores not) is refused with [ValueError]: the limit of the
    interpreter on conversions between [str] and [int], at its default. *)
Definition isdigit (c : ascii) : bool := (48 <=? ord c) && (ord c <=? 57).

Definition max_str_digits : Z := 4300.

Fixpoint count_digits (s : string) : Z :=
  match s with
  | EmptyString => 0
  | String c t => (if isdigit c then 1 else 0) + count_digits t
  end.

(** The value of the digits of [s] after [acc]; [after_digit] tells
    whether the character before was a digit. *)
Fixpoint digits_value (acc : Z) (after_digit : bool) (s : string)
  : option Z :=
  match s with
  | EmptyString => if after_digit then Some acc else None
  | String c t =>
      if isdigit c then digits_value (10 * acc + (ord c - 48)) true t
      else if Ascii.eqb c "_" && after_digit then digits_value acc false t
      else None
  end.

Definition int_of_str (s : string) : Exc Z :=
  let t := strip s in
  let (negative, body) :=
    match t with
    | String c r =>
        if Ascii.eqb c "+" then (false, r)
        else if Ascii.eqb c "-" then (true, r)
        else (false, t)
    | EmptyString => (false, t)
    end in
  match digits_value 0 false body with
  | Some n =>
      if max_str_digits <? count_digits body then Raise ValueError
      else Return (if negative then - n else n)
  | None => Raise ValueError
  end.

(** The numeral of an [int]. *)
Definition str_of_int (n : Z) : string :=
  DecimalString.NilZero.string_of_int (Z.to_int n).

(** The numeral of [n] has no more digits than the limit allows. *)
Definition within_limit (n : Z) : bool :=
  Z.of_nat (String.length (str_of_int (Z.abs n))) <=? max_str_digits.

(** [str(n)], and [f"{n}"], for an [int]: the numeral, which is refused
    with [ValueError] beyond the limit. *)
Definition format_int (n : Z) : Exc string :=
  if within_limit n then Return (str_of_int n) else Raise ValueError.

(** Strings without white space, without line feeds, of digits. *)
Fixpoint all_chars (p : ascii -> bool) (s : string) : bool :=
  match s with
  | EmptyString => true
  | String c t => p c && all_chars p t
  end.

Definition no_space (s : string) : bool :=
  all_chars (fun c => negb (isspace c)) s.

Definition one_line (s : string) : bool :=
  all_chars (fun c => negb (Ascii.eqb c (chr 10))) s.

(** [isinstance(e, ValueError)]: [json.JSONDecodeError] derives from
    [ValueError], and so do [UnicodeError] and its subclasses, which go by
    their names ([subprocess.run] raises [UnicodeDecodeError] when the
    output of the command cannot be decoded). *)
Definition ValueError_subclasses : list string :=
  [ "UnicodeError"; "UnicodeDecodeError"; "UnicodeEncodeError";
    "UnicodeTranslateError" ].

Definition is_ValueError (e : exn) : bool :=
  match e with
  | ValueError | JSONDecodeError => true
  | OtherException name => existsb (String.eqb name) ValueError_subclasses
  | _ => false
  end.

(** [subprocess.CalledProcessError] and [subprocess.CompletedProcess]
    (the fields the sources read, as [capture_output=True, text=True] fills
    them). *)
Definition CalledProcessError : exn := OtherException "CalledProcessError".

Definition is_CalledProcessError (e : exn) : bool :=
  match e with
  | OtherException name => String.eqb name "CalledProcessError"
  | _ => false
  end.

Record Completed : Type := {
  returncode : Z;
  stdout : string
}.

(** A listing: each line followed by a line feed. *)
Definition newline : string := String (chr 10) EmptyString.

Fixpoint unlines (ls : list string) : string :=
  match ls with
  | [] => EmptyString
  | l :: rest => (l ++ newline ++ unlines rest)%string
  end.

End PyStr.

(* ===================================================================== *)
(** * adw_modules/port_manager.py: the process tools *)
(* ===================================================================== *)

Module PortTools.
Import PyStr.

(** Effects: a command run to its end by [subprocess.run(cmd,
    capture_output=True, text=True)], and the effects of [PortManager]
    (the probe of [is_port_in_use], [os.kill]).  Log lines are not
    recorded. *)
Inductive event : Type :=
| Run (cmd : list string) (r : Exc Completed)
| Net (e : PortManager.event).

Definition trace : Type := list event.

(** The machine.  [system] is what [platform.system()] returns; [run]
    answers [subprocess.run]; [net h] is the socket and signal layer as it
    answers after the history [h], seeing besides the effects of
    [PortManager] made since. *)
Record Host : Type := {
  system : string;
  run : trace -> list string -> Exc Completed;
  net : trace -> PortManager.OS
}.

Definition subprocess_run (host : Host) (cmd : list string)
  : Eff Completed :=
  call (fun h => run host h cmd) (Run cmd).

(** A computation of [PortManager], run on the machine. *)
Definition on_net {A} (host : Host) (m : Eff (E := PortManager.event) A)
  : Eff A :=
  fun h => let (r, evs) := m [] in (r, (map Net evs ++ h)%list).

(** [is_port_in_use(port)] *)
Definition is_port_in_use (host : Host) (port : Z) : Eff bool :=
  fun h =>
    on_net host
      (PortManager.is_port_in_use (net host h) port PortManager.default_host)
      h.

(** [os.kill(pid, signal.SIGTERM)] *)
Definition os_kill (host : Host) (pid : Z) : Eff unit :=
  fun h =>
    on_net host
      (call (fun l => PortManager.os_kill (net host h) l pid
                        PortManager.SIGTERM)
            (PortManager.Kill pid PortManager.SIGTERM))
      h.

(** ** [get_process_using_port] *)

(** The loop over the lines of [ss]: the first line with the port and a
    [pid=] decides.  [tag] is [f":{port}"]. *)
Fixpoint scan_ss (tag : string) (lines : list string)
  : Eff (E := event) (option Z) :=
  match lines with
  | [] => ret None
  | line :: rest =>
      if contains tag line && contains "pid=" line then
        halves <- lift (split line "pid=") ;;
        pid_part <- lift (item halves 1) ;;
        upto_comma <- lift (split pid_part ",") ;;
        head <- lift (item upto_comma 0) ;;
        upto_paren <- lift (split head ")") ;;
        pid <- lift (item upto_paren 0) ;;
        n <- lift (int_of_str pid) ;;
        ret (Some n)
      else scan_ss tag rest
  end.

(** [f":{port}"], for a port whose numeral is within the limit. *)
Definition port_tag (port : Z) : string := (":" ++ str_of_int port)%string.

(** The command for the platform: [lsof] on macOS, [ss] on Linux. *)
Definition lookup_command (sys_name : string) (port : Z) : list string :=
  if String.eqb sys_name "Darwin" then ["lsof"; "-ti"; port_tag port]
  else ["ss"; "-lptn"; ("sport = " ++ port_tag port)%string].

Definition supported (sys_name : string) : bool :=
  String.eqb sys_name "Darwin" || String.eqb sys_name "Linux".

(** The body of the [try].  The command line is built first, and
    formatting the port into it is refused beyond the limit. *)
Definition get_process_using_port_try (host : Host) (port : Z)
  : Eff (option Z) :=
  if supported (system host) then
    _ <- lift (format_int port) ;;
    result <- subprocess_run host (lookup_command (system host) port) ;;
    if (returncode result =? 0) && str_truthy (strip (stdout result)) then
      if String.eqb (system host) "Darwin" then
        pids <- lift (split (strip (stdout result)) newline) ;;
        match pids with
        | [] => ret None
        | _ =>
            first <- lift (item pids 0) ;;
            n <- lift (int_of_str first) ;;
            ret (Some n)
        end
      else
        lines <- lift (split (strip (stdout result)) newline) ;;
        scan_ss (port_tag port) lines
    else ret None
  else ret None.

(** [get_process_using_port(port)] *)
Definition get_process_using_port (host : Host) (port : Z)
  : Eff (option Z) :=
  try_except (get_process_using_port_try host port)
    (fun e => is_CalledProcessError e || is_ValueError e)
    (fun _ => ret None).

(** ** [cleanup_zombie_processes] *)

(** One line of the listing of [ps aux], [cleaned] being the count so
    far: the new count. *)
Definition sweep_line (host : Host) (service_name line : string)
    (cleaned : Z) : Eff Z :=
  if contains service_name line && contains "python" line then
    let parts := fields line in
    if (1 <? Z.of_nat (List.length parts)) then
      try_except
        (field <- lift (item parts 1) ;;
         pid <- lift (int_of_str field) ;;
         _ <- os_kill host pid ;;
         ret (cleaned + 1))
        (fun e => is_ValueError e || is_ProcessLookupError e
                  || is_PermissionError e)
        (fun _ => ret cleaned)
    else ret cleaned
  else ret cleaned.

(** The loop.  [cleaned] is a local variable of the function: an
    exception that leaves the loop is caught by the outer [try], and
    [return cleaned] then finds the count reached before the line that
    raised. *)
Fixpoint sweep (host : Host) (service_name : string) (lines : list string)
    (cleaned : Z) : Eff Z :=
  match lines with
  | [] => ret cleaned
  | line :: rest =>
      r <- try_except
             (c <- sweep_line host service_name line cleaned ;; ret (Some c))
             any_Exception
             (fun _ => ret None) ;;
      match r with
      | Some c => sweep host service_name rest c
      | None => ret cleaned
      end
  end.

(** [cleanup_zombie_processes(service_name)] *)
Definition cleanup_zombie_processes (host : Host) (service_name : string)
  : Eff Z :=
  if supported (system host) then
    try_except
      (result <- subprocess_run host ["ps"; "aux"] ;;
       if returncode result =? 0 then
         lines <- lift (split (strip (stdout result)) newline) ;;
         sweep host service_name lines 0
       else ret 0)
      any_Exception
      (fun _ => ret 0)
  else ret 0.

(** ** [get_port_info] *)




(** ** Vocabulary for the statements *)


(** The signals sent, oldest first, each with whether it went through. *)
Definition kills (evs : trace) : list (Z * PortManager.signal * bool) :=
  flat_map (fun e => match e with
                     | Net (PortManager.Kill pid sig r) =>
                         [(pid, sig, returns r)]
                     | _ => []
                     end) (rev evs).


(** A line of the process listing that [cleanup_zombie_processes] acts
    on, with the process it names. *)
Definition targets (service_name line : string) (pid : Z) : Prop :=
  contains service_name line = true
  /\ contains "python" line = true
  /\ exists field,
       nth_error (fields line) 1 = Some field
       /\ int_of_str field = Return pid.

(** What may follow the number in a [pid=] entry for the number to be
    read: nothing, a comma or a closing parenthesis. *)
Definition closes_number (y : string) : bool :=
  match y with
  | EmptyString => true
  | String c _ => Ascii.eqb c "," || Ascii.eqb c ")"
  end.

(** The exceptions the sweep of [cleanup_zombie_processes] takes for one
    line. *)
Definition swallowed (e : exn) : bool :=
  is_ValueError e || is_ProcessLookupError e || is_PermissionError e.

(** The number of signals that went through. *)
Definition delivered (evs : trace) : Z :=
  Z.of_nat (List.length (filter (fun k => snd k) (kills evs))).

(** A [SIGTERM] for a process that one of [lines] names. *)
Definition signal_for (service_name : string) (lines : list string)
    (e : event) : Prop :=
  exists pid k line,
    e = Net (PortManager.Kill pid PortManager.SIGTERM k)
    /\ In line lines /\ targets service_name line pid.

(** An [os.kill] that failed with an exception the sweep does not take. *)
Definition aborting (e : event) : bool :=
  match e with
  | Net (PortManager.Kill _ _ (Raise x)) => negb (swallowed x)
  | _ => false
  end.

End PortTools.

(* ===================================================================== *)
(** * adw_triggers/trigger_webhook.py: running the server *)
(* ===================================================================== *)

Module Server.

(** How a call of [uvicorn.run] ends.  It returns when the server has
    stopped; it may raise an [Exception]; and it leaves with [sys.exit]
    when the server could not start (code 1 from the startup when the
    address cannot be bound, code 3 from [run] itself) or when a signal
    handler of the module exits.  [SystemExit] is not an [Exception]. *)
Inductive ending : Type :=
| Returned
| Crashed (e : exn)
| SysExit (code : Z).

(** Effects: [logging.basicConfig] with its file and stream handlers,
    [uvicorn.run] on a port, [time.sleep] with the seconds asked for, and
    the effects of [handle_port_conflict].  What is printed is not
    recorded: the texts are constants of the program, port numbers and
    the messages of exceptions, which are taken to be encodable for
    [sys.stdout]. *)
Inductive event : Type :=
| Logging (r : Exc unit)
| Serve (port : Z) (r : ending)
| Pause (seconds : Z)
| Net (e : PortManager.event).

Definition trace : Type := list event.

Record World : Type := {
  logging_config : trace -> Exc unit;
  uvicorn_run : trace -> Z -> ending;
  net : trace -> PortManager.OS
}.

(** How [run_server_with_retry] ends when it does not raise an
    [Exception]: it returns, or a [SystemExit] leaves it, its own or one
    of [uvicorn.run] (no handler of the function takes it). *)
Inductive outcome : Type :=
| Stopped
| Exit (code : Z).

Definition configure_logging (w : World) : Eff unit :=
  call (logging_config w) Logging.

(** [uvicorn.run(app, host="0.0.0.0", port=PORT, ...)]: [None] is the
    [SystemExit] with its code. *)
Definition serve (w : World) (port : Z) : Eff (option Z) :=
  fun h =>
    let r := uvicorn_run w h port in
    (match r with
     | Returned => Return None
     | Crashed e => Raise e
     | SysExit code => Return (Some code)
     end, Serve port r :: h).

(** [time.sleep(seconds)]; a negative length is refused with
    [ValueError]. *)
Definition sleep (seconds : Z) : Eff (E := event) unit :=
  if seconds <? 0 then raise ValueError
  else fun h => (Return tt, Pause seconds :: h).

(** [handle_port_conflict(PORT)], with its default of three rounds. *)
Definition handle_port_conflict (w : World) (port : Z) : Eff Z :=
  fun h =>
    let (r, evs) := PortConflict.handle_port_conflict (net w h) port 3 [] in
    (r, (map Net evs ++ h)%list).

(** The loop [for attempt in range(max_retries)], [remaining] rounds
    being left; [PORT] is the global variable, and the result holds its
    value at the end. *)
Fixpoint attempts (w : World) (max_retries retry_delay attempt : Z)
    (remaining : nat) (PORT : Z) : Eff (outcome * Z) :=
  match remaining with
  | O => ret (Stopped, PORT)
  | S n =>
      round <- try_except
                 (_ <- configure_logging w ;;
                  exited <- serve w PORT ;;
                  ret (Some exited))
                 any_Exception
                 (fun _ => ret None) ;;
      match round with
      | Some (Some code) => ret (Exit code, PORT)
      | Some None => ret (Stopped, PORT)
      | None =>
          if attempt <? max_retries - 1 then
            _ <- sleep retry_delay ;;
            PORT' <- try_except (handle_port_conflict w PORT) any_Exception
                       (fun _ => ret PORT) ;;
            attempts w max_retries retry_delay (attempt + 1) n PORT'
          else ret (Exit 1, PORT)
      end
  end.

(** [run_server_with_retry(max_retries, retry_delay)] *)
Definition run_server_with_retry (w : World) (max_retries retry_delay : Z)
    (PORT : Z) : Eff (outcome * Z) :=
  attempts w max_retries retry_delay 0 (Z.to_nat max_retries) PORT.

(** ** Vocabulary for the statements *)

(** The rounds begun: each begins by configuring the logging. *)
Definition rounds (evs : trace) : nat :=
  List.length
    (filter (fun e => match e with Logging _ => true | _ => false end) evs).

(** The server did not stop normally in this effect, and did not exit
    either. *)
Definition no_clean_stop (e : event) : bool :=
  match e with Serve _ Returned | Serve _ (SysExit _) => false | _ => true end.

(** A server is only started on a port from [lo] to [hi]. *)
Definition served_within (lo hi : Z) (e : event) : Prop :=
  match e with Serve q _ => lo <= q <= hi | _ => True end.

End Server.

(* ===================================================================== *)
(** * adw_triggers/ngrok_manager.py: starting and watching the tunnel *)
(* ===================================================================== *)

Module Tunnel.
Import PyStr.

Abbreviation json := TriggerWebhook.json.
Abbreviation JNull := TriggerWebhook.JNull.
Abbreviation JBool := TriggerWebhook.JBool.
Abbreviation JNum := TriggerWebhook.JNum.
Abbreviation JStr := TriggerWebhook.JStr.
Abbreviation JArr := TriggerWebhook.JArr.
Abbreviation JObj := TriggerWebhook.JObj.
Abbreviation manager := NgrokManager.t.

(** What [requests.get] returns: the status, and what [response.json()]
    gives when it is asked for. *)
Record Response : Type := {
  status_code : Z;
  json_ : Exc json
}.

(** Effects: [subprocess.run] with its timeout, [subprocess.Popen] (the
    child is named by its pid), [time.sleep] with the seconds,
    [requests.get] with its timeout, [Popen.poll], and the effects of
    [stop_tunnel] on the child.  Log lines are not recorded. *)
Inductive event : Type :=
| Run (cmd : list string) (timeout : option Z) (r : Exc Completed)
| Spawn (cmd : list string) (r : Exc Z)
| Pause (seconds : Z)
| Get (url : string) (timeout : Z) (r : Exc Response)
| Poll (proc : Z) (r : Exc (option Z))
| Proc (e : NgrokManager.event).

Definition trace : Type := list event.

Record World : Type := {
  os_name : string;
  getenv : string -> option string;
  run : trace -> list string -> option Z -> Exc Completed;
  popen : trace -> list string -> Exc Z;
  http_get : trace -> string -> Z -> Exc Response;
  poll : trace -> Z -> Exc (option Z);
  procs : trace -> NgrokManager.Procs
}.

(** ** Exception classes *)

Definition is_FileNotFoundError (e : exn) : bool :=
  match e with FileNotFoundError => true | _ => false end.

(** [isinstance(e, requests.exceptions.RequestException)].  The classes of
    [requests] go by their dotted names; every exception class of
    [requests.exceptions] derives from [RequestException]. *)
Definition is_RequestException (e : exn) : bool :=
  match e with
  | OtherException name => String.prefix "requests.exceptions." name
  | _ => false
  end.

(** ** The object *)

(** Truth value of an [Optional[str]]. *)
Definition opt_truthy (o : option string) : bool :=
  match o with Some s => str_truthy s | None => false end.

(** [a or b] *)
Definition py_or (a b : option string) : option string :=
  if opt_truthy a then a else b.

(** [NgrokManager(port, authtoken, domain)] *)
Definition create (w : World) (port : Z) (authtoken domain : option string)
  : manager :=
  NgrokManager.init port
    (py_or authtoken (getenv w "NGROK_AUTHTOKEN"))
    (py_or domain (getenv w "NGROK_DOMAIN")).

(** [self.process = p] and [self.tunnel_url = u] *)
Definition with_process (self : manager) (p : option Z) : manager :=
  {| NgrokManager.port := NgrokManager.port self;
     NgrokManager.authtoken := NgrokManager.authtoken self;
     NgrokManager.domain := NgrokManager.domain self;
     NgrokManager.process := p;
     NgrokManager.tunnel_url := NgrokManager.tunnel_url self;
     NgrokManager.api_url := NgrokManager.api_url self |}.

Definition with_tunnel_url (self : manager) (u : option string) : manager :=
  {| NgrokManager.port := NgrokManager.port self;
     NgrokManager.authtoken := NgrokManager.authtoken self;
     NgrokManager.domain := NgrokManager.domain self;
     NgrokManager.process := NgrokManager.process self;
     NgrokManager.tunnel_url := u;
     NgrokManager.api_url := NgrokManager.api_url self |}.

(** ** Methods that change the object

    A method runs on the object and the history; what it has assigned to
    the object stays when it raises. *)
Definition St (A : Type) : Type :=
  manager -> trace -> Exc A * manager * trace.

Definition st_ret {A} (a : A) : St A := fun self h => (Return a, self, h).

Definition st_bind {A B} (m : St A) (f : A -> St B) : St B :=
  fun self h =>
    match m self h with
    | (Return a, self', h') => f a self' h'
    | (Raise e, self', h') => (Raise e, self', h')
    end.

(** A computation that leaves the object alone. *)
Definition st_eff {A} (m : Eff (E := event) A) : St A :=
  fun self h => let (r, h') := m h in (r, self, h').

Definition st_self : St manager := fun self h => (Return self, self, h).

Definition st_assign (f : manager -> manager) : St unit :=
  fun self h => (Return tt, f self, h).

Definition st_try {A} (m : St A) (handles : exn -> bool)
    (handler : exn -> St A) : St A :=
  fun self h =>
    match m self h with
    | (Raise e, self', h') =>
        if handles e then handler e self' h' else (Raise e, self', h')
    | r => r
    end.

Declare Scope st_scope.
Delimit Scope st_scope with st.
Notation "x <~ m ;; k" := (st_bind m (fun x => k))
  (at level 61, m at next level, right associativity) : st_scope.
Open Scope st_scope.

Definition subprocess_run (w : World) (cmd : list string)
    (timeout : option Z) : Eff Completed :=
  call (fun h => run w h cmd timeout) (Run cmd timeout).

Definition sleep (seconds : Z) : Eff (E := event) unit :=
  fun h => (Return tt, Pause seconds :: h).

Definition requests_get (w : World) (url : string) (timeout : Z)
  : Eff Response :=
  call (fun h => http_get w h url timeout) (Get url timeout).

(** [self.stop_tunnel()] *)
Definition stop_tunnel (w : World) : St unit :=
  fun self h =>
    let (r, evs) := NgrokManager.stop_tunnel (procs w h) self [] in
    match r with
    | Return self' => (Return tt, self', (map Proc evs ++ h)%list)
    | Raise e => (Raise e, self, (map Proc evs ++ h)%list)
    end.

(** [self.is_installed()] *)
Definition is_installed (w : World) : Eff bool :=
  try_except
    (result <- subprocess_run w ["ngrok"; "version"] (Some 5) ;;
     ret (returncode result =? 0))
    (fun e => is_TimeoutExpired e || is_FileNotFoundError e)
    (fun _ => ret false).

(** [self.is_configured()] *)
Definition is_configured (self : manager) : bool :=
  opt_truthy (NgrokManager.authtoken self).

(** [self.cleanup_existing_tunnels()] *)
Definition cleanup_existing_tunnels (w : World) : Eff unit :=
  try_except
    (_ <- (if String.eqb (os_name w) "posix"
           then subprocess_run w ["killall"; "ngrok"] None
           else subprocess_run w ["taskkill"; "/F"; "/IM"; "ngrok.exe"]
                  None) ;;
     sleep 1)
    any_Exception
    (fun _ => ret tt).

(** ** [get_tunnel_url] *)

(** What [for x in v] goes through: the items of a list, the characters
    of a [str], the keys of a [dict]; [TypeError] for the rest. *)
Fixpoint chars (s : string) : list json :=
  match s with
  | EmptyString => []
  | String c t => JStr (String c EmptyString) :: chars t
  end.

Definition iterate (v : json) : Exc (list json) :=
  match v with
  | JArr items => Return items
  | JStr s => Return (chars s)
  | JObj items => Return (map (fun kv => JStr (fst kv)) items)
  | _ => Raise TypeError
  end.

(** The loop over the tunnels; [Some url] is [return url].  Only a [str]
    has the method [startswith]: another value that counts as true raises
    [AttributeError]. *)
Fixpoint scan_tunnels (tunnels : list json) : St (option string) :=
  match tunnels with
  | [] => st_ret None
  | tunnel :: rest =>
      proto <~ st_eff (lift (TriggerWebhook.get tunnel "proto" JNull)) ;;
      if TriggerWebhook.eq_str proto "http"
         || TriggerWebhook.eq_str proto "https" then
        public_url <~ st_eff (lift (TriggerWebhook.get tunnel "public_url"
                                      JNull)) ;;
        if TriggerWebhook.truthy public_url then
          match public_url with
          | JStr url =>
              if startswith url "https://" then st_ret (Some url)
              else
                self <~ st_self ;;
                if negb (opt_truthy (NgrokManager.tunnel_url self)) then
                  _ <~ st_assign (fun s => with_tunnel_url s (Some url)) ;;
                  scan_tunnels rest
                else scan_tunnels rest
          | _ => st_eff (raise AttributeError)
          end
        else scan_tunnels rest
      else scan_tunnels rest
  end.

(** The body of the [try] of one attempt; [Some url] is [return url]. *)
Definition tunnel_url_try (w : World) : St (option string) :=
  self <~ st_self ;;
  response <~ st_eff (requests_get w
                        (NgrokManager.api_url self ++ "/tunnels")%string 2) ;;
  if status_code response =? 200 then
    data <~ st_eff (lift (json_ response)) ;;
    tunnels <~ st_eff (lift (TriggerWebhook.get data "tunnels" (JArr []))) ;;
    items <~ st_eff (lift (iterate tunnels)) ;;
    found <~ scan_tunnels items ;;
    match found with
    | Some url => st_ret (Some url)
    | None =>
        self' <~ st_self ;;
        if opt_truthy (NgrokManager.tunnel_url self')
        then st_ret (NgrokManager.tunnel_url self')
        else st_ret None
    end
  else st_ret None.

(** [for attempt in range(max_retries)], [remaining] attempts being
    left. *)
Fixpoint tunnel_url_attempts (w : World) (max_retries attempt : Z)
    (remaining : nat) : St (option string) :=
  match remaining with
  | O => st_ret None
  | S n =>
      found <~ st_try (tunnel_url_try w) is_RequestException
                 (fun _ => st_ret None) ;;
      match found with
      | Some url => st_ret (Some url)
      | None =>
          _ <~ (if attempt <? max_retries - 1 then st_eff (sleep 1)
                else st_ret tt) ;;
          tunnel_url_attempts w max_retries (attempt + 1) n
      end
  end.

(** [self.get_tunnel_url()] *)
Definition get_tunnel_url (w : World) : St (option string) :=
  tunnel_url_attempts w 10 0 10.

(** ** [start_tunnel] *)

(** The command line of the tunnel. *)
Definition tunnel_command (self : manager) (protocol : string)
  : list string :=
  (["ngrok"; protocol; str_of_int (NgrokManager.port self)]
   ++ (match NgrokManager.authtoken self with
       | Some token => if str_truthy token then ["--authtoken"; token] else []
       | None => []
       end)
   ++ (match NgrokManager.domain self with
       | Some d => if str_truthy d then ["--domain"; d] else []
       | None => []
       end)
   ++ ["--log"; "stdout"; "--log-format"; "json"; "--log-level"; "info"])%list.

(** The body of the [try]. *)
Definition start_tunnel_try (w : World) (protocol : string)
  : St (option string) :=
  _ <~ st_eff (cleanup_existing_tunnels w) ;;
  self <~ st_self ;;
  let cmd := tunnel_command self protocol in
  proc <~ st_eff (call (fun h => popen w h cmd) (Spawn cmd)) ;;
  _ <~ st_assign (fun s => with_process s (Some proc)) ;;
  _ <~ st_eff (sleep 3) ;;
  url <~ get_tunnel_url w ;;
  _ <~ st_assign (fun s => with_tunnel_url s url) ;;
  if opt_truthy url then st_ret url
  else
    _ <~ stop_tunnel w ;;
    st_ret None.

(** [self.start_tunnel(protocol)] *)
Definition start_tunnel (w : World) (protocol : string)
  : St (option string) :=
  installed <~ st_eff (is_installed w) ;;
  if negb installed then st_ret None
  else
    self <~ st_self ;;
    if negb (is_configured self) then st_ret None
    else
      st_try (start_tunnel_try w protocol) any_Exception
        (fun _ => _ <~ stop_tunnel w ;; st_ret None).

(** ** [get_tunnel_status] *)

(** The dictionary [get_tunnel_status] returns; [metrics] is [None] for
    the empty dictionary and holds the two counters otherwise. *)
Record Status : Type := {
  active : bool;
  url : option string;
  status_port : Z;
  metrics : option (json * json)
}.

(** The inner [try]: the counters, if they can be read. *)
Definition read_metrics (w : World) (self : manager)
  : Eff (option (json * json)) :=
  response <- requests_get w (NgrokManager.api_url self ++ "/metrics")%string
                2 ;;
  if status_code response =? 200 then
    metrics <- lift (json_ response) ;;
    connections <- lift (TriggerWebhook.get metrics "connections" (JNum 0)) ;;
    http <- lift (TriggerWebhook.get metrics "http" (JObj [])) ;;
    count <- lift (TriggerWebhook.get http "count" (JNum 0)) ;;
    ret (Some (connections, count))
  else ret None.

(** [self.get_tunnel_status()] *)
Definition get_tunnel_status (w : World) (self : manager) : Eff Status :=
  let idle := {| active := false; url := None;
                 status_port := NgrokManager.port self; metrics := None |} in
  match NgrokManager.process self with
  | None => ret idle
  | Some proc =>
      try_except
        (code <- call (fun h => poll w h proc) (Poll proc) ;;
         match code with
         | None =>
             m <- try_except (read_metrics w self) any_Exception
                    (fun _ => ret None) ;;
             ret {| active := true; url := NgrokManager.tunnel_url self;
                    status_port := NgrokManager.port self; metrics := m |}
         | Some _ => ret idle
         end)
        any_Exception
        (fun _ => ret idle)
  end.

(** ** The small ones *)

(** [self.get_webhook_url(path)] *)
Definition get_webhook_url (self : manager) (path : string)
  : option string :=
  match NgrokManager.tunnel_url self with
  | Some u => if str_truthy u then Some (u ++ path)%string else None
  | None => None
  end.

(** [check_ngrok_installation()]; what it prints is not recorded. *)
Definition check_ngrok_installation (w : World) : Eff bool :=
  is_installed w.

(** [setup_ngrok_auth(authtoken)] *)
Definition setup_ngrok_auth (w : World) (authtoken : string) : Eff bool :=
  try_except
    (result <- subprocess_run w ["ngrok"; "config"; "add-authtoken"; authtoken]
                 None ;;
     ret (returncode result =? 0))
    any_Exception
    (fun _ => ret false).

(** [with NgrokManager(...) as m: ...]: entry and exit. *)
Definition __enter__ (w : World) : St unit :=
  _ <~ start_tunnel w "http" ;; st_ret tt.

Definition __exit__ (w : World) : St unit := stop_tunnel w.

(** ** Vocabulary for the statements *)

Definition gets (evs : trace) : nat :=
  List.length
    (filter (fun e => match e with Get _ _ _ => true | _ => false end) evs).

Definition pauses (evs : trace) : nat :=
  List.length
    (filter (fun e => match e with Pause _ => true | _ => false end) evs).

(** An effect of [get_tunnel_url]: a request for the tunnels with a
    timeout of two seconds, or a pause of one second. *)
Definition polling (api : string) (e : event) : bool :=
  match e with
  | Get u t _ => String.eqb u (api ++ "/tunnels") && (t =? 2)
  | Pause s => s =? 1
  | _ => false
  end.

(** [a] directly followed by [b] in [l]. *)
Fixpoint adjacent (a b : string) (l : list string) : bool :=
  match l with
  | x :: ((y :: _) as rest) =>
      (String.eqb x a && String.eqb y b) || adjacent a b rest
  | _ => false
  end.

(** An entry of the tunnel list that the loop of [get_tunnel_url] passes
    without returning or raising: a dictionary whose protocol is not
    [http] or [https], or whose URL counts as false, or whose URL is a
    string that does not start with [https://]. *)
Definition passed (tunnel : json) : bool :=
  match tunnel with
  | JObj items =>
      let proto := match TriggerWebhook.assoc "proto" items with
                   | Some v => v | None => JNull end in
      let public_url := match TriggerWebhook.assoc "public_url" items with
                        | Some v => v | None => JNull end in
      if TriggerWebhook.eq_str proto "http"
         || TriggerWebhook.eq_str proto "https" then
        match public_url with
        | JStr url => negb (startswith url "https://")
        | v => negb (TriggerWebhook.truthy v)
        end
      else true
  | _ => false
  end.

(** An entry for a tunnel with a secure URL. *)
Definition secure (tunnel : json) (url : string) : bool :=
  match tunnel with
  | JObj items =>
      match TriggerWebhook.assoc "proto" items,
            TriggerWebhook.assoc "public_url" items with
      | Some proto, Some (JStr u) =>
          (TriggerWebhook.eq_str proto "http"
           || TriggerWebhook.eq_str proto "https")
          && String.eqb u url && startswith url "https://"
      | _, _ => false
      end
  | _ => false
  end.

(** The effects of a stop of the process [proc]: they begin with the
    graceful signal. *)
Definition stopping (proc : Z) (evs : trace) : Prop :=
  exists later r,
    evs = map Proc (later ++ [NgrokManager.Terminate proc r]).

Definition version_check : list string := ["ngrok"; "version"].

(** Effects that start, stop or ask nothing: a command run to its end, a
    pause. *)
Definition housekeeping (e : event) : bool :=
  match e with Run _ _ _ | Pause _ => true | _ => false end.

End Tunnel.

(* ===================================================================== *)
(** * More concrete environments *)
(* ===================================================================== *)

Module MoreSamples.

(** The collaborators of the handler, with a GitHub client that cannot
    post comments. *)
Definition env_comment_fails : TriggerWebhook.Env :=
  {| TriggerWebhook.make_adw_id := fun _ => "a1b2c3d4";
     TriggerWebhook.extract_adw_info :=
       fun _ text _ => Return (Samples.scan_workflow text, None);
     TriggerWebhook.state_save := fun _ _ _ => Return tt;
     TriggerWebhook.setup_logger := fun _ _ => Return tt;
     TriggerWebhook.make_issue_comment :=
       fun _ _ _ _ _ => Raise RuntimeError;
     TriggerWebhook.popen := fun _ _ _ _ => Return 4321;
     TriggerWebhook.printable := fun _ => true;
     TriggerWebhook.encodable := fun _ => true |}.

(** A process listens on every port, and the tool that would name it
    ([lsof], [ss]) is not installed: the owner lookup raises. *)
Definition os_no_tool : PortManager.OS :=
  {| PortManager.os_socket := fun _ => Return tt;
     PortManager.os_connect_ex := fun _ _ _ => Return 0;
     PortManager.os_bind := fun _ _ _ => Raise (OSError 98);
     PortManager.os_lookup := fun _ _ => Raise FileNotFoundError;
     PortManager.os_kill := fun _ _ _ => Return tt |}.

(** ** Machines *)

(** What the tools print: [lsof -ti], [ss -lptn], [ps aux] and
    [ps -p <pid> -o <column>=]. *)
Definition lsof_output : string := PyStr.unlines ["4242"; "4250"].

Definition ss_header : string :=
  "State  Recv-Q Send-Q Local Address:Port Peer Address:Port Process".

Definition ss_entry_start : string :=
  ("LISTEN 0      2048   0.0.0.0:8001       0.0.0.0:*     users:(("
   ++ String Samples.quote "python" ++ String Samples.quote ",")%string.

Definition ss_entry : string := (ss_entry_start ++ "pid=4242,fd=6))")%string.

Definition ss_output : string := PyStr.unlines [ss_header; ss_entry].

Definition ps_listing : string :=
  PyStr.unlines
    ["USER  PID %CPU COMMAND";
     "root    1  0.0 /sbin/init";
     "adw  4242  0.3 python adws/adw_triggers/trigger_webhook.py";
     "adw  4250  0.1 python -m webhook_worker";
     "adw  4260  0.0 python -m webhook_tail"].

Definition tools (cmd : list string) : Exc PyStr.Completed :=
  let tool := hd "" cmd in
  let printed :=
    if String.eqb tool "lsof" then lsof_output
    else if String.eqb tool "ss" then ss_output
    else if String.eqb (nth 1 cmd "") "aux" then ps_listing
    else if String.eqb (nth 4 cmd "") "comm=" then PyStr.unlines ["python"]
    else PyStr.unlines ["python adws/adw_triggers/trigger_webhook.py"] in
  Return {| PyStr.returncode := 0; PyStr.stdout := printed |}.

(** A process listens on every port; every signal is delivered. *)
Definition os_listening : PortManager.OS :=
  {| PortManager.os_socket := fun _ => Return tt;
     PortManager.os_connect_ex := fun _ _ _ => Return 0;
     PortManager.os_bind := fun _ _ _ => Raise (OSError 98);
     PortManager.os_lookup := fun _ _ => Return (Some 4242);
     PortManager.os_kill := fun _ _ _ => Return tt |}.

(** The same, but signalling process 4250 fails with EINVAL. *)
Definition os_kill_fails : PortManager.OS :=
  {| PortManager.os_socket := fun _ => Return tt;
     PortManager.os_connect_ex := fun _ _ _ => Return 0;
     PortManager.os_bind := fun _ _ _ => Raise (OSError 98);
     PortManager.os_lookup := fun _ _ => Return (Some 4242);
     PortManager.os_kill :=
       fun _ pid _ => if pid =? 4250 then Raise (OSError 22)
                      else Return tt |}.

Definition mac_host : PortTools.Host :=
  {| PortTools.system := "Darwin";
     PortTools.run := fun _ => tools;
     PortTools.net := fun _ => os_listening |}.

Definition linux_host : PortTools.Host :=
  {| PortTools.system := "Linux";
     PortTools.run := fun _ => tools;
     PortTools.net := fun _ => os_listening |}.

Definition linux_host_faulty : PortTools.Host :=
  {| PortTools.system := "Linux";
     PortTools.run := fun _ => tools;
     PortTools.net := fun _ => os_kill_fails |}.

(** The listing, as an effect. *)
Definition listed : PortTools.event :=
  PortTools.Run ["ps"; "aux"]
    (Return {| PyStr.returncode := 0; PyStr.stdout := ps_listing |}).

Definition term (pid : Z) (r : Exc unit) : PortTools.event :=
  PortTools.Net (PortManager.Kill pid PortManager.SIGTERM r).

(** ** Servers *)

Definition configured (h : Server.trace) : bool :=
  existsb (fun e => match e with Server.Logging _ => true | _ => false end) h.

(** The directory of the log file is missing at first: the file handler
    of the first round raises [FileNotFoundError]; later rounds find it,
    and the server runs until it is stopped.  Nothing listens on the
    ports. *)
Definition world_flaky : Server.World :=
  {| Server.logging_config :=
       fun h => if configured h then Return tt else Raise FileNotFoundError;
     Server.uvicorn_run := fun _ _ => Server.Returned;
     Server.net := fun _ => Samples.os_idle |}.

(** Every run of the server crashes (as [asyncio.run] does, with
    [RuntimeError], where an event loop is running already). *)
Definition world_broken : Server.World :=
  {| Server.logging_config := fun _ => Return tt;
     Server.uvicorn_run := fun _ _ => Server.Crashed RuntimeError;
     Server.net := fun _ => Samples.os_idle |}.

(** The address is in use: the server cannot start and exits with
    code 1. *)
Definition world_taken : Server.World :=
  {| Server.logging_config := fun _ => Return tt;
     Server.uvicorn_run := fun _ _ => Server.SysExit 1;
     Server.net := fun _ => Samples.os_two_taken |}.

(** The first round fails as in [world_flaky], and by then another
    user's process holds port 8001, together with 8002. *)
Definition world_moving : Server.World :=
  {| Server.logging_config :=
       fun h => if configured h then Return tt else Raise FileNotFoundError;
     Server.uvicorn_run := fun _ _ => Server.Returned;
     Server.net := fun _ => Samples.os_two_taken |}.

(** The effects of [run_server_with_retry(3, 5)] in that world, from port
    8001, latest first. *)
Definition moving_run : Server.trace :=
  Eval vm_compute in
    snd (Server.run_server_with_retry world_moving 3 5 8001 []).

(** ** Tunnels *)

Definition tunnel_entry (proto url : string) : TriggerWebhook.json :=
  TriggerWebhook.JObj
    [("name", TriggerWebhook.JStr "command_line");
     ("public_url", TriggerWebhook.JStr url);
     ("proto", TriggerWebhook.JStr proto)].

(** The answer of the agent's API with the two tunnels of one address,
    the plain one first. *)
Definition two_tunnels : TriggerWebhook.json :=
  TriggerWebhook.JObj
    [("tunnels",
      TriggerWebhook.JArr
        [tunnel_entry "http" "http://abc.ngrok.io";
         tunnel_entry "https" "https://abc.ngrok.io"]);
     ("uri", TriggerWebhook.JStr "/api/tunnels")].

(** The answer with a plain tunnel only. *)
Definition plain_tunnel : TriggerWebhook.json :=
  TriggerWebhook.JObj
    [("tunnels",
      TriggerWebhook.JArr [tunnel_entry "http" "http://new.ngrok.io"])].

Definition answer (data : TriggerWebhook.json) : Tunnel.Response :=
  {| Tunnel.status_code := 200; Tunnel.json_ := Return data |}.

Definition done : PyStr.Completed :=
  {| PyStr.returncode := 0; PyStr.stdout := "" |}.

(** The agent is installed, starts as process 777 and serves its API at
    once; [data] is what the API answers. *)
Definition world_tunnel (data : TriggerWebhook.json) : Tunnel.World :=
  {| Tunnel.os_name := "posix";
     Tunnel.getenv := fun _ => None;
     Tunnel.run := fun _ _ _ => Return done;
     Tunnel.popen := fun _ _ => Return 777;
     Tunnel.http_get := fun _ _ _ => Return (answer data);
     Tunnel.poll := fun _ _ => Return None;
     Tunnel.procs := fun _ => Samples.procs_graceful |}.

(** The agent starts but its API never comes up. *)
Definition world_silent : Tunnel.World :=
  {| Tunnel.os_name := "posix";
     Tunnel.getenv := fun _ => None;
     Tunnel.run := fun _ _ _ => Return done;
     Tunnel.popen := fun _ _ => Return 777;
     Tunnel.http_get :=
       fun _ _ _ =>
         Raise (OtherException "requests.exceptions.ConnectionError");
     Tunnel.poll := fun _ _ => Return None;
     Tunnel.procs := fun _ => Samples.procs_graceful |}.

(** The agent cannot be executed. *)
Definition world_no_exec : Tunnel.World :=
  {| Tunnel.os_name := "posix";
     Tunnel.getenv := fun _ => None;
     Tunnel.run := fun _ _ _ => Raise PermissionError;
     Tunnel.popen := fun _ _ => Raise PermissionError;
     Tunnel.http_get :=
       fun _ _ _ =>
         Raise (OtherException "requests.exceptions.ConnectionError");
     Tunnel.poll := fun _ _ => Return None;
     Tunnel.procs := fun _ => Samples.procs_graceful |}.

(** A manager with a token and nothing started. *)
Definition mgr_fresh : NgrokManager.t :=
  NgrokManager.init 8001 (Some "token") None.

(** The effects of [start_tunnel] where the API never comes up, latest
    first. *)
Definition silent_run : Tunnel.trace :=
  Eval vm_compute in
    snd (Tunnel.start_tunnel world_silent "http" mgr_fresh []).

End MoreSamples.

(* ===================================================================== *)
(** * Facts about strings *)
(* ===================================================================== *)

Section StringFacts.

Lemma prefix_cons_inv (a : ascii) (p s : string) :
  String.prefix (String a p) s = true ->
  exists t, s = String a t /\ String.prefix p t = true.
Proof.
  destruct s as [|b t]; simpl; [discriminate|].
  destruct (ascii_dec a b) as [->|]; [|discriminate].
  intros H. now exists t.
Qed.

Lemma prefix_append (p s : string) :
  String.prefix p s = true -> exists t, s = (p ++ t)%string.
Proof.
  revert s. induction p as [|a p IH]; intros s H.
  - now exists s.
  - apply prefix_cons_inv in H as (t & -> & H).
    destruct (IH _ H) as (u & ->). now exists u.
Qed.

Lemma prefix_of_append (p t : string) : String.prefix p (p ++ t) = true.
Proof.
  induction p as [|a p IH]; simpl.
  - now destruct t.
  - destruct (ascii_dec a a); [assumption|congruence].
Qed.

Lemma drop_append (p t : string) : drop (String.length p) (p ++ t) = t.
Proof. induction p; simpl; auto. Qed.

Lemma isascii_append (s t : string) :
  isascii (s ++ t) = isascii s && isascii t.
Proof.
  induction s as [|c s IH]; simpl; [reflexivity|].
  now rewrite IH, andb_assoc.
Qed.

Lemma contains_prefix (sub s : string) :
  String.prefix sub s = true -> contains sub s = true.
Proof. intros H. destruct s; simpl in *; rewrite H; reflexivity. Qed.

Lemma contains_cons (sub : string) (c : ascii) (s : string) :
  contains sub s = true -> contains sub (String c s) = true.
Proof.
  intros H. cbn [contains]. rewrite H. apply orb_true_r.
Qed.

(** A text with the token [adw_build] passes the test
    ["adw_" in text.lower()]. *)
Lemma adw_build_has_adw (text : string) :
  contains "adw_build" text = true -> contains "adw_" (lower text) = true.
Proof.
  induction text as [|c t IH]; [discriminate|].
  intros H. cbn [contains] in H. apply orb_true_iff in H as [H|H].
  - apply prefix_append in H as (rest & ->). reflexivity.
  - cbn [lower]. apply contains_cons. auto.
Qed.

End StringFacts.

(* ===================================================================== *)
(** * Signature validation *)
(* ===================================================================== *)

Module WebhookSecurityFacts.
Import WebhookSecurity.

Example sha256_abc :
  Hmac.hex
    (Sha256.digest (map Sha256.byte_val (Samples.bytes_of_string "abc")))
  = "ba7816bf8f01cfea414140de5dae2223b00361a396177a9cb410ff61f20015ad".
Proof. vm_compute. reflexivity. Qed.

Example sha256_empty :
  Hmac.hex (Sha256.digest [])
  = "e3b0c44298fc1c149afbf4c8996fb92427ae41e4649b934ca495991b7852b855".
Proof. vm_compute. reflexivity. Qed.

(** RFC 4231, test case 2. *)
Example hmac_rfc4231_2 :
  Hmac.hexdigest (Samples.bytes_of_string "Jefe")
                 (Samples.bytes_of_string "what do ya want for nothing?")
  = "5bdcc146bf60754e6a042426089575c75a003f089d2739839dec58b964ec3843".
Proof. vm_compute. reflexivity. Qed.

(** A key longer than one block is hashed first. *)
Example hmac_long_key :
  Hmac.hexdigest (repeat "k"%byte 100) Samples.hello
  = "3fd578d761a4f6703009e92d2e8a0aea22ab9ab50d4ad250dc95d8c369dec3f5".
Proof. vm_compute. reflexivity. Qed.

Lemma hex_digits_ascii :
  forallb (fun k => ord (Hmac.hex_digit (Z.of_nat k)) <? 128) (seq 0 16)
  = true.
Proof. reflexivity. Qed.

Lemma hex_digit_ascii (n : Z) :
  0 <= n < 16 -> (ord (Hmac.hex_digit n) <? 128) = true.
Proof.
  intros H. rewrite <- (Z2Nat.id n) by lia.
  apply (proj1 (forallb_forall _ _) hex_digits_ascii).
  apply in_seq. lia.
Qed.

Lemma hex_isascii (bs : list Z) : isascii (Hmac.hex bs) = true.
Proof.
  induction bs as [|b bs IH]; [reflexivity|].
  cbn [Hmac.hex isascii]. rewrite IH, andb_true_r.
  apply andb_true_intro; split; apply hex_digit_ascii.
  - change 255 with (Z.ones 8). rewrite Z.land_ones by lia.
    rewrite Z.shiftr_div_pow2 by lia.
    pose proof (Z.mod_pos_bound b (2 ^ 8) ltac:(lia)) as Hb.
    change (2 ^ 8) with 256 in *. change (2 ^ 4) with 16.
    split; [apply Z.div_pos; lia|].
    apply Z.div_lt_upper_bound; lia.
  - change 15 with (Z.ones 4). rewrite Z.land_ones by lia.
    apply Z.mod_pos_bound. lia.
Qed.

Lemma hexdigest_isascii (key msg : list byte) :
  isascii (Hmac.hexdigest key msg) = true.
Proof. apply hex_isascii. Qed.

(** The verdict is [True] exactly when the header is present, the secret
    is not empty, the header starts with [sha256=] and what follows is the
    hex digest of the HMAC-SHA256 of the body under the secret. *)
Theorem validate_true_iff (payload_body : list byte)
    (signature_header : option string) (secret : string) :
  validate_github_signature payload_body signature_header secret
  = Return true
  <-> exists header,
        signature_header = Some header
        /\ secret <> ""
        /\ startswith header "sha256=" = true
        /\ drop 7 header = Hmac.hexdigest (encode_utf8 secret) payload_body.
Proof.
  unfold validate_github_signature. split.
  - destruct signature_header as [header|]; [|discriminate].
    destruct (str_truthy header) eqn:Hh; [|discriminate].
    destruct (str_truthy secret) eqn:Hs; [|discriminate].
    cbn [negb orb].
    destruct (startswith header "sha256=") eqn:Hp; [|discriminate].
    cbn [negb]. unfold Hmac.compare_digest.
    destruct (isascii _ && isascii _); [|discriminate].
    intros H. injection H as H. apply String.eqb_eq in H.
    exists header. repeat split; auto.
    destruct secret; [discriminate|congruence].
  - intros (header & -> & Hs & Hp & Hd).
    assert (str_truthy header = true) as ->.
    { destruct header; [discriminate|reflexivity]. }
    assert (str_truthy secret = true) as ->.
    { destruct secret; [congruence|reflexivity]. }
    cbn [negb orb]. rewrite Hp. cbn [negb].
    rewrite Hd. unfold Hmac.compare_digest.
    rewrite hexdigest_isascii, String.eqb_refl. reflexivity.
Qed.

(** For one body and one secret at most one header is accepted: a header
    that differs from an accepted one in any byte is not accepted. *)
Lemma validate_header_unique (payload_body : list byte) (h1 h2 secret : string) :
  validate_github_signature payload_body (Some h1) secret = Return true ->
  validate_github_signature payload_body (Some h2) secret = Return true ->
  h1 = h2.
Proof.
  intros H1 H2.
  apply validate_true_iff in H1 as (x1 & E1 & _ & P1 & D1).
  apply validate_true_iff in H2 as (x2 & E2 & _ & P2 & D2).
  injection E1 as <-. injection E2 as <-.
  apply prefix_append in P1 as (t1 & ->).
  apply prefix_append in P2 as (t2 & ->).
  change 7%nat with (String.length "sha256=") in D1, D2.
  rewrite drop_append in D1, D2. congruence.
Qed.

(** A body whose HMAC differs is not accepted under the same header. *)
Lemma validate_body_changed (b1 b2 : list byte) (header secret : string) :
  validate_github_signature b1 (Some header) secret = Return true ->
  Hmac.hexdigest (encode_utf8 secret) b2
    <> Hmac.hexdigest (encode_utf8 secret) b1 ->
  validate_github_signature b2 (Some header) secret = Return false.
Proof.
  intros H1 Hne.
  apply validate_true_iff in H1 as (x & E & Hs & P & D).
  injection E as <-.
  unfold validate_github_signature.
  assert (str_truthy header = true) as ->.
  { destruct header; [discriminate|reflexivity]. }
  assert (str_truthy secret = true) as ->.
  { destruct secret; [congruence|reflexivity]. }
  cbn [negb orb]. rewrite P. cbn [negb].
  rewrite D. unfold Hmac.compare_digest.
  rewrite !hexdigest_isascii. cbn [andb]. f_equal.
  apply String.eqb_neq. exact Hne.
Qed.

(** C4 (the code where it departs).  Whatever the body, under a secret
    that is not empty, a header that starts with [sha256=] and carries a
    code point above 127 after it is not answered with [False]:
    [hmac.compare_digest] refuses such a string and
    [validate_github_signature] raises [TypeError]. *)
Theorem validate_non_ascii_raises (payload_body : list byte)
    (header secret : string) :
  str_truthy secret = true ->
  startswith header "sha256=" = true ->
  isascii (drop 7 header) = false ->
  validate_github_signature payload_body (Some header) secret
  = Raise TypeError.
Proof.
  intros Hs Hp Ha. unfold validate_github_signature.
  assert (str_truthy header = true) as ->.
  { destruct header; [discriminate|reflexivity]. }
  rewrite Hs. cbn [negb orb]. rewrite Hp. cbn [negb].
  unfold Hmac.compare_digest. rewrite Ha, andb_false_r. reflexivity.
Qed.

(** The header of [hello] under [s3cret] is accepted; with the top bit of
    its last byte flipped, the call raises. *)
Lemma validate_flipped_header_raises :
  validate_github_signature Samples.hello (Some Samples.good_header) "s3cret"
    = Return true
  /\ String.length Samples.flipped_header
     = String.length Samples.good_header
  /\ validate_github_signature Samples.hello (Some Samples.flipped_header)
       "s3cret" = Raise TypeError.
Proof.
  split; [vm_compute; reflexivity|]. split; [reflexivity|].
  apply (validate_non_ascii_raises Samples.hello Samples.flipped_header
           "s3cret"); reflexivity.
Defined.

End WebhookSecurityFacts.

(* ===================================================================== *)
(** * Port management *)
(* ===================================================================== *)

Module PortManagerFacts.
Import PortManager.

(** ** [is_port_in_use] *)

Lemma is_port_in_use_run (os : OS) (port : Z) (host : string) (h : trace) :
  exists r,
    is_port_in_use os port host h
    = (Return (match r with Return errno => errno =? 0 | Raise _ => false end),
       Connect host port r :: h).
Proof.
  unfold is_port_in_use, is_port_in_use_try, sock_connect_ex. run.
  match goal with |- context [Connect host port ?x] => exists x; destruct x end;
    reflexivity.
Qed.



(** ** [find_available_port] *)

Lemma rejected_app (host : string) (evs evs' : trace) (p : Z) :
  rejected host evs p \/ rejected host evs' p -> rejected host (evs ++ evs') p.
Proof.
  unfold rejected. intros [[H|(e & He & H)]|[H|(e & He & H)]].
  - left. apply in_or_app. auto.
  - right. exists e. split; [assumption|]. apply in_or_app. auto.
  - left. apply in_or_app. auto.
  - right. exists e. split; [assumption|]. apply in_or_app. auto.
Qed.

Lemma bind_raised_intro (os : OS) (h : trace) (host : string) (p : Z)
    (e : exn) :
  match os_socket os h with
  | Raise e => Raise e
  | Return _ =>
      if valid_port p then os_bind os h host p else Raise OverflowError
  end = Raise e ->
  bind_raised os h host p e.
Proof.
  unfold bind_raised. destruct (os_socket os h) as [[]|e0].
  - destruct (valid_port p).
    + auto.
    + intros H. injection H as <-. auto.
  - auto.
Qed.

Lemma scan_outcome_step (os : OS) (host : string) (h : trace) (port : Z)
    (n : nat) (r : Exc (option Z)) (evs pre : trace) :
  scan_outcome os host (pre ++ h) (port + 1) n r evs ->
  rejected host pre port ->
  scan_outcome os host h port (S n) r (evs ++ pre).
Proof.
  intros H Hrej. destruct r as [[p|]|e]; cbn [scan_outcome] in *.
  - destruct H as (Hp & (evs' & ->) & Hq). split; [lia|]. split.
    + now exists (evs' ++ pre).
    + intros q Hq'. apply rejected_app.
      destruct (Z.eq_dec q port) as [->|]; [now right|].
      left. apply Hq. lia.
  - intros q Hq'. apply rejected_app.
    destruct (Z.eq_dec q port) as [->|]; [now right|].
    left. apply H. lia.
  - destruct H as (He & p & evs' & Hp & -> & Hb). split; [assumption|].
    exists p, (evs' ++ pre). split; [lia|]. split; [reflexivity|].
    now rewrite <- app_assoc.
Qed.

Lemma scan_ports_spec (os : OS) (host : string) (n : nat) :
  forall (port : Z) (h : trace),
  exists evs,
    snd (scan_ports os host port n h) = evs ++ h
    /\ scan_outcome os host h port n (fst (scan_ports os host port n h)) evs.
Proof.
  induction n as [|n IH]; intros port h.
  - exists []. split; [reflexivity|]. cbn. intros q Hq. lia.
  - cbn [scan_ports]. unfold bind.
    destruct (is_port_in_use_run os port host h) as (r & ->).
    destruct (match r with Return errno => errno =? 0 | Raise _ => false end)
      eqn:Hin; cbn [negb].
    + (* the probe connected: next port *)
      assert (r = Return 0) as ->.
      { destruct r as [errno|]; [|discriminate].
        apply Z.eqb_eq in Hin. now subst. }
      destruct (IH (port + 1) (Connect host port (Return 0) :: h))
        as (evs & Es & Ho).
      exists (evs ++ [Connect host port (Return 0)]). split.
      * rewrite Es. now rewrite <- app_assoc.
      * apply scan_outcome_step; [assumption|]. left. now left.
    + (* reported free: confirm with a bind *)
      unfold try_except, sock_bind, call.
      match goal with |- context [Bind host port ?x] =>
        destruct x as [[]|e] eqn:Eb end.
      * exists [Bind host port (Return tt); Connect host port r].
        split; [reflexivity|]. cbn. split; [lia|]. split; [eauto|].
        intros q Hq. lia.
      * destruct (is_OSError e) eqn:He.
        -- destruct (IH (port + 1)
                       (Bind host port (Raise e) :: Connect host port r :: h))
             as (evs & Es & Ho).
           exists (evs ++ [Bind host port (Raise e); Connect host port r]).
           split.
           ++ rewrite Es. now rewrite <- app_assoc.
           ++ apply scan_outcome_step; [assumption|].
              right. exists e. split; [assumption|]. now left.
        -- exists [Bind host port (Raise e); Connect host port r].
           split; [reflexivity|]. cbn. split; [assumption|].
           exists port. eexists. split; [lia|]. split; [reflexivity|].
           now apply bind_raised_intro.
Qed.

(** The outcomes of [find_available_port]: a port of the range whose bind
    has just succeeded, every port before it having been refused; [None]
    with every port of the range refused; or an exception that is not an
    [OSError], raised by the bind of a port of the range. *)
Theorem find_available_port_spec (os : OS) (start_port end_port : Z)
    (host : string) (h : trace) :
  exists evs,
    snd (find_available_port os start_port end_port host h) = evs ++ h
    /\ match fst (find_available_port os start_port end_port host h) with
       | Return (Some p) =>
           start_port <= p < end_port
           /\ (exists evs', evs = Bind host p (Return tt) :: evs')
           /\ forall q, start_port <= q < p -> rejected host evs q
       | Return None =>
           forall q, start_port <= q < end_port -> rejected host evs q
       | Raise e =>
           is_OSError e = false
           /\ exists p evs',
                start_port <= p < end_port
                /\ evs = Bind host p (Raise e) :: evs'
                /\ bind_raised os (evs' ++ h) host p e
       end.
Proof.
  unfold find_available_port.
  destruct (scan_ports_spec os host (Z.to_nat (end_port - start_port))
              start_port h) as (evs & Es & Ho).
  exists evs. split; [assumption|].
  destruct (fst _) as [[p|]|e]; cbn [scan_outcome] in Ho.
  - destruct Ho as (Hp & Hb & Hq). repeat split; try assumption; lia.
  - intros q Hq. apply Ho. lia.
  - destruct Ho as (He & p & evs' & Hp & Hrest). split; [assumption|].
    exists p, evs'. split; [lia|assumption].
Qed.

(** On a range of valid ports, with a system whose socket and bind
    failures are [OSError]s, [find_available_port] returns: a port of the
    range whose bind has just succeeded, or [None] with every port of the
    range refused. *)
Theorem find_available_port_valid_range (os : OS) (start_port end_port : Z)
    (host : string) (h : trace) :
  0 <= start_port -> end_port <= 65536 ->
  (forall h' e, os_socket os h' = Raise e -> is_OSError e = true) ->
  (forall h' p e, os_bind os h' host p = Raise e -> is_OSError e = true) ->
  exists r evs,
    find_available_port os start_port end_port host h = (Return r, evs ++ h)
    /\ match r with
       | Some p =>
           start_port <= p < end_port
           /\ exists evs', evs = Bind host p (Return tt) :: evs'
       | None =>
           forall q, start_port <= q < end_port -> rejected host evs q
       end.
Proof.
  intros Hlo Hhi Hsock Hbind.
  destruct (find_available_port_spec os start_port end_port host h)
    as (evs & Es & Ho).
  destruct (find_available_port os start_port end_port host h) as [r h'].
  cbn [fst snd] in *. subst h'.
  destruct r as [[p|]|e].
  - exists (Some p), evs. split; [reflexivity|]. tauto.
  - exists None, evs. split; [reflexivity|]. assumption.
  - exfalso. destruct Ho as (He & p & evs' & Hp & _ & [H|[[Hv _]|H]]).
    + apply Hsock in H. congruence.
    + unfold valid_port in Hv.
      apply andb_false_iff in Hv as [Hv|Hv];
        [apply Z.leb_gt in Hv|apply Z.leb_gt in Hv]; lia.
    + apply Hbind in H. congruence.
Qed.

Lemma find_available_port_valid_range_witness :
  exists r evs,
    find_available_port Samples.os_two_taken 8001 8101 default_host []
    = (Return r, evs ++ [])
    /\ match r with
       | Some p =>
           8001 <= p < 8101
           /\ exists evs', evs = Bind default_host p (Return tt) :: evs'
       | None =>
           forall q, 8001 <= q < 8101 -> rejected default_host evs q
       end.
Proof.
  apply (find_available_port_valid_range Samples.os_two_taken 8001 8101
           default_host []).
  - lia.
  - lia.
  - intros h' e H. discriminate H.
  - intros h' p e. cbn.
    destruct ((p =? 8001) || (p =? 8002)); intros H;
      [injection H as <-; reflexivity | discriminate H].
Defined.

Example find_available_port_run :
  find_available_port Samples.os_two_taken 8001 8101 default_host []
  = (Return (Some 8003),
     [ Bind default_host 8003 (Return tt);
       Connect default_host 8003 (Return 111);
       Connect default_host 8002 (Return 0);
       Connect default_host 8001 (Return 0) ]).
Proof. reflexivity. Qed.

(** One step of the scan on a port that is taken. *)
Lemma scan_ports_taken (os : OS) (host : string) (port : Z) (n : nat)
    (h : trace) :
  os_socket os h = Return tt ->
  valid_port port = true ->
  os_connect_ex os h host port = Return 0 ->
  scan_ports os host port (S n) h
  = scan_ports os host (port + 1) n (Connect host port (Return 0) :: h).
Proof.
  intros Hs Hv Hc. cbn [scan_ports].
  unfold is_port_in_use, is_port_in_use_try, sock_connect_ex. run.
  rewrite Hs, Hv, Hc. reflexivity.
Qed.

(** One step of the scan on a port out of range. *)
Lemma scan_ports_out_of_range (os : OS) (host : string) (port : Z) (n : nat)
    (h : trace) :
  (forall h', os_socket os h' = Return tt) ->
  valid_port port = false ->
  scan_ports os host port (S n) h
  = (Raise OverflowError,
     Bind host port (Raise OverflowError)
     :: Connect host port (Raise OverflowError) :: h).
Proof.
  intros Hs Hv. cbn [scan_ports].
  unfold is_port_in_use, is_port_in_use_try, sock_connect_ex, sock_bind. run.
  rewrite Hs, Hv. cbn [any_Exception negb]. rewrite Hs. reflexivity.
Qed.

(** C8 (the code where it departs).  [handle_port_conflict(65534)] asks
    for a port in [65535, 65634).  On every system where sockets can be
    created and port 65535 is taken, the scan moves on to 65536: the probe
    raises [OverflowError], which [is_port_in_use] turns into "free"; the
    confirming bind raises [OverflowError] as well, which is not an
    [OSError], and the exception leaves [find_available_port]: neither a
    port nor [None] is returned. *)
Theorem find_available_port_overflow (os : OS) (h : trace) :
  (forall h', os_socket os h' = Return tt) ->
  (forall h', os_connect_ex os h' default_host 65535 = Return 0) ->
  find_available_port os 65535 65634 default_host h
  = (Raise OverflowError,
     Bind default_host 65536 (Raise OverflowError)
     :: Connect default_host 65536 (Raise OverflowError)
     :: Connect default_host 65535 (Return 0) :: h).
Proof.
  intros Hs Hc. unfold find_available_port.
  change (Z.to_nat (65634 - 65535)) with (S (S 97)).
  rewrite scan_ports_taken by (auto; reflexivity).
  change (65535 + 1) with 65536.
  rewrite scan_ports_out_of_range by (auto; reflexivity).
  reflexivity.
Qed.

Lemma find_available_port_overflow_witness :
  find_available_port Samples.os_denied 65535 65634 default_host []
  = (Raise OverflowError,
     [ Bind default_host 65536 (Raise OverflowError);
       Connect default_host 65536 (Raise OverflowError);
       Connect default_host 65535 (Return 0) ]).
Proof.
  apply (find_available_port_overflow Samples.os_denied []); reflexivity.
Defined.

(** Seen from the startup code: instead of the [RuntimeError] it handles,
    [handle_port_conflict] lets the [OverflowError] through. *)
Example handle_port_conflict_overflow :
  PortConflict.handle_port_conflict Samples.os_denied 65534 3 []
  = (Raise OverflowError,
     [ Bind default_host 65536 (Raise OverflowError);
       Connect default_host 65536 (Raise OverflowError);
       Connect default_host 65535 (Return 0);
       Kill 4242 SIGTERM (Raise PermissionError);
       Lookup 65534 (Return (Some 4242));
       Lookup 65534 (Return (Some 4242));
       Connect default_host 65534 (Return 0);
       Connect default_host 65534 (Return 0) ]).
Proof. reflexivity. Qed.

(** The fallback of the startup code when the owner cannot be signalled. *)
Example handle_port_conflict_falls_back :
  fst (PortConflict.handle_port_conflict Samples.os_two_taken 8001 3 [])
  = Return 8003.
Proof. reflexivity. Qed.

(** ** [kill_process_on_port] *)









(** A process that survives SIGTERM: the second attempt sends SIGKILL and
    the port is then probed free. *)
Example kill_process_on_port_run :
  kill_process_on_port Samples.os_stubborn 8001 false 3 []
  = (Return true,
     [ Connect default_host 8001 (Return 111); Sleep 500;
       Kill 4242 SIGKILL (Return tt); Lookup 8001 (Return (Some 4242));
       Connect default_host 8001 (Return 0); Sleep 500;
       Kill 4242 SIGTERM (Return tt); Lookup 8001 (Return (Some 4242)) ]).
Proof. reflexivity. Qed.


(** An exception of the owner lookup is not handled. *)
Lemma kill_process_on_port_lookup_raises (os : OS) (port : Z) (force : bool)
    (max_retries : Z) (h : trace) (e : exn) :
  0 < max_retries ->
  os_lookup os h port = Raise e ->
  fst (kill_process_on_port os port force max_retries h) = Raise e.
Proof.
  intros Hm He. unfold kill_process_on_port.
  destruct (Z.to_nat max_retries) as [|n] eqn:En; [lia|].
  cbn [kill_loop]. unfold kill_attempt. run. rewrite He. reflexivity.
Qed.

End PortManagerFacts.

(* ===================================================================== *)
(** * The tunnel manager *)
(* ===================================================================== *)

Module NgrokManagerFacts.
Import NgrokManager.

(** C6, as the code has it.  [stop_tunnel] never raises.  Without a
    stored process it does nothing.  With one, it sends the graceful
    signal first, then waits at most 5 seconds, and sends the forceful kill
    (followed by a wait) exactly when that wait timed out.  The stored
    handle and URL are cleared when no step raised an error, and are left
    as they were when one did. *)
Theorem stop_tunnel_spec (ps : Procs) (self : t) (h : trace) :
  match process self with
  | None => stop_tunnel ps self h = (Return self, h)
  | Some proc =>
      exists (evs : trace) (cleared : bool),
        stop_tunnel ps self h
        = (Return (if cleared then clear self else self), evs ++ h)
        /\ stop_run proc evs cleared
        /\ cleared = negb (existsb failed evs)
  end.
Proof.
  unfold stop_tunnel. destruct (process self) as [proc|]; [|reflexivity].
  unfold stop_tunnel_try. run.
  destruct (proc_terminate ps h proc) as [[]|e0] eqn:Et.
  2:{ exists [Terminate proc (Raise e0)], false. split; [reflexivity|]. split; [constructor|].
      reflexivity. }
  set (h1 := Terminate proc (Return tt) :: h).
  destruct (proc_wait ps h1 proc (Some 5)) as [rc|e1] eqn:Ew.
  { exists [Wait proc (Some 5) (Return rc); Terminate proc (Return tt)], true. split; [reflexivity|]. split; [constructor|].
    reflexivity. }
  destruct (is_TimeoutExpired e1) eqn:Hto.
  - destruct e1; try discriminate. cbn [is_TimeoutExpired].
    set (h2 := Wait proc (Some 5) (Raise TimeoutExpired) :: h1).
    destruct (proc_kill ps h2 proc) as [[]|e2] eqn:Ek.
    2:{ exists [KillProc proc (Raise e2);
                Wait proc (Some 5) (Raise TimeoutExpired);
                Terminate proc (Return tt)], false. split; [reflexivity|].
        split; [constructor|]. reflexivity. }
    set (h3 := KillProc proc (Return tt) :: h2).
    destruct (proc_wait ps h3 proc None) as [rc|e3] eqn:Ew2.
    + exists [Wait proc None (Return rc); KillProc proc (Return tt);
              Wait proc (Some 5) (Raise TimeoutExpired);
              Terminate proc (Return tt)], true. split; [reflexivity|].
      split; [constructor|]. reflexivity.
    + exists [Wait proc None (Raise e3); KillProc proc (Return tt);
              Wait proc (Some 5) (Raise TimeoutExpired);
              Terminate proc (Return tt)], false. split; [reflexivity|].
      split; [constructor|]. reflexivity.
  - exists [Wait proc (Some 5) (Raise e1); Terminate proc (Return tt)], false. split; [reflexivity|].
    split; [now constructor|]. cbn. rewrite Hto. reflexivity.
Qed.

(** What [clear] leaves. *)
Lemma clear_cleared (self : t) :
  process (clear self) = None /\ tunnel_url (clear self) = None.
Proof. split; reflexivity. Qed.

Example stop_tunnel_graceful :
  stop_tunnel Samples.procs_graceful Samples.mgr_running []
  = (Return (clear Samples.mgr_running),
     [ Wait 777 (Some 5) (Return 0); Terminate 777 (Return tt) ]).
Proof. reflexivity. Qed.

Example stop_tunnel_escalates :
  stop_tunnel Samples.procs_hanging Samples.mgr_running []
  = (Return (clear Samples.mgr_running),
     [ Wait 777 None (Return (-9)); KillProc 777 (Return tt);
       Wait 777 (Some 5) (Raise TimeoutExpired); Terminate 777 (Return tt) ]).
Proof. reflexivity. Qed.

(** C6, as the claim has it, fails: when the termination signal raises,
    the call ends with the handle and the URL still stored. *)
Lemma stop_tunnel_error_keeps_state :
  exists self',
    stop_tunnel Samples.procs_refusing Samples.mgr_running []
    = (Return self', [ Terminate 777 (Raise PermissionError) ])
    /\ process self' = Some 777
    /\ tunnel_url self' = Some "https://example.ngrok.io".
Proof. eexists. split; [reflexivity|]. split; reflexivity. Qed.

End NgrokManagerFacts.

(* ===================================================================== *)
(** * The webhook handler *)
(* ===================================================================== *)

Module TriggerWebhookFacts.
Import TriggerWebhook.

(** The handler is its [try], with every exception turned into the error
    body. *)
Lemma github_webhook_run (env : Env) (srv : Server) (request : Request)
    (h : trace) :
  github_webhook env srv request h
  = match github_webhook_try env request h with
    | (Return b, h') => (Return (b, counted srv), h')
    | (Raise _, h') => (Return (internal_error, counted srv), h')
    end.
Proof.
  unfold github_webhook. run.
  destruct (github_webhook_try env request h) as [[b|e] h']; reflexivity.
Qed.

Lemma malformed_raises (env : Env) (request : Request) (h : trace) :
  malformed request = true ->
  exists e, github_webhook_try env request h = (Raise e, h).
Proof.
  unfold malformed, github_webhook_try. run. intros H.
  destruct (json_ request) as [payload|e]; [|eauto].
  destruct payload as [| | | | | |items]; cbn [get]; eauto.
  destruct (assoc "action" items); destruct (assoc "issue" items) as [[]|];
    try discriminate; cbn [get]; eauto.
Qed.

(** Whatever the request and whatever the collaborators do,
    [github_webhook] returns a body whose status is [accepted], [ignored]
    or [error], and no exception leaves it.  The route answers with code
    200 when the body can be rendered, which is so for the [error] body.
    A body that is not JSON, not an object, or whose [issue] is not an
    object, gets the [error] body, and nothing is launched for it. *)
Lemma github_webhook_returns (env : Env) (srv : Server)
    (request : Request) (h : trace) :
  exists b h',
    github_webhook env srv request h = (Return (b, counted srv), h')
    /\ (status b = "accepted" \/ status b = "ignored" \/ status b = "error")
    /\ post_gh_webhook env srv request h = respond (render env b)
    /\ (status b = "error"
        -> post_gh_webhook env srv request h = (200, Some b))
    /\ (malformed request = true -> b = internal_error /\ h' = h).
Proof.
  unfold post_gh_webhook. rewrite github_webhook_run.
  destruct (github_webhook_try env request h) as [[b|e] h'] eqn:E.
  - exists b, h'. split; [reflexivity|]. split.
    + destruct b; cbn; auto.
    + split; [reflexivity|]. split.
      * intros Hs. cbn [fst]. destruct b; try discriminate Hs. reflexivity.
      * intros Hm.
        destruct (malformed_raises env request h Hm) as (e & He). congruence.
  - exists internal_error, h'. split; [reflexivity|]. split; [cbn; auto|].
    split; [reflexivity|]. split; [reflexivity|]. intros Hm.
    destruct (malformed_raises env request h Hm) as (e' & He).
    split; [reflexivity|congruence].
Qed.

Example garbage_is_an_error :
  github_webhook Samples.env_ok Samples.srv0 Samples.garbage []
  = (Return (internal_error, counted Samples.srv0), [])
  /\ post_gh_webhook Samples.env_ok Samples.srv0 Samples.garbage []
     = (200, Some internal_error).
Proof. split; reflexivity. Qed.

(** C10, as the code has it.  A payload with no [issue] member, or with
    an [issue] object whose [number] is missing or [null], is answered
    without any collaborator being called: nothing is classified and
    nothing is launched, whatever the event type, the action and the
    content.  The answer is [ignored] when the event type and the action
    can be printed, and the error body when they cannot. *)
Theorem missing_issue_number_ignored (env : Env) (srv : Server)
    (request : Request) (h : trace) (items : list (string * json)) :
  json_ request = Return (JObj items) ->
  lacks_issue_number items ->
  let event_type := headers_get (headers request) "X-GitHub-Event" "" in
  let action :=
    match assoc "action" items with Some v => v | None => JStr "" end in
  github_webhook env srv request h
  = (Return (if forallb (printable env) [JStr event_type; action; JNull]
             then Ignored event_type action
             else internal_error,
             counted srv), h).
Proof.
  intros Hj Hl event_type action. rewrite github_webhook_run.
  unfold github_webhook_try, ignore, print. run. rewrite Hj. cbn [get].
  assert (exists fields,
             match assoc "issue" items with
             | Some v => v | None => JObj []
             end = JObj fields
             /\ match assoc "number" fields with
                | Some v => v | None => JNull
                end = JNull) as (fields & -> & Hn).
  { destruct Hl as [->|(fields & -> & [Hn|Hn])].
    - now exists [].
    - exists fields. now rewrite Hn.
    - exists fields. now rewrite Hn. }
  cbn [get]. rewrite Hn. fold event_type action.
  destruct (forallb (printable env) [JStr event_type; action; JNull]);
    [|reflexivity].
  cbn [truthy]. rewrite !andb_false_r. reflexivity.
Qed.

Lemma missing_issue_number_ignored_witness :
  github_webhook Samples.env_ok Samples.srv0
    (Samples.delivery "issues" None
       (JObj [ ("action", JStr "opened");
               ("issue", JObj [ ("body", JStr "adw_plan_build") ]) ])) []
  = (Return (Ignored "issues" (JStr "opened"), counted Samples.srv0), []).
Proof.
  apply (missing_issue_number_ignored Samples.env_ok Samples.srv0
           (Samples.delivery "issues" None
              (JObj [ ("action", JStr "opened");
                      ("issue", JObj [ ("body", JStr "adw_plan_build") ]) ]))
           []
           [ ("action", JStr "opened");
             ("issue", JObj [ ("body", JStr "adw_plan_build") ]) ]).
  - reflexivity.
  - right. eexists. split; [reflexivity|]. left. reflexivity.
Defined.

(** C10, as the claim has it, fails for a payload whose [issue] is there
    but is not an object: for [null] there is no issue object and no
    number, yet [issue.get] raises and the answer is the error body, not
    [ignored].  Nothing is launched either. *)
Lemma null_issue_is_an_error :
  let payload := JObj [ ("action", JStr "opened"); ("issue", JNull) ] in
  get payload "issue" (JObj []) = Return JNull
  /\ github_webhook Samples.env_ok Samples.srv0
       (Samples.delivery "issues" None payload) []
     = (Return (internal_error, counted Samples.srv0), [])
  /\ status internal_error <> "ignored".
Proof. cbv zeta. repeat split. discriminate. Qed.

(** What the handler reads of an eligible event. *)
Lemma eligible_reads (request : Request) (k : kind) (text : string) :
  Eligible request k text ->
  exists items fields number,
    json_ request = Return (JObj items)
    /\ get (JObj items) "issue" (JObj []) = Return (JObj fields)
    /\ get (JObj fields) "number" JNull = Return number
    /\ truthy number = true.
Proof.
  intros [items fields number t He Hj Ha Hi Hn Ht Hb
         |items fields cfields number t He Hj Ha Hi Hn Ht Hc Hb];
    exists items, fields, number; cbn [get]; rewrite Hi, Hn; auto.
Qed.

(** C2, as the code has it.  A created comment whose body contains the
    bot marker is never accepted and no collaborator is called for it:
    nothing is classified and nothing is launched, whether or not the body
    also names a workflow.  The answer is [ignored] when what is printed on
    the way (event type, action, number and the body) can be encoded, and
    the error body otherwise. *)
Theorem bot_comment_ignored (env : Env) (srv : Server) (request : Request)
    (h : trace) (text : string) :
  Eligible request CommentCreated text ->
  contains ADW_BOT_IDENTIFIER text = true ->
  exists b,
    github_webhook env srv request h = (Return (b, counted srv), h)
    /\ (b = Ignored "issue_comment" (JStr "created") \/ b = internal_error)
    /\ (stdout_ok env -> b = Ignored "issue_comment" (JStr "created")).
Proof.
  intros He Hbot. rewrite github_webhook_run.
  inversion He as [|items fields cfields number t Hh Hj Ha Hi Hn Ht Hc Hb];
    subst.
  unfold github_webhook_try, on_comment_created, ignore, print. run.
  rewrite Hh, Hj. cbn [get]. rewrite Ha, Hi. cbn [get]. rewrite Hn.
  destruct (forallb (printable env)
              [JStr "issue_comment"; JStr "created"; number]) eqn:P1.
  2:{ exists internal_error. split; [reflexivity|]. split; [now right|].
      intros Hok. cbn in P1. now rewrite !Hok in P1. }
  rewrite Ht, Hc. cbn [get]. rewrite Hb.
  destruct (forallb (printable env) [JStr text]) eqn:P2.
  2:{ exists internal_error. split; [reflexivity|]. split; [now right|].
      intros Hok. cbn in P2. now rewrite !Hok in P2. }
  cbn [str_in]. rewrite Hbot. cbn.
  exists (Ignored "issue_comment" (JStr "created")). auto.
Qed.

Lemma bot_comment_ignored_witness :
  exists b,
    github_webhook Samples.env_ok Samples.srv0
      (Samples.delivery "issue_comment" None
         (Samples.comment_created 9997
            "[ADW-BOT] This is a bot comment adw_plan_build")) []
    = (Return (b, counted Samples.srv0), [])
    /\ (b = Ignored "issue_comment" (JStr "created") \/ b = internal_error)
    /\ (stdout_ok Samples.env_ok
        -> b = Ignored "issue_comment" (JStr "created")).
Proof.
  apply (bot_comment_ignored Samples.env_ok Samples.srv0
           (Samples.delivery "issue_comment" None
              (Samples.comment_created 9997
                 "[ADW-BOT] This is a bot comment adw_plan_build"))
           [] "[ADW-BOT] This is a bot comment adw_plan_build").
  - eapply eligible_comment; reflexivity.
  - reflexivity.
Defined.

(** The bot's comment is answered [ignored] on the sample
    collaborators. *)
Example bot_comment_run :
  github_webhook Samples.env_ok Samples.srv0
    (Samples.delivery "issue_comment" None
       (Samples.comment_created 9997
          "[ADW-BOT] This is a bot comment adw_plan_build")) []
  = (Return (Ignored "issue_comment" (JStr "created"),
             counted Samples.srv0), []).
Proof. reflexivity. Qed.

(** C2, as the claim has it, fails for an opened issue: its body is not
    tested for the marker, and an issue that carries the marker together
    with a workflow name is classified and launched. *)
Lemma bot_marker_in_issue_launches :
  contains ADW_BOT_IDENTIFIER "[ADW-BOT] adw_plan_build" = true
  /\ github_webhook Samples.env_ok Samples.srv0
       (Samples.delivery "issues" None
          (Samples.issue_opened 7 "[ADW-BOT] adw_plan_build")) []
     = (Return (Accepted (JNum 7) "a1b2c3d4" "adw_plan_build"
                  "New issue with adw_plan_build workflow",
                counted Samples.srv0),
        [ Popen "adw_plan_build.py" (JNum 7) "a1b2c3d4" (Return 4321);
          IssueComment (JNum 7) "adw_plan_build" "a1b2c3d4"
            "New issue with adw_plan_build workflow" (Return tt);
          SetupLogger "a1b2c3d4" (Return tt);
          MakeAdwId "a1b2c3d4";
          ExtractAdwInfo "[ADW-BOT] adw_plan_build" "a1b2c3d4"
            (Return (Some "adw_plan_build", None));
          MakeAdwId "a1b2c3d4" ]).
Proof. split; reflexivity. Qed.

(** C7.  An eligible event whose text carries the token [adw_build], and
    for which the classifier reports the workflow [adw_build] with no
    identifier ([None] or the empty string), is never accepted: no job is
    launched, and the only identifier drawn is the temporary one handed to
    the classifier.  The answer is [ignored] when what is printed on the
    way can be encoded, and the error body otherwise. *)
Theorem adw_build_without_id_ignored (env : Env) (srv : Server)
    (request : Request) (h : trace) (k : kind) (text : string) :
  Eligible request k text ->
  contains "adw_build" text = true ->
  (forall h' temp_id,
     exists i, extract_adw_info env h' text temp_id
               = Return (Some "adw_build", i)
               /\ opt_truthy i = false) ->
  exists b evs,
    github_webhook env srv request h = (Return (b, counted srv), evs ++ h)
    /\ (b = Ignored (event_type_of k) (action_of k) \/ b = internal_error)
    /\ (stdout_ok env -> b = Ignored (event_type_of k) (action_of k))
    /\ existsb is_launch evs = false
    /\ (List.length (filter is_make_id evs) <= 1)%nat.
Proof.
  intros He Hc Hx. rewrite github_webhook_run.
  pose proof (adw_build_has_adw text Hc) as Hadw.
  destruct (Hx (MakeAdwId (make_adw_id env h) :: h) (make_adw_id env h))
    as (i & Hi & Hfalse).
  assert (forall vs, stdout_ok env -> forallb (printable env) vs = true)
    as Hall.
  { intros vs Hok. apply forallb_forall. intros v _. apply Hok. }
  assert (forall (vs : list json) (evs : trace),
             forallb (printable env) vs = false ->
             existsb is_launch evs = false ->
             (List.length (filter is_make_id evs) <= 1)%nat ->
             (internal_error = Ignored (event_type_of k) (action_of k)
              \/ internal_error = internal_error)
             /\ (stdout_ok env ->
                 internal_error = Ignored (event_type_of k) (action_of k))
             /\ existsb is_launch evs = false
             /\ (List.length (filter is_make_id evs) <= 1)%nat) as Hfail.
  { intros vs evs P Hl Hm. split; [now right|]. split; [|now split].
    intros Hok. rewrite (Hall vs Hok) in P. discriminate. }
  inversion He as [items fields number t Hh Hj Ha Hi' Hn Ht Hb
                  |items fields cfields number t Hh Hj Ha Hi' Hn Ht Hcm Hb];
    subst; cbn [event_type_of action_of].
  - unfold github_webhook_try, on_issue_opened, classify_text, new_adw_id,
      ignore, print.
    run. rewrite Hh, Hj. cbn [get]. rewrite Ha, Hi'. cbn [get]. rewrite Hn.
    destruct (forallb (printable env) [JStr "issues"; JStr "opened"; number])
      eqn:P1.
    2:{ exists internal_error, []. split; [reflexivity|].
        apply (Hfail _ [] P1); [reflexivity|cbn; lia]. }
    rewrite Ht, Hb.
    cbn - [contains lower forallb]. rewrite Hadw. cbv beta. rewrite Hi.
    cbn - [filter forallb].
    rewrite Hfalse. cbn - [filter forallb]. rewrite ?P1.
    eexists _, [_; _]. split; [reflexivity|]. split; [now left|].
    split; [reflexivity|]. split; [reflexivity|]. cbn. lia.
  - unfold github_webhook_try, on_comment_created, classify_text, new_adw_id,
      ignore, print.
    run. rewrite Hh, Hj. cbn [get]. rewrite Ha, Hi'. cbn [get]. rewrite Hn.
    destruct (forallb (printable env)
                [JStr "issue_comment"; JStr "created"; number]) eqn:P1.
    2:{ exists internal_error, []. split; [reflexivity|].
        apply (Hfail _ [] P1); [reflexivity|cbn; lia]. }
    rewrite Ht, Hcm. cbn [get]. rewrite Hb.
    destruct (forallb (printable env) [JStr text]) eqn:P2.
    2:{ exists internal_error, []. split; [reflexivity|].
        apply (Hfail _ [] P2); [reflexivity|cbn; lia]. }
    cbn [str_in].
    destruct (contains ADW_BOT_IDENTIFIER text).
    + cbn - [forallb]. rewrite ?P1. eexists _, []. split; [reflexivity|].
      split; [now left|]. split; [reflexivity|]. split; [reflexivity|].
      cbn. lia.
    + cbn - [contains lower forallb]. rewrite Hadw. cbv beta. rewrite Hi.
      cbn - [filter forallb].
      rewrite Hfalse. cbn - [filter forallb]. rewrite ?P1.
      eexists _, [_; _]. split; [reflexivity|]. split; [now left|].
      split; [reflexivity|]. split; [reflexivity|]. cbn. lia.
Qed.

Lemma adw_build_without_id_ignored_witness :
  exists b evs,
    github_webhook Samples.env_ok Samples.srv0
      (Samples.delivery "issue_comment" None
         (Samples.comment_created 12 "adw_build")) []
    = (Return (b, counted Samples.srv0), evs ++ [])
    /\ (b = Ignored "issue_comment" (JStr "created") \/ b = internal_error)
    /\ (stdout_ok Samples.env_ok
        -> b = Ignored "issue_comment" (JStr "created"))
    /\ existsb is_launch evs = false
    /\ (List.length (filter is_make_id evs) <= 1)%nat.
Proof.
  apply (adw_build_without_id_ignored Samples.env_ok Samples.srv0
           (Samples.delivery "issue_comment" None
              (Samples.comment_created 12 "adw_build"))
           [] CommentCreated "adw_build").
  - eapply eligible_comment; reflexivity.
  - reflexivity.
  - intros h' temp_id. exists None. split; reflexivity.
Defined.

(** On the sample collaborators the answer is [ignored], after the one
    classification. *)
Example adw_build_without_id_run :
  github_webhook Samples.env_ok Samples.srv0
    (Samples.delivery "issue_comment" None
       (Samples.comment_created 12 "adw_build")) []
  = (Return (Ignored "issue_comment" (JStr "created"), counted Samples.srv0),
     [ ExtractAdwInfo "adw_build" "a1b2c3d4" (Return (Some "adw_build", None));
       MakeAdwId "a1b2c3d4" ]).
Proof. reflexivity. Qed.

(** The same workflow with an identifier is launched under it (a
    classifier that reports the identifier [xyz123]). *)
Example adw_build_with_id_launches :
  fst (github_webhook
         {| make_adw_id := make_adw_id Samples.env_ok;
            extract_adw_info :=
              fun _ _ _ => Return (Some "adw_build", Some "xyz123");
            state_save := state_save Samples.env_ok;
            setup_logger := setup_logger Samples.env_ok;
            make_issue_comment := make_issue_comment Samples.env_ok;
            popen := popen Samples.env_ok;
            printable := printable Samples.env_ok;
            encodable := encodable Samples.env_ok |}
         Samples.srv0
         (Samples.delivery "issue_comment" None
            (Samples.comment_created 12 "adw_build xyz123")) [])
  = Return (Accepted (JNum 12) "xyz123" "adw_build"
              "Comment with adw_build workflow",
            counted Samples.srv0).
Proof. reflexivity. Qed.

(** ** Signatures and the handler *)

(** C1, as the code has it.  The handler does not validate signatures:
    it reads the event-type header and the JSON payload only.  Two
    requests that agree on these get the same response and cause the same
    effects, whatever their signature headers and raw bodies. *)
Theorem signature_not_consulted (env : Env) (srv : Server)
    (request1 request2 : Request) (h : trace) :
  headers_get (headers request1) "X-GitHub-Event" ""
  = headers_get (headers request2) "X-GitHub-Event" "" ->
  json_ request1 = json_ request2 ->
  github_webhook env srv request1 h = github_webhook env srv request2 h.
Proof.
  intros He Hj. unfold github_webhook, github_webhook_try.
  rewrite He, Hj. reflexivity.
Qed.

(** A delivery signed under [s3cret] and the same delivery under a forged
    signature are handled alike. *)
Lemma signature_not_consulted_witness :
  let payload := Samples.issue_opened 7 "adw_plan_build" in
  let raw := Samples.bytes_of_string (Samples.dumps payload) in
  let signed :=
    Samples.delivery "issues" (Some (Samples.sign "s3cret" raw)) payload in
  let forged :=
    Samples.delivery "issues" (Some (Samples.sign "guess" raw)) payload in
  github_webhook Samples.env_ok Samples.srv0 signed []
  = github_webhook Samples.env_ok Samples.srv0 forged [].
Proof.
  intros payload raw signed forged.
  apply (signature_not_consulted Samples.env_ok Samples.srv0 signed forged []);
    vm_compute; reflexivity.
Defined.

(** C1, as the claim has it, fails.  With the secret [s3cret] configured,
    a delivery without a signature header and a delivery with a forged one
    both fail [validate_github_signature]; yet each is classified, and the
    job is launched. *)
Lemma unsigned_request_launches :
  let payload := Samples.issue_opened 7 "adw_plan_build" in
  let raw := Samples.bytes_of_string (Samples.dumps payload) in
  let unsigned := Samples.delivery "issues" None payload in
  let forged :=
    Samples.delivery "issues" (Some (Samples.sign "guess" raw)) payload in
  let outcome :=
    (Return (Accepted (JNum 7) "a1b2c3d4" "adw_plan_build"
               "New issue with adw_plan_build workflow",
             counted Samples.srv0),
     [ Popen "adw_plan_build.py" (JNum 7) "a1b2c3d4" (Return 4321);
       IssueComment (JNum 7) "adw_plan_build" "a1b2c3d4"
         "New issue with adw_plan_build workflow" (Return tt);
       SetupLogger "a1b2c3d4" (Return tt);
       MakeAdwId "a1b2c3d4";
       ExtractAdwInfo "adw_plan_build" "a1b2c3d4"
         (Return (Some "adw_plan_build", None));
       MakeAdwId "a1b2c3d4" ]) in
  WebhookSecurity.validate_github_signature (body unsigned)
    (signature_header unsigned) "s3cret" = Return false
  /\ WebhookSecurity.validate_github_signature (body forged)
       (signature_header forged) "s3cret" = Return false
  /\ github_webhook Samples.env_ok Samples.srv0 unsigned [] = outcome
  /\ github_webhook Samples.env_ok Samples.srv0 forged [] = outcome
  /\ existsb is_classify (snd outcome) = true
  /\ existsb is_launch (snd outcome) = true.
Proof. vm_compute. repeat split. Qed.

(** The scenarios of the service on the sample collaborators. *)
Example scenario_new_issue :
  fst (github_webhook Samples.env_ok Samples.srv0
         (Samples.delivery "issues" None
            (Samples.issue_opened 1 "Please run adw_plan_build")) [])
  = Return (Accepted (JNum 1) "a1b2c3d4" "adw_plan_build"
              "New issue with adw_plan_build workflow",
            counted Samples.srv0).
Proof. reflexivity. Qed.

Example scenario_ping :
  github_webhook Samples.env_ok Samples.srv0
    (Samples.delivery "ping" None Samples.ping) []
  = (Return (Ignored "ping" (JStr ""), counted Samples.srv0), []).
Proof. reflexivity. Qed.

End TriggerWebhookFacts.

(* ===================================================================== *)
(** * Signature validation: signing *)
(* ===================================================================== *)

Module SignatureFacts.
Import WebhookSecurity.

(** Signing and validating go together: under a secret that is not empty,
    the header [sha256=] followed by the hex HMAC-SHA256 of the body is
    accepted, for every body. *)
Theorem validate_signed_accepted (payload_body : list byte)
    (secret : string) :
  secret <> "" ->
  validate_github_signature payload_body
    (Some ("sha256=" ++ Hmac.hexdigest (encode_utf8 secret) payload_body)%string)
    secret
  = Return true.
Proof.
  intros Hs. apply WebhookSecurityFacts.validate_true_iff.
  eexists. split; [reflexivity|]. split; [assumption|].
  split; [apply prefix_of_append|].
  change 7%nat with (String.length "sha256="). apply drop_append.
Qed.

Lemma validate_signed_accepted_witness :
  validate_github_signature Samples.hello
    (Some ("sha256="
           ++ Hmac.hexdigest (encode_utf8 "s3cret") Samples.hello)%string)
    "s3cret"
  = Return true.
Proof.
  apply (validate_signed_accepted Samples.hello "s3cret"). discriminate.
Defined.

End SignatureFacts.

(* ===================================================================== *)
(** * The webhook handler: accepted deliveries *)
(* ===================================================================== *)

Module DispatchFacts.
Import TriggerWebhook Dispatch.

(** Splits the trace of a run into what was added and the history. *)
Ltac added :=
  first [ exists (@nil event); split; [reflexivity|]
        | eexists [_]; split; [reflexivity|]
        | eexists [_; _]; split; [reflexivity|]
        | eexists [_; _; _]; split; [reflexivity|]
        | eexists [_; _; _; _]; split; [reflexivity|]
        | eexists [_; _; _; _; _]; split; [reflexivity|]
        | eexists [_; _; _; _; _; _]; split; [reflexivity|] ].

(** Case analysis on the answer of the next collaborator, and on whether
    a value can be printed. *)
Ltac answer :=
  match goal with
  | |- context [printable ?env ?v] =>
      destruct (printable env v) eqn:?; cbn [andb]; cbv beta iota
  | |- context [match ?x with Return _ => _ | Raise _ => _ end] =>
      destruct x eqn:?; cbn [any_Exception]; cbv beta iota
  end;
  repeat match goal with u : unit |- _ => destruct u end.

Lemma print_run (env : Env) (values : list json) (h : trace) :
  print env values h
  = (if forallb (printable env) values then Return tt
     else Raise UnicodeEncodeError, h).
Proof. unfold print. now destruct (forallb (printable env) values). Qed.

Lemma ignore_run (env : Env) (event_type : string) (action number : json)
    (h : trace) :
  forallb (printable env) [JStr event_type; action; number] = true ->
  ignore env event_type action number h
  = (Return (Ignored event_type action), h).
Proof. intros P. unfold ignore. run. now rewrite print_run, P. Qed.

Lemma classify_text_run (env : Env) (text label : string) (h : trace) :
  exists temp r,
    classify_text env text label h
    = (match r with
       | Return p =>
           Return {| workflow := fst p;
                     provided_adw_id := snd p;
                     trigger_reason :=
                       match fst p with
                       | Some w =>
                           if str_truthy w
                           then (label ++ " with " ++ w ++ " workflow")%string
                           else ""
                       | None => ""
                       end |}
       | Raise e => Raise e
       end, classified text temp r ++ h).
Proof.
  unfold classify_text, new_adw_id. run.
  exists (make_adw_id env h).
  match goal with |- context [ExtractAdwInfo _ _ ?x] => exists x; destruct x end;
    reflexivity.
Qed.

Lemma launch_outcome (env : Env) (issue : json) (w : string) (d : Decision)
    (h : trace) :
  exists r evs,
    launch env issue w d h = (r, evs ++ h)
    /\ match r with
       | Return b =>
           exists adw_id,
             b = Accepted issue adw_id w (trigger_reason d)
             /\ launch_run issue w (provided_adw_id d) (trigger_reason d)
                  adw_id evs
       | Raise _ =>
           existsb launched evs = false
           /\ existsb is_launch (tl evs) = false
       end.
Proof.
  unfold launch, new_adw_id, print. run. cbn [forallb].
  destruct (provided_adw_id d) as [i|] eqn:Hp;
    [destruct (str_truthy i) eqn:Hi|].
  - repeat answer; eexists; added;
      try (split; reflexivity).
    all: eexists; split; [reflexivity|]; now apply launch_resumed.
  - repeat answer; eexists; added;
      try (split; reflexivity).
    all: eexists; split; [reflexivity|]; apply launch_fresh; cbn; exact Hi.
  - repeat answer; eexists; added;
      try (split; reflexivity).
    all: eexists; split; [reflexivity|]; apply launch_fresh; reflexivity.
Qed.

Lemma eq_str_inv (v : json) (s : string) :
  eq_str v s = true -> v = JStr s.
Proof.
  destruct v; try discriminate. cbn. intros H.
  apply String.eqb_eq in H. now subst.
Qed.

(** The part of the handler that looks for a workflow: it launches
    nothing, and what it decides is [decided]. *)
Lemma decide_outcome (env : Env) (request : Request)
    (items fields : list (string * json)) (h : trace) :
  json_ request = Return (JObj items) ->
  match assoc "issue" items with Some v => v | None => JObj [] end
  = JObj fields ->
  let event_type := headers_get (headers request) "X-GitHub-Event" "" in
  let action := match assoc "action" items with
                | Some v => v | None => JStr "" end in
  let number := match assoc "number" fields with
                | Some v => v | None => JNull end in
  exists r evs,
    (if String.eqb event_type "issues" && eq_str action "opened"
        && truthy number
     then on_issue_opened env (JObj fields)
     else if String.eqb event_type "issue_comment"
             && eq_str action "created" && truthy number
     then on_comment_created env (JObj items)
     else ret no_decision) h = (r, evs ++ h)
    /\ existsb is_launch evs = false
    /\ match r with
       | Return d => decided request d evs
       | Raise _ => True
       end.
Proof.
  intros Hj Hi event_type action number.
  assert (truthy number = true ->
          assoc "issue" items = Some (JObj fields)
          /\ assoc "number" fields = Some number) as Hnum.
  { subst number. destruct (assoc "number" fields) as [n|] eqn:Hn;
      [|discriminate].
    intros _. split; [|reflexivity].
    destruct (assoc "issue" items) as [v|]; [now subst|].
    injection Hi as <-. discriminate. }
  assert (forall s, s <> "" -> eq_str action s = true ->
                    assoc "action" items = Some (JStr s)) as Hact.
  { intros s Hs H. apply eq_str_inv in H. subst action.
    destruct (assoc "action" items); congruence. }
  destruct (String.eqb event_type "issues" && eq_str action "opened"
            && truthy number) eqn:C1.
  - apply andb_true_iff in C1 as [C1 Ht].
    apply andb_true_iff in C1 as [He Ha].
    apply String.eqb_eq in He. apply Hact in Ha; [|discriminate].
    destruct (Hnum Ht) as (Hiss & Hn).
    unfold on_issue_opened. run. cbn [get].
    destruct (assoc "body" fields) as [[| | | |text| |]|] eqn:Hb;
      try (eexists (Raise _), []; repeat split; fail).
    + destruct (contains "adw_" (lower text)) eqn:Hc.
      * destruct (classify_text_run env text "New issue" h)
          as (temp & r & ->).
        destruct r as [[wf pr]|e].
        -- eexists (Return _), _. split; [reflexivity|].
           split; [reflexivity|]. right.
           exists IssueOpened, text, temp. split.
           { eapply eligible_issue; eassumption. }
           repeat split; auto. discriminate.
        -- eexists (Raise _), _. split; [reflexivity|]. now split.
      * exists (Return no_decision), []. repeat split. now left.
    + exists (Return no_decision), []. repeat split. now left.
  - destruct (String.eqb event_type "issue_comment"
              && eq_str action "created" && truthy number) eqn:C2.
    2:{ exists (Return no_decision), []. repeat split. now left. }
    apply andb_true_iff in C2 as [C2 Ht].
    apply andb_true_iff in C2 as [He Ha].
    apply String.eqb_eq in He. apply Hact in Ha; [|discriminate].
    destruct (Hnum Ht) as (Hiss & Hn).
    unfold on_comment_created, print. run. cbn [get].
    destruct (assoc "comment" items) as [[| | | | | |cfields]|] eqn:Hcm;
      cbn [get];
      try (eexists (Raise _), []; repeat split; fail).
    2:{ cbn [assoc]. destruct (forallb (printable env) [JStr ""]);
          [|eexists (Raise _), []; repeat split; fail].
        exists (Return no_decision), []. repeat split. now left. }
    destruct (assoc "body" cfields) as [[| | | |text| |]|] eqn:Hb;
      match goal with
      | |- context [forallb (printable env) ?vs] =>
          destruct (forallb (printable env) vs)
      end;
      cbn [str_in];
      try (eexists (Raise _), []; repeat split; fail).
    + destruct (contains ADW_BOT_IDENTIFIER text) eqn:Hbot.
      { exists (Return no_decision), []. repeat split. now left. }
      destruct (contains "adw_" (lower text)) eqn:Hc.
      * destruct (classify_text_run env text "Comment" h)
          as (temp & r & ->).
        destruct r as [[wf pr]|e].
        -- eexists (Return _), _. split; [reflexivity|].
           split; [reflexivity|]. right.
           exists CommentCreated, text, temp. split.
           { eapply eligible_comment; eassumption. }
           repeat split; auto.
        -- eexists (Raise _), _. split; [reflexivity|]. now split.
      * exists (Return no_decision), []. repeat split. now left.
    + destruct (existsb _ _);
        try (eexists (Raise _), []; repeat split; fail);
        exists (Return no_decision), []; repeat split; now left.
    + destruct (existsb _ _);
        try (eexists (Raise _), []; repeat split; fail);
        exists (Return no_decision), []; repeat split; now left.
    + exists (Return no_decision), []. repeat split. now left.
Qed.

Lemma no_launch_no_job (evs : trace) :
  existsb is_launch evs = false ->
  existsb launched evs = false /\ existsb is_launch (tl evs) = false.
Proof.
  induction evs as [|e evs IH]; [auto|].
  cbn [existsb tl]. intros H. apply orb_false_iff in H as [He H].
  split; [|assumption]. apply orb_false_iff. split; [|now apply IH].
  destruct e; try reflexivity. discriminate.
Qed.

Lemma eligible_number (request : Request) (k : kind) (text : string)
    (items fields : list (string * json)) :
  Eligible request k text ->
  json_ request = Return (JObj items) ->
  match assoc "issue" items with Some v => v | None => JObj [] end
  = JObj fields ->
  issue_number_of request
  = Some (match assoc "number" fields with Some v => v | None => JNull end).
Proof.
  intros He Hj Hi. unfold issue_number_of. rewrite Hj.
  destruct He as [items' fields' number t _ Hj' _ Hi' Hn _ _
                 |items' fields' cfields number t _ Hj' _ Hi' Hn _ _ _];
    rewrite Hj in Hj'; injection Hj' as <-;
    rewrite Hi' in Hi |- *; injection Hi as <-; now rewrite Hn.
Qed.

Lemma is_launch_classified (text temp : string)
    (r : Exc (option string * option string)) (l : trace) :
  existsb is_launch (l ++ classified text temp r) = existsb is_launch l.
Proof. rewrite existsb_app. cbn. apply orb_false_r. Qed.

(** The outcomes of the [try] of the handler. *)
Lemma github_webhook_try_outcome (env : Env) (request : Request) (h : trace) :
  exists r evs,
    github_webhook_try env request h = (r, evs ++ h)
    /\ match r with
       | Return (Accepted issue adw_id w reason) =>
           exists k text temp provided l,
             Eligible request k text
             /\ issue_number_of request = Some issue
             /\ contains "adw_" (lower text) = true
             /\ (k = CommentCreated ->
                 contains ADW_BOT_IDENTIFIER text = false)
             /\ str_truthy w = true
             /\ (w = "adw_build" -> opt_truthy provided = true)
             /\ reason = reason_for k w
             /\ evs = l ++ classified text temp (Return (Some w, provided))
             /\ launch_run issue w provided reason adw_id l
       | Return (Ignored _ _) => existsb is_launch evs = false
       | Return (Error _) => False
       | Raise _ =>
           existsb launched evs = false
           /\ existsb is_launch (tl evs) = false
       end.
Proof.
  unfold github_webhook_try. cbv zeta.
  unfold bind at 1, lift at 1.
  destruct (json_ request) as [payload|e] eqn:Hj.
  2:{ exists (Raise e), []. now repeat split. }
  destruct payload as [| | | | | |items];
    try (exists (Raise AttributeError), []; now repeat split).
  unfold bind at 1, lift at 1. cbn [get].
  unfold bind at 1, lift at 1.
  destruct (match assoc "issue" items with Some v => v | None => JObj [] end)
    as [| | | | | |fields] eqn:Hi;
    try (exists (Raise AttributeError), []; now repeat split).
  unfold bind at 1, lift at 1. cbn [get].
  unfold bind at 1. rewrite print_run.
  match goal with
  | |- context [forallb (printable env) ?vs] =>
      destruct (forallb (printable env) vs) eqn:P
  end.
  2:{ eexists (Raise _), []. now repeat split. }
  unfold bind at 1.
  destruct (decide_outcome env request items fields h Hj Hi)
    as (r & evs1 & -> & Hnl & Hd).
  destruct r as [d|e].
  2:{ exists (Raise e), evs1. split; [reflexivity|].
      now apply no_launch_no_job. }
  destruct Hd as [(-> & ->)|(k & text & temp & Hel & Hadw & Hbot & -> & Hr)].
  { eexists (Return (Ignored _ _)), []. cbn [workflow no_decision opt_is andb].
    rewrite ignore_run by exact P. split; reflexivity. }
  destruct d as [wf pr reason]. cbn [workflow provided_adw_id trigger_reason] in *.
  destruct (opt_is wf "adw_build" && negb (opt_truthy pr)) eqn:Hb.
  { eexists (Return (Ignored _ _)), _. rewrite ignore_run by exact P.
    split; reflexivity. }
  destruct wf as [w|].
  2:{ eexists (Return (Ignored _ _)), _. rewrite ignore_run by exact P.
      split; reflexivity. }
  destruct (str_truthy w) eqn:Hw.
  2:{ eexists (Return (Ignored _ _)), _. rewrite ignore_run by exact P.
      split; reflexivity. }
  set (number := match assoc "number" fields with
                 | Some v => v | None => JNull end).
  destruct (launch_outcome env number w
              {| workflow := Some w; provided_adw_id := pr;
                 trigger_reason := reason |}
              (classified text temp (Return (Some w, pr)) ++ h))
    as (r & l & -> & Hl).
  exists r, (l ++ classified text temp (Return (Some w, pr))).
  split; [now rewrite app_assoc|].
  destruct r as [b|e].
  - destruct Hl as (adw_id & -> & Hrun). cbn [trigger_reason] in *.
    exists k, text, temp, pr, l. subst reason.
    repeat split; auto.
    + eapply eligible_number; eassumption.
    + intros ->. cbn in Hb. now destruct (opt_truthy pr).
  - destruct Hl as (Hl1 & Hl2). rewrite existsb_app. split.
    + rewrite Hl1. reflexivity.
    + destruct l as [|e0 l]; [reflexivity|]. cbn [tl app] in *.
      now rewrite is_launch_classified.
Qed.

(** An accepted response has a cause in the delivery: it is an opened
    issue or a created comment, on an issue whose number is the one in the
    response, its text mentions [adw_] in some case, a comment does not
    carry the bot marker, and the reason names the branch and the workflow.
    Nothing else is ever accepted. *)
Theorem accepted_only_when_triggered (env : Env) (srv srv' : Server)
    (request : Request) (h : trace) (issue : json)
    (adw_id w reason : string) :
  fst (github_webhook env srv request h)
  = Return (Accepted issue adw_id w reason, srv') ->
  exists k text,
    Eligible request k text
    /\ issue_number_of request = Some issue
    /\ contains "adw_" (lower text) = true
    /\ (k = CommentCreated -> contains ADW_BOT_IDENTIFIER text = false)
    /\ w <> ""
    /\ reason = reason_for k w.
Proof.
  rewrite TriggerWebhookFacts.github_webhook_run.
  destruct (github_webhook_try_outcome env request h) as (r & evs & -> & Ho).
  destruct r as [b|e]; cbn [fst]; [|discriminate].
  intros H. injection H as -> _.
  destruct Ho as (k & text & temp & provided & l & He & Hn & Ha & Hb & Hw
                  & _ & Hr & _).
  exists k, text. repeat split; auto. intros ->. discriminate.
Qed.

Lemma accepted_only_when_triggered_witness :
  exists k text,
    Eligible (Samples.delivery "issues" None
                (Samples.issue_opened 7 "Please run adw_plan")) k text
    /\ issue_number_of
         (Samples.delivery "issues" None
            (Samples.issue_opened 7 "Please run adw_plan"))
       = Some (JNum 7)
    /\ contains "adw_" (lower text) = true
    /\ (k = CommentCreated -> contains ADW_BOT_IDENTIFIER text = false)
    /\ "adw_plan" <> ""
    /\ "New issue with adw_plan workflow" = reason_for k "adw_plan".
Proof.
  apply (accepted_only_when_triggered Samples.env_ok
           Samples.srv0 (counted Samples.srv0)
           (Samples.delivery "issues" None
              (Samples.issue_opened 7 "Please run adw_plan"))
           [] (JNum 7) "a1b2c3d4" "adw_plan"
           "New issue with adw_plan workflow").
  reflexivity.
Defined.

(** What an accepted response has done: the text was classified once,
    under a temporary identifier, and then the launch ran through, ending
    with the start of the script named after the workflow; these are all
    the effects.  The workflow [adw_build] runs under the identifier the
    classifier provided. *)
Theorem accepted_job_trace (env : Env) (srv srv' : Server)
    (request : Request) (h : trace) (issue : json)
    (adw_id w reason : string) :
  fst (github_webhook env srv request h)
  = Return (Accepted issue adw_id w reason, srv') ->
  exists text temp provided l,
    snd (github_webhook env srv request h)
    = l ++ classified text temp (Return (Some w, provided)) ++ h
    /\ launch_run issue w provided reason adw_id l
    /\ (w = "adw_build" -> provided = Some adw_id).
Proof.
  rewrite TriggerWebhookFacts.github_webhook_run.
  destruct (github_webhook_try_outcome env request h) as (r & evs & -> & Ho).
  destruct r as [b|e]; cbn [fst snd]; [|discriminate].
  intros H. injection H as -> _.
  destruct Ho as (k & text & temp & provided & l & _ & _ & _ & _ & _
                  & Hb & _ & -> & Hrun).
  exists text, temp, provided, l. split; [now rewrite app_assoc|].
  split; [assumption|]. intros Hw. apply Hb in Hw.
  destruct Hrun as [rc pid Hp _|rc pid Hp]; congruence.
Qed.

Lemma accepted_job_trace_witness :
  exists text temp provided l,
    snd (github_webhook Samples.env_ok Samples.srv0
           (Samples.delivery "issue_comment" None
              (Samples.comment_created 12 "adw_test now")) [])
    = l ++ classified text temp (Return (Some "adw_test", provided)) ++ []
    /\ launch_run (JNum 12) "adw_test" provided
         "Comment with adw_test workflow" "a1b2c3d4" l
    /\ ("adw_test" = "adw_build" -> provided = Some "a1b2c3d4").
Proof.
  apply (accepted_job_trace Samples.env_ok Samples.srv0 (counted Samples.srv0)
           (Samples.delivery "issue_comment" None
              (Samples.comment_created 12 "adw_test now"))
           [] (JNum 12) "a1b2c3d4" "adw_test"
           "Comment with adw_test workflow").
  reflexivity.
Defined.


(** C3, where the code departs from it.  The handler never raises, but
    the route does not always answer with a success code: when the
    handler accepts a delivery whose issue number holds a float that is
    not a number (a NaN or an infinity, which [json.loads] reads and which
    are true), the job has been started, and the rendering of the
    accepted body fails, so that the route answers with code 500. *)
Theorem nonfinite_issue_number_answers_500 (env : Env) (srv srv' : Server)
    (request : Request) (h : trace) (issue : json)
    (adw_id w reason : string) :
  fst (github_webhook env srv request h)
  = Return (Accepted issue adw_id w reason, srv') ->
  compliant issue = false ->
  post_gh_webhook env srv request h = (500, None)
  /\ exists evs,
       snd (github_webhook env srv request h) = (evs ++ h)%list
       /\ existsb launched evs = true.
Proof.
  intros H Hc. split.
  - unfold post_gh_webhook. rewrite H. cbn [render]. now rewrite Hc.
  - revert H. rewrite TriggerWebhookFacts.github_webhook_run.
    destruct (github_webhook_try_outcome env request h)
      as (r & evs & -> & Ho).
    destruct r as [b|e]; cbn [fst snd]; [|discriminate].
    intros H. injection H as -> _.
    destruct Ho as (k & text & temp & provided & l & _ & _ & _ & _ & _
                    & _ & _ & -> & Hrun).
    exists (l ++ classified text temp (Return (Some w, provided)))%list.
    split; [reflexivity|]. now destruct Hrun.
Qed.

Lemma nonfinite_issue_number_answers_500_witness :
  post_gh_webhook Samples.env_ok Samples.srv0
    (Samples.delivery "issues" None (Samples.issue_opened_nan "adw_plan")) []
  = (500, None)
  /\ exists evs,
       snd (github_webhook Samples.env_ok Samples.srv0
              (Samples.delivery "issues" None
                 (Samples.issue_opened_nan "adw_plan")) [])
       = (evs ++ [])%list
       /\ existsb launched evs = true.
Proof.
  apply (nonfinite_issue_number_answers_500 Samples.env_ok Samples.srv0
           (counted Samples.srv0)
           (Samples.delivery "issues" None
              (Samples.issue_opened_nan "adw_plan"))
           [] (JFloat SpecFloat.S754_nan) "a1b2c3d4" "adw_plan"
           "New issue with adw_plan workflow");
    reflexivity.
Defined.

(** The delivery [{"action": "opened", "issue": {"number": NaN, "body":
    "adw_plan"}}]: the handler returns the accepted body after starting
    the job, and the route answers 500. *)
Example nonfinite_issue_number_run :
  github_webhook Samples.env_ok Samples.srv0
    (Samples.delivery "issues" None (Samples.issue_opened_nan "adw_plan")) []
  = (Return (Accepted (JFloat SpecFloat.S754_nan) "a1b2c3d4" "adw_plan"
               "New issue with adw_plan workflow",
             counted Samples.srv0),
     [ Popen "adw_plan.py" (JFloat SpecFloat.S754_nan) "a1b2c3d4"
         (Return 4321);
       IssueComment (JFloat SpecFloat.S754_nan) "adw_plan" "a1b2c3d4"
         "New issue with adw_plan workflow" (Return tt);
       SetupLogger "a1b2c3d4" (Return tt);
       MakeAdwId "a1b2c3d4";
       ExtractAdwInfo "adw_plan" "a1b2c3d4" (Return (Some "adw_plan", None));
       MakeAdwId "a1b2c3d4" ])
  /\ post_gh_webhook Samples.env_ok Samples.srv0
       (Samples.delivery "issues" None (Samples.issue_opened_nan "adw_plan"))
       []
     = (500, None)
  /\ post_gh_webhook Samples.env_ok Samples.srv0
       (Samples.delivery "issues" None (Samples.issue_opened 7 "adw_plan"))
       []
     = (200, Some (Accepted (JNum 7) "a1b2c3d4" "adw_plan"
                     "New issue with adw_plan workflow")).
Proof. repeat split; reflexivity. Qed.

(** The launch, when the collaborators it depends on return and what is
    printed can be encoded: the job is started and the response is
    [accepted], whatever posting the comment does. *)
Lemma launch_goes_through (env : Env) (issue : json) (w : string)
    (d : Decision) (h : trace) :
  stdout_ok env ->
  (forall h' i n, state_save env h' i n = Return tt) ->
  (forall h' i, setup_logger env h' i = Return tt) ->
  (forall h' s n i, exists pid, popen env h' s n i = Return pid) ->
  exists adw_id,
    fst (launch env issue w d h)
    = Return (Accepted issue adw_id w (trigger_reason d)).
Proof.
  intros Hok Hs Hl Hp. unfold launch, new_adw_id, print. run.
  cbn [forallb].
  destruct (provided_adw_id d) as [i|]; [destruct (str_truthy i)|];
    repeat (cbv beta iota; rewrite ?Hok, ?Hs, ?Hl; cbn [andb any_Exception]);
    match goal with
    | |- context [make_issue_comment env ?a ?b ?c ?e ?f] =>
        destruct (make_issue_comment env a b c e f) as [[]|x]
    end;
    repeat (cbv beta iota; rewrite ?Hok, ?Hs, ?Hl; cbn [andb any_Exception]);
    match goal with
    | |- context [popen env ?a ?b ?c ?e] =>
        destruct (Hp a b c e) as (pid & ->)
    end;
    repeat (cbv beta iota; rewrite ?Hok, ?Hs, ?Hl; cbn [andb any_Exception]);
    eexists; reflexivity.
Qed.

(** A failure to post the comment on the issue does not stop the launch.
    For an eligible delivery whose text mentions [adw_] (a comment without
    the bot marker), a classifier that reports a workflow (for [adw_build],
    with an identifier), a state store, a logger and a process start
    that go through, and a [stdout] that can encode what is printed, the
    response is [accepted], whatever [make_issue_comment] does. *)
Theorem comment_failure_tolerated (env : Env) (srv : Server)
    (request : Request) (h : trace) (k : kind) (text w : string)
    (provided : option string) :
  stdout_ok env ->
  Eligible request k text ->
  contains "adw_" (lower text) = true ->
  (k = CommentCreated -> contains ADW_BOT_IDENTIFIER text = false) ->
  (forall h' temp,
     extract_adw_info env h' text temp = Return (Some w, provided)) ->
  str_truthy w = true ->
  (w = "adw_build" -> opt_truthy provided = true) ->
  (forall h' i n, state_save env h' i n = Return tt) ->
  (forall h' i, setup_logger env h' i = Return tt) ->
  (forall h' s n i, exists pid, popen env h' s n i = Return pid) ->
  exists issue adw_id,
    issue_number_of request = Some issue
    /\ fst (github_webhook env srv request h)
       = Return (Accepted issue adw_id w (reason_for k w), counted srv).
Proof.
  intros Hok He Hadw Hbot Hx Hw Hb Hs Hl Hp.
  rewrite TriggerWebhookFacts.github_webhook_run.
  assert (forall vs, forallb (printable env) vs = true) as Hall.
  { intros vs. apply forallb_forall. intros v _. apply Hok. }
  assert (opt_is (Some w) "adw_build" && negb (opt_truthy provided) = false)
    as Hgo.
  { cbn [opt_is]. destruct (String.eqb_spec w "adw_build") as [E|]; [|reflexivity].
    now rewrite (Hb E). }
  inversion He as [items fields number t Hh Hj Ha Hi Hn Ht Hbd
                  |items fields cfields number t Hh Hj Ha Hi Hn Ht Hcm Hbd];
    subst; exists number.
  - unfold github_webhook_try, on_issue_opened, classify_text, new_adw_id,
      print.
    unfold issue_number_of.
    run. rewrite Hh, Hj. cbn [get]. rewrite Ha, Hi. cbn [get].
    rewrite Hn, !Hall, Ht, Hbd.
    cbn - [contains lower launch]. rewrite Hadw. cbv beta. rewrite Hx.
    cbn - [launch opt_is]. rewrite Hgo, Hw.
    match goal with
    | |- context [launch env ?n ?w ?d ?h'] =>
        destruct (launch_goes_through env n w d h' Hok Hs Hl Hp)
          as (adw_id & E);
        destruct (launch env n w d h') as [r h'']
    end.
    cbn [fst] in E. subst r. exists adw_id. split; reflexivity.
  - unfold github_webhook_try, on_comment_created, classify_text, new_adw_id,
      print.
    unfold issue_number_of.
    run. rewrite Hh, Hj. cbn [get]. rewrite Ha, Hi. cbn [get].
    rewrite Hn, !Hall, Ht, Hcm. cbn [get]. rewrite Hbd, !Hall. cbn [str_in].
    rewrite (Hbot eq_refl).
    cbn - [contains lower launch]. rewrite Hadw. cbv beta. rewrite Hx.
    cbn - [launch opt_is]. rewrite Hgo, Hw.
    match goal with
    | |- context [launch env ?n ?w ?d ?h'] =>
        destruct (launch_goes_through env n w d h' Hok Hs Hl Hp)
          as (adw_id & E);
        destruct (launch env n w d h') as [r h'']
    end.
    cbn [fst] in E. subst r. exists adw_id. split; reflexivity.
Qed.

Lemma comment_failure_tolerated_witness :
  exists issue adw_id,
    issue_number_of
      (Samples.delivery "issues" None
         (Samples.issue_opened 7 "adw_plan_build")) = Some issue
    /\ fst (github_webhook MoreSamples.env_comment_fails Samples.srv0
              (Samples.delivery "issues" None
                 (Samples.issue_opened 7 "adw_plan_build")) [])
       = Return (Accepted issue adw_id "adw_plan_build"
                   (reason_for IssueOpened "adw_plan_build"),
                 counted Samples.srv0).
Proof.
  apply (comment_failure_tolerated MoreSamples.env_comment_fails Samples.srv0
           (Samples.delivery "issues" None
              (Samples.issue_opened 7 "adw_plan_build"))
           [] IssueOpened "adw_plan_build" "adw_plan_build" None).
  - intros v. reflexivity.
  - eapply eligible_issue; reflexivity.
  - reflexivity.
  - discriminate.
  - intros h' temp. reflexivity.
  - reflexivity.
  - discriminate.
  - intros h' i n. reflexivity.
  - intros h' i. reflexivity.
  - intros h' s n i. exists 4321. reflexivity.
Defined.

End DispatchFacts.
(* ===================================================================== *)
(** * Port management: the startup path *)
(* ===================================================================== *)

Module PortConflictFacts.
Import PortManager PortConflict PortTraces.

(** A port reported in use is a port the socket layer accepts. *)
Lemma in_use_valid_port (os : OS) (port : Z) (host : string) (h : trace) :
  fst (is_port_in_use os port host h) = Return true ->
  valid_port port = true.
Proof.
  unfold is_port_in_use, is_port_in_use_try, sock_connect_ex. run.
  destruct (os_socket os h); [|discriminate].
  destruct (valid_port port); [reflexivity|discriminate].
Qed.

Lemma is_port_in_use_cases (os : OS) (port : Z) (host : string) (h : trace) :
  exists r,
    is_port_in_use os port host h
    = (Return (negb (probed_free r)), Connect host port r :: h).
Proof.
  destruct (PortManagerFacts.is_port_in_use_run os port host h) as (r & ->).
  exists r. destruct r as [errno|e]; cbn; [|reflexivity].
  now rewrite negb_involutive.
Qed.

(** One attempt, whatever the lookup does. *)
Lemma kill_attempt_outcome (os : OS) (port : Z) (force : bool) (attempt : Z)
    (h : trace) :
  exists r evs,
    kill_attempt os port force attempt h = (r, evs ++ h)
    /\ kills_follow_lookups port evs = true
    /\ match r with
       | Return (Some true) =>
           exists e evs', evs = e :: evs' /\ final_true e = true
       | Return _ => evs <> []
       | Raise e =>
           evs = [Lookup port (Raise e)] /\ os_lookup os h port = Raise e
       end.
Proof.
  unfold kill_attempt. run.
  destruct (os_lookup os h port) as [[pid|]|e] eqn:Ho.
  3:{ exists (Raise e), [Lookup port (Raise e)]. now repeat split. }
  2:{ exists (Return (Some true)), [Lookup port (Return None)].
      repeat split. now eexists _, _. }
  set (sig := if force || (0 <? attempt) then SIGKILL else SIGTERM).
  set (h1 := Lookup port (Return (Some pid)) :: h).
  assert (kills_follow_lookups port
            [Kill pid sig (os_kill os h1 pid sig);
             Lookup port (Return (Some pid))] = true) as Hk.
  { cbn. now rewrite !Z.eqb_refl. }
  destruct (os_kill os h1 pid sig) as [[]|e] eqn:Ek.
  - unfold sleep.
    destruct (is_port_in_use_cases os port default_host
                (Sleep 500 :: Kill pid sig (Return tt) :: h1)) as (r & ->).
    rewrite negb_involutive.
    destruct (probed_free r) eqn:Hf.
    + exists (Return (Some true)). eexists [_; _; _; _].
      split; [reflexivity|]. split; [exact Hk|].
      eexists _, _. split; [reflexivity|]. destruct r; exact Hf.
    + exists (Return None). eexists [_; _; _; _].
      split; [reflexivity|]. split; [exact Hk|]. discriminate.
  - cbn [any_Exception].
    destruct (is_ProcessLookupError e) eqn:H1;
      [|destruct (is_PermissionError e) eqn:H2].
    + exists (Return (Some true)). eexists [_; _].
      split; [reflexivity|]. split; [exact Hk|].
      eexists _, _. split; [reflexivity|]. now destruct e.
    + exists (Return (Some false)). eexists [_; _].
      split; [reflexivity|]. split; [exact Hk|]. discriminate.
    + exists (Return None). eexists [_; _].
      split; [reflexivity|]. split; [exact Hk|]. discriminate.
Qed.

Lemma kills_follow_lookups_app (port : Z) (a b : trace) :
  kills_follow_lookups port a = true ->
  kills_follow_lookups port b = true ->
  kills_follow_lookups port (a ++ b) = true.
Proof.
  intros Ha Hb. induction a as [|e a IH]; [exact Hb|].
  destruct e; cbn [app kills_follow_lookups] in *; auto.
  apply andb_true_iff in Ha as [H1 H2]. rewrite (IH H2), andb_true_r.
  destruct a as [|[] a]; try discriminate. exact H1.
Qed.

(** The loop, whatever the lookup does. *)
Lemma kill_loop_outcome (os : OS) (port : Z) (force : bool) (n : nat) :
  forall (attempt : Z) (h : trace),
  exists r evs,
    kill_loop os port force attempt n h = (r, evs ++ h)
    /\ kills_follow_lookups port evs = true
    /\ match r with
       | Return true =>
           exists e evs', evs = e :: evs' /\ final_true e = true
       | Return false => True
       | Raise e =>
           exists evs', evs = Lookup port (Raise e) :: evs'
                        /\ os_lookup os (evs' ++ h) port = Raise e
       end.
Proof.
  induction n as [|n IH]; intros attempt h.
  - exists (Return false), []. now repeat split.
  - cbn [kill_loop]. unfold bind.
    destruct (kill_attempt_outcome os port force attempt h)
      as (r & evs1 & -> & Hk1 & Hr).
    destruct r as [[[|]|]|e].
    + exists (Return true), evs1. now repeat split.
    + exists (Return false), evs1. now repeat split.
    + destruct (IH (attempt + 1) (evs1 ++ h)) as (r & evs & -> & Hk & Ho).
      exists r, (evs ++ evs1). split; [now rewrite app_assoc|].
      split; [now apply kills_follow_lookups_app|].
      destruct r as [[|]|e]; auto.
      * destruct Ho as (e & evs' & -> & Hf). now exists e, (evs' ++ evs1).
      * destruct Ho as (evs' & -> & Ho). exists (evs' ++ evs1).
        split; [reflexivity|]. now rewrite <- app_assoc.
    + destruct Hr as (-> & Hr). exists (Raise e), [Lookup port (Raise e)].
      split; [reflexivity|]. split; [reflexivity|]. now exists [].
Qed.

(** [kill_process_on_port] signals no process but the owner it has just
    been told: in every run, whatever the system answers, each signal
    comes right after a lookup for the port that returned the process
    signalled. *)
Theorem kill_only_the_owner (os : OS) (port : Z) (force : bool)
    (max_retries : Z) (h : trace) :
  exists evs,
    snd (kill_process_on_port os port force max_retries h) = evs ++ h
    /\ forall pre post pid sig r,
         evs = pre ++ Kill pid sig r :: post ->
         exists rest, post = Lookup port (Return (Some pid)) :: rest.
Proof.
  unfold kill_process_on_port.
  destruct (kill_loop_outcome os port force (Z.to_nat max_retries) 0 h)
    as (r & evs & -> & Hk & _).
  exists evs. split; [reflexivity|].
  intros pre post pid sig r0 ->. induction pre as [|e pre IH].
  - cbn in Hk. apply andb_true_iff in Hk as [Hk _].
    destruct post as [|[? ? ?|? ? ?|p lr|? ? ?|?] post]; try discriminate.
    destruct lr as [[owner|]|]; try discriminate.
    apply andb_true_iff in Hk as [Hp Ho].
    apply Z.eqb_eq in Hp, Ho. subst. now exists post.
  - apply IH. destruct e; cbn [app kills_follow_lookups] in Hk; auto.
    now apply andb_true_iff in Hk as [_ Hk].
Qed.



(** With the lookup tool missing, the first lookup raises and the
    exception leaves [kill_process_on_port]. *)
Lemma kill_process_on_port_lookup_raises_witness :
  fst (kill_process_on_port MoreSamples.os_no_tool 8001 false 3 [])
  = Raise FileNotFoundError.
Proof.
  apply (PortManagerFacts.kill_process_on_port_lookup_raises
           MoreSamples.os_no_tool 8001 false 3 [] FileNotFoundError).
  - lia.
  - reflexivity.
Defined.


(** The ways [handle_port_conflict] ends. *)
Lemma handle_port_conflict_cases (os : OS) (port max_retries : Z)
    (h : trace) :
  exists r evs,
    handle_port_conflict os port max_retries h = (r, evs ++ h)
    /\ match r with
       | Return p =>
           (p = port
            /\ exists c, evs = [Connect default_host port c]
                         /\ probed_free c = true)
           \/ (p = port
               /\ exists e evs',
                    evs = Sleep 1000 :: e :: evs' /\ final_true e = true)
           \/ (port < p < port + 100
               /\ exists evs', evs = Bind default_host p (Return tt) :: evs')
       | Raise e =>
           (e = RuntimeError
            /\ forall q, port < q < port + 100 ->
                         rejected default_host evs q)
           \/ (exists evs', evs = Lookup port (Raise e) :: evs'
                            /\ os_lookup os (evs' ++ h) port = Raise e)
           \/ (is_OSError e = false
               /\ exists q evs',
                    port < q < port + 100
                    /\ evs = Bind default_host q (Raise e) :: evs'
                    /\ bind_raised os (evs' ++ h) default_host q e)
       end.
Proof.
  unfold handle_port_conflict. unfold bind at 1.
  pose proof (in_use_valid_port os port default_host h) as Hv.
  destruct (is_port_in_use_cases os port default_host h) as (c & E).
  rewrite E in Hv |- *. cbn [fst] in Hv.
  destruct (probed_free c) eqn:Hc; cbn [negb] in *.
  { exists (Return port), [Connect default_host port c].
    split; [reflexivity|]. left. split; [reflexivity|]. now exists c. }
  specialize (Hv eq_refl).
  set (h1 := Connect default_host port c :: h).
  (* the owner, as get_port_info reports it *)
  unfold bind at 1. unfold get_port_info_pid at 1. unfold bind at 1.
  destruct (is_port_in_use_cases os port default_host h1) as (c2 & ->).
  set (h2 := Connect default_host port c2 :: h1).
  assert (exists rp evs2,
             (if negb (probed_free c2)
              then call (fun h0 => os_lookup os h0 port) (Lookup port)
              else ret None) h2 = (rp, evs2 ++ h2)
             /\ match rp with
                | Raise e => evs2 = [Lookup port (Raise e)]
                             /\ os_lookup os h2 port = Raise e
                | Return _ => True
                end) as (rp & evs2 & -> & Hrp).
  { destruct (negb (probed_free c2)).
    - unfold call. destruct (os_lookup os h2 port) as [o|e] eqn:Ho.
      + now exists (Return o), [Lookup port (Return o)].
      + now exists (Raise e), [Lookup port (Raise e)].
    - now exists (Return None), []. }
  destruct rp as [pid|e].
  2:{ destruct Hrp as (-> & Hrp). exists (Raise e). eexists [_; _; _].
      split; [reflexivity|]. right. left. eexists. split; [reflexivity|].
      exact Hrp. }
  clear Hrp. set (h3 := evs2 ++ h2).
  (* the attempt to free the port *)
  unfold bind at 1.
  assert (exists rk evs3,
             (if int_truthy pid
              then kill_process_on_port os port false max_retries
              else ret false) h3 = (rk, evs3 ++ h3)
             /\ match rk with
                | Return true =>
                    exists e evs', evs3 = e :: evs' /\ final_true e = true
                | Return false => True
                | Raise e =>
                    exists evs', evs3 = Lookup port (Raise e) :: evs'
                                 /\ os_lookup os (evs' ++ h3) port = Raise e
                end) as (rk & evs3 & -> & Hrk).
  { destruct (int_truthy pid).
    - unfold kill_process_on_port.
      destruct (kill_loop_outcome os port false (Z.to_nat max_retries) 0 h3)
        as (rk & evs3 & E3 & _ & H3).
      now exists rk, evs3.
    - now exists (Return false), []. }
  destruct rk as [[|]|e].
  - (* freed *)
    destruct Hrk as (e & evs' & -> & Hf).
    exists (Return port),
      (Sleep 1000 :: e :: evs' ++ evs2
       ++ [Connect default_host port c2; Connect default_host port c]).
    split.
    { unfold bind, sleep, ret. subst h3 h2 h1. cbn [app].
      now rewrite <- !app_assoc. }
    right. left. split; [reflexivity|]. now eexists _, _.
  - (* not freed: look for another port *)
    clear Hrk. set (h4 := evs3 ++ h3). unfold bind at 1.
    destruct (PortManagerFacts.find_available_port_spec os (port + 1)
                (port + 100) default_host h4) as (evs4 & E4 & Ho).
    destruct (find_available_port os (port + 1) (port + 100) default_host h4)
      as [ra h5]. cbn [fst snd] in *. subst h5.
    set (pre := evs3 ++ evs2
                ++ [Connect default_host port c2;
                    Connect default_host port c]).
    assert (evs4 ++ h4 = (evs4 ++ pre) ++ h) as Eh.
    { subst h4 h3 h2 h1 pre. now rewrite <- !app_assoc. }
    destruct ra as [[p|]|e].
    + destruct Ho as (Hp & (evs' & ->) & _).
      assert (int_truthy (Some p) = true) as ->.
      { cbn. apply negb_true_iff, Z.eqb_neq.
        unfold valid_port in Hv. apply andb_true_iff in Hv as [Hv _].
        apply Z.leb_le in Hv. lia. }
      exists (Return p), ((Bind default_host p (Return tt) :: evs') ++ pre).
      split; [unfold ret; now rewrite Eh|].
      right. right. split; [lia|]. now eexists.
    + exists (Raise RuntimeError), (evs4 ++ pre).
      split; [cbn; unfold raise; now rewrite Eh|].
      left. split; [reflexivity|]. intros q Hq.
      apply PortManagerFacts.rejected_app. left. apply Ho. lia.
    + destruct Ho as (He & q & evs' & Hq & -> & Hb).
      exists (Raise e), ((Bind default_host q (Raise e) :: evs') ++ pre).
      split; [now rewrite Eh|].
      right. right. split; [assumption|].
      exists q, (evs' ++ pre). split; [lia|]. split; [reflexivity|].
      rewrite <- app_assoc. subst pre h4 h3 h2 h1.
      now rewrite <- !app_assoc in *.
  - destruct Hrk as (evs' & -> & Hrk).
    exists (Raise e),
      (Lookup port (Raise e) :: evs' ++ evs2
       ++ [Connect default_host port c2; Connect default_host port c]).
    split.
    { subst h3 h2 h1. cbn [app]. now rewrite <- !app_assoc. }
    right. left. eexists. split; [reflexivity|].
    subst h3 h2 h1. now rewrite <- !app_assoc.
Qed.

(** The port [handle_port_conflict] returns is the one asked for or one of
    the 99 ports after it.  It is the port asked for only when the first
    probe found it free (nothing else is then done: no lookup, no signal,
    no bind), or when its owner was dealt with, the latest effect being the
    pause of one second.  Another port is returned with its successful
    bind as the latest effect. *)
Theorem handle_port_conflict_returned_port (os : OS) (port max_retries : Z)
    (h : trace) (p : Z) :
  fst (handle_port_conflict os port max_retries h) = Return p ->
  exists evs,
    snd (handle_port_conflict os port max_retries h) = evs ++ h
    /\ ((p = port
         /\ ((exists c, evs = [Connect default_host port c]
                        /\ probed_free c = true)
             \/ exists e evs',
                  evs = Sleep 1000 :: e :: evs' /\ final_true e = true))
        \/ (port < p < port + 100
            /\ exists evs', evs = Bind default_host p (Return tt) :: evs')).
Proof.
  destruct (handle_port_conflict_cases os port max_retries h)
    as (r & evs & -> & Ho).
  cbn [fst snd]. intros ->. exists evs. split; [reflexivity|].
  destruct Ho as [(-> & H)|[(-> & H)|H]]; auto.
Qed.

Lemma handle_port_conflict_returned_port_witness :
  exists evs,
    snd (handle_port_conflict Samples.os_two_taken 8001 3 []) = evs ++ []
    /\ ((8003 = 8001
         /\ ((exists c, evs = [Connect default_host 8001 c]
                        /\ probed_free c = true)
             \/ exists e evs',
                  evs = Sleep 1000 :: e :: evs' /\ final_true e = true))
        \/ (8001 < 8003 < 8001 + 100
            /\ exists evs',
                 evs = Bind default_host 8003 (Return tt) :: evs')).
Proof.
  apply (handle_port_conflict_returned_port Samples.os_two_taken 8001 3 []
           8003).
  reflexivity.
Defined.



End PortConflictFacts.
(* ===================================================================== *)
(** * Python strings *)
(* ===================================================================== *)

Module PyStrFacts.
Import PyStr.

(** ** Splitting *)

Lemma prefix_empty_inv (sep : string) :
  String.prefix sep "" = true -> sep = "".
Proof. destruct sep; [reflexivity|discriminate]. Qed.

(** A separator that occurs gives a second piece. *)
Lemma split_from_second (sep s : string) :
  sep <> "" -> contains sep s = true ->
  snd (split_from sep 0 s) <> [].
Proof.
  intros Hs. induction s as [|c t IH]; intros Hc.
  - cbn in Hc. rewrite orb_false_r in Hc.
    now apply prefix_empty_inv in Hc.
  - cbn [split_from].
    destruct (String.prefix sep (String c t)) eqn:Hp.
    + destruct (split_from sep (String.length sep - 1) t). discriminate.
    + cbn [contains] in Hc. rewrite Hp in Hc. cbn [orb] in Hc.
      specialize (IH Hc). destruct (split_from sep 0 t). exact IH.
Qed.

Lemma split_returns (s sep : string) :
  sep <> "" ->
  exists p ps, split s sep = Return (p :: ps)
               /\ (contains sep s = true -> ps <> []).
Proof.
  intros Hs. unfold split.
  assert (str_truthy sep = true) as ->.
  { destruct sep; [congruence|reflexivity]. }
  pose proof (split_from_second sep s Hs) as H2.
  destruct (split_from sep 0 s) as [p ps]. now exists p, ps.
Qed.

(** ** Numbers *)

Lemma int_of_str_raises (s : string) (e : exn) :
  int_of_str s = Raise e -> e = ValueError.
Proof.
  unfold int_of_str.
  match goal with
  | |- (let (_, _) := ?x in _) = _ -> _ => destruct x as [negative body]
  end.
  destruct (digits_value 0 false body);
    [destruct (max_str_digits <? count_digits body); [|discriminate]|];
    intros H; now injection H.
Qed.

(** A string of digits has as many digits as characters. *)
Lemma count_digits_all (s : string) :
  all_chars isdigit s = true -> count_digits s = Z.of_nat (String.length s).
Proof.
  induction s as [|c t IH]; [reflexivity|].
  cbn [all_chars count_digits String.length]. intros H.
  apply andb_true_iff in H as [Hc Ht]. rewrite Hc, (IH Ht). lia.
Qed.

(** ** Numerals *)

Lemma digits_value_acc (d : Decimal.uint) :
  forall acc : positive,
    digits_value (Z.pos acc) true (DecimalString.NilEmpty.string_of_uint d)
    = Some (Z.pos (Pos.of_uint_acc d acc)).
Proof.
  induction d; intros acc; cbn [DecimalString.NilEmpty.string_of_uint];
    [reflexivity|..];
    cbn [digits_value]; change (isdigit _) with true; cbv iota;
    cbn [Pos.of_uint_acc]; rewrite <- IHd; f_equal;
    match goal with
    | |- context [ord ?c] =>
        let v := eval vm_compute in (ord c) in change (ord c) with v
    end; lia.
Qed.

Lemma digits_value_uint (d : Decimal.uint) :
  digits_value 0 true (DecimalString.NilEmpty.string_of_uint d)
  = Some (Z.of_N (Pos.of_uint d)).
Proof.
  induction d; cbn [DecimalString.NilEmpty.string_of_uint];
    [reflexivity|..];
    cbn [digits_value]; change (isdigit _) with true; cbv iota;
    cbn [Pos.of_uint]; [exact IHd|..]; apply digits_value_acc.
Qed.

Lemma digits_value_start (c : ascii) (t : string) (acc : Z) :
  isdigit c = true ->
  digits_value acc false (String c t) = digits_value acc true (String c t).
Proof. intros H. cbn [digits_value]. now rewrite H. Qed.

Lemma all_chars_uint (p : ascii -> bool) (d : Decimal.uint) :
  (forall c, isdigit c = true -> p c = true) ->
  all_chars p (DecimalString.NilEmpty.string_of_uint d) = true.
Proof.
  intros Hp. induction d; cbn; [reflexivity|..];
    rewrite IHd, andb_true_r; now apply Hp.
Qed.

(** The numeral of a natural number: digits only, at least one, read back
    as the number. *)
Lemma numeral_nonneg (n : Z) :
  0 <= n ->
  exists c t,
    str_of_int n = String c t
    /\ all_chars isdigit (str_of_int n) = true
    /\ digits_value 0 false (str_of_int n) = Some n.
Proof.
  intros Hn. unfold str_of_int. destruct n as [|p|p]; [| |lia].
  - exists "0"%char, "". now repeat split.
  - cbn [Z.to_int DecimalString.NilZero.string_of_int].
    pose proof (DecimalPos.Unsigned.to_uint_nonnil p) as Hnil.
    pose proof (DecimalPos.Unsigned.of_to p) as Hof.
    pose proof (digits_value_uint (Pos.to_uint p)) as Hv.
    pose proof (all_chars_uint isdigit (Pos.to_uint p) (fun c H => H)) as Hd.
    rewrite Hof in Hv. cbn [Z.of_N] in Hv.
    unfold DecimalString.NilZero.string_of_uint.
    destruct (Pos.to_uint p) eqn:E; [congruence|..];
      cbn [DecimalString.NilEmpty.string_of_uint] in *;
      eexists _, _; (split; [reflexivity|]); (split; [exact Hd|]);
      rewrite digits_value_start by reflexivity; exact Hv.
Qed.

End PyStrFacts.

(* ===================================================================== *)
(** * Python strings: stripping and the pieces of a split *)
(* ===================================================================== *)

Module StripFacts.
Import PyStr.

(** ** Classes of characters *)

Lemma digit_cases (c : ascii) :
  isdigit c = true ->
  isspace c = false
  /\ Ascii.eqb c (chr 10) = false
  /\ Ascii.eqb c "+" = false /\ Ascii.eqb c "-" = false
  /\ Ascii.eqb c "," = false /\ Ascii.eqb c ")" = false
  /\ Ascii.eqb c "p" = false.
Proof.
  destruct c as [[] [] [] [] [] [] [] []]; vm_compute; intros H;
    try discriminate H; repeat split.
Qed.

Lemma all_chars_weaken (p q : ascii -> bool) (s : string) :
  (forall c, p c = true -> q c = true) ->
  all_chars p s = true -> all_chars q s = true.
Proof.
  intros Hpq. induction s as [|c t IH]; [reflexivity|]. cbn.
  intros H. apply andb_true_iff in H as [H1 H2].
  now rewrite (Hpq _ H1), IH.
Qed.

Lemma all_chars_app (p : ascii -> bool) (s t : string) :
  all_chars p (s ++ t) = all_chars p s && all_chars p t.
Proof.
  induction s as [|c s IH]; [reflexivity|]. cbn.
  now rewrite IH, andb_assoc.
Qed.

Lemma append_empty (s : string) : (s ++ "")%string = s.
Proof. induction s as [|c s IH]; [reflexivity|]. cbn. now rewrite IH. Qed.

(** ** Stripping *)

Lemma rstrip_cons (c : ascii) (t : string) :
  isspace c = false -> rstrip (String c t) = String c (rstrip t).
Proof. intros H. cbn [rstrip]. rewrite H. now destruct (rstrip t). Qed.

Lemma rstrip_app (d x : string) :
  no_space d = true -> rstrip (d ++ x) = (d ++ rstrip x)%string.
Proof.
  induction d as [|c d IH]; [reflexivity|]. cbn [no_space all_chars].
  intros H. apply andb_true_iff in H as [H1 H2].
  apply negb_true_iff in H1. cbn [append].
  now rewrite rstrip_cons, IH.
Qed.

Lemma rstrip_nonempty_app (x y : string) :
  rstrip y <> "" -> rstrip (x ++ y) = (x ++ rstrip y)%string.
Proof.
  intros Hy. induction x as [|c x IH]; [reflexivity|].
  cbn [append rstrip]. rewrite IH.
  destruct (x ++ rstrip y)%string eqn:E; [|reflexivity].
  destruct x; [cbn in E; congruence|discriminate].
Qed.

Lemma rstrip_empty_app (x y : string) :
  rstrip y = "" -> rstrip (x ++ y) = rstrip x.
Proof.
  intros Hy. induction x as [|c x IH]; [exact Hy|].
  cbn [append rstrip]. now rewrite IH.
Qed.

Lemma rstrip_head (c : ascii) (t : string) :
  rstrip (String c t) = "" \/ exists r, rstrip (String c t) = String c r.
Proof.
  cbn [rstrip]. destruct (rstrip t); [destruct (isspace c)|]; eauto.
Qed.

Lemma rstrip_all_chars (p : ascii -> bool) (s : string) :
  all_chars p s = true -> all_chars p (rstrip s) = true.
Proof.
  induction s as [|c t IH]; [reflexivity|]. cbn [all_chars rstrip].
  intros H. apply andb_true_iff in H as [H1 H2]. specialize (IH H2).
  destruct (rstrip t); [destruct (isspace c)|]; cbn [all_chars] in *;
    now rewrite ?H1, ?IH.
Qed.

(** The pieces [rstrip] leaves of the end of a line and what follows
    it. *)
Lemma rstrip_line (b post : string) :
  one_line b = true ->
  post = "" \/ (exists t, post = String (chr 10) t) ->
  exists b' q,
    rstrip (b ++ post) = (b' ++ q)%string
    /\ one_line b' = true
    /\ (q = "" \/ exists t, q = String (chr 10) t).
Proof.
  intros Hb Hp. destruct (rstrip post) as [|c r] eqn:E.
  - exists (rstrip b), "". rewrite rstrip_empty_app by assumption.
    split; [now rewrite append_empty|]. split; [|now left].
    now apply rstrip_all_chars.
  - exists b, (String c r). rewrite rstrip_nonempty_app by congruence.
    rewrite E. split; [reflexivity|]. split; [assumption|]. right.
    destruct Hp as [->|(t & ->)]; [discriminate|].
    destruct (rstrip_head (chr 10) t) as [H|(r' & H)]; rewrite H in E;
      [discriminate|]. injection E as <- _. now exists r.
Qed.

Lemma lstrip_cons (c : ascii) (t : string) :
  isspace c = false -> lstrip (String c t) = String c t.
Proof. intros H. cbn. now rewrite H. Qed.

Lemma strip_no_space (s : string) : no_space s = true -> strip s = s.
Proof.
  intros H. unfold strip.
  assert (lstrip s = s) as ->.
  { destruct s as [|c t]; [reflexivity|]. cbn in H.
    apply andb_true_iff in H as [H _]. apply negb_true_iff in H.
    now apply lstrip_cons. }
  rewrite <- (append_empty s) at 1. rewrite rstrip_app by assumption.
  apply append_empty.
Qed.

(** ** The first piece of a split *)

Lemma split_from_skip_char (sep' : string) (c0 c : ascii) (t : string) :
  Ascii.eqb c c0 = false ->
  split_from (String c0 sep') 0 (String c t)
  = let (p, ps) := split_from (String c0 sep') 0 t in (String c p, ps).
Proof.
  intros H. cbn [split_from String.prefix].
  destruct (ascii_dec c0 c) as [->|]; [|reflexivity].
  now rewrite Ascii.eqb_refl in H.
Qed.

Lemma split_from_pass (sep' : string) (c0 : ascii) (d x : string) :
  all_chars (fun c => negb (Ascii.eqb c c0)) d = true ->
  split_from (String c0 sep') 0 (d ++ x)
  = let (p, ps) := split_from (String c0 sep') 0 x in ((d ++ p)%string, ps).
Proof.
  induction d as [|c d IH]; cbn [all_chars append]; intros H.
  - now destruct (split_from _ 0 x).
  - apply andb_true_iff in H as [H1 H2]. apply negb_true_iff in H1.
    rewrite split_from_skip_char by assumption. rewrite (IH H2).
    now destruct (split_from _ 0 x).
Qed.

(** Up to the first line feed. *)
Lemma split_line (l x : string) :
  one_line l = true ->
  split_from newline 0 (l ++ newline ++ x)
  = (l, let (p, ps) := split_from newline 0 x in p :: ps).
Proof.
  intros H. unfold newline. rewrite split_from_pass by exact H.
  cbn. assert (String.prefix "" x = true) as -> by now destruct x.
  destruct (split_from _ 0 x). now rewrite append_empty.
Qed.

Lemma split_last_line (l : string) :
  one_line l = true -> split_from newline 0 l = (l, []).
Proof.
  intros H. rewrite <- (append_empty l) at 1.
  unfold newline. rewrite split_from_pass by exact H.
  cbn. now rewrite append_empty.
Qed.

(** ** [int] of a numeral *)

Lemma numeral_no_space (n : Z) : 0 <= n -> no_space (str_of_int n) = true.
Proof.
  intros Hn.
  destruct (PyStrFacts.numeral_nonneg n Hn) as (c & t & _ & Hd & _).
  revert Hd. apply all_chars_weaken. intros x Hx.
  now rewrite (proj1 (digit_cases x Hx)).
Qed.

(** [int(str(n))] is [n] for a numeral within the limit; a longer one
    is refused. *)
Lemma int_of_str_str (n : Z) :
  0 <= n ->
  int_of_str (str_of_int n)
  = if within_limit n then Return n else Raise ValueError.
Proof.
  intros Hn. unfold int_of_str, within_limit.
  rewrite Z.abs_eq by exact Hn.
  rewrite strip_no_space by now apply numeral_no_space.
  destruct (PyStrFacts.numeral_nonneg n Hn) as (c & t & E & Hd & Hv).
  pose proof (PyStrFacts.count_digits_all _ Hd) as Hcount.
  rewrite E in *. cbn [all_chars] in Hd.
  apply andb_true_iff in Hd as [Hc _].
  destruct (digit_cases c Hc) as (_ & _ & -> & -> & _).
  rewrite Hv, Hcount, Z.ltb_antisym.
  now destruct (Z.of_nat (String.length (String c t)) <=? max_str_digits).
Qed.

Lemma int_of_str_numeral (n : Z) :
  0 <= n -> within_limit n = true -> int_of_str (str_of_int n) = Return n.
Proof. intros Hn Hlim. now rewrite int_of_str_str, Hlim. Qed.

End StripFacts.

(* ===================================================================== *)
(** * The process tools of port_manager.py *)
(* ===================================================================== *)

Module PortToolsFacts.
Import PyStr PortTools.




End PortToolsFacts.

(* ===================================================================== *)
(** * Reading the output of lsof and ss *)
(* ===================================================================== *)

Module LookupFacts.
Import PyStr PortTools StripFacts.

Lemma numeral_one_line (n : Z) : 0 <= n -> one_line (str_of_int n) = true.
Proof.
  intros Hn.
  destruct (PyStrFacts.numeral_nonneg n Hn) as (c & t & _ & Hd & _).
  revert Hd. apply all_chars_weaken. intros x Hx.
  destruct (digit_cases x Hx) as (_ & -> & _). reflexivity.
Qed.

(** What [strip] and [split] make of an output whose first line is a
    numeral: the numeral is the first piece. *)
Lemma first_line_numeral (n : Z) (rest : string) :
  0 <= n ->
  exists more,
    split (strip (str_of_int n ++ newline ++ rest)) newline
    = Return (str_of_int n :: more)
    /\ str_truthy (strip (str_of_int n ++ newline ++ rest)) = true.
Proof.
  intros Hn.
  destruct (PyStrFacts.numeral_nonneg n Hn) as (c & t & E & Hd & _).
  pose proof (numeral_no_space n Hn) as Hs.
  pose proof (numeral_one_line n Hn) as Hl.
  assert (strip (str_of_int n ++ newline ++ rest)
          = (str_of_int n ++ rstrip (newline ++ rest))%string) as ->.
  { unfold strip. rewrite E in *. cbn [append].
    cbn [all_chars] in Hd. apply andb_true_iff in Hd as [Hc _].
    destruct (digit_cases c Hc) as (Hsp & _).
    rewrite lstrip_cons by assumption.
    change (String c (t ++ newline ++ rest))
      with (String c t ++ (newline ++ rest))%string.
    now rewrite rstrip_app. }
  unfold split. cbn [str_truthy newline].
  destruct (rstrip_head (chr 10) rest) as [H|(r & H)];
    change (String (chr 10) rest) with (newline ++ rest)%string in H;
    rewrite H.
  - rewrite append_empty, split_last_line by assumption.
    exists []. split; [reflexivity|]. now rewrite E.
  - change (String (chr 10) r) with (newline ++ r)%string.
    rewrite split_line by assumption.
    eexists. split; [reflexivity|]. now rewrite E.
Qed.

(** On macOS, the process named first by [lsof -ti] is the result: when
    the command exits with 0 and its output begins with the numeral of
    [pid] on a line of its own, [get_process_using_port] returns [pid],
    whatever follows (other processes, or nothing); but a numeral beyond
    the limit of [int] gives [None].  The port is one whose numeral the
    command line can hold. *)
Theorem lsof_first_pid (host : Host) (port : Z) (h : trace) (pid : Z)
    (rest : string) :
  system host = "Darwin" ->
  within_limit port = true ->
  0 <= pid ->
  run host h (lookup_command "Darwin" port)
  = Return {| returncode := 0;
              stdout := (str_of_int pid ++ newline ++ rest)%string |} ->
  fst (get_process_using_port host port h)
  = Return (if within_limit pid then Some pid else None).
Proof.
  intros Hsys Hport Hp Hrun.
  destruct (first_line_numeral pid rest Hp) as (more & Hsplit & Htruthy).
  unfold get_process_using_port, get_process_using_port_try, format_int.
  rewrite Hsys, Hport.
  cbn [supported String.eqb Ascii.eqb Bool.eqb orb andb].
  unfold subprocess_run. run. rewrite Hrun.
  cbn [returncode stdout Z.eqb andb]. rewrite Htruthy, Hsplit.
  cbn [item nth_error]. rewrite int_of_str_str by assumption.
  now destruct (within_limit pid).
Qed.

Lemma lsof_first_pid_witness :
  fst (get_process_using_port MoreSamples.mac_host 8001 [])
  = Return (if within_limit 4242 then Some 4242 else None).
Proof.
  apply (lsof_first_pid MoreSamples.mac_host 8001 [] 4242
           (unlines ["4250"]));
    [reflexivity|reflexivity|lia|vm_compute; reflexivity].
Defined.

(** ** The lines of ss *)

(** The first piece of [s.split(sep)]. *)
Lemma split_first (s sep : string) :
  sep <> "" ->
  exists ps, split s sep = Return (fst (split_from sep 0 s) :: ps).
Proof.
  intros Hs. unfold split.
  assert (str_truthy sep = true) as ->.
  { destruct sep; [congruence|reflexivity]. }
  destruct (split_from sep 0 s) as [p ps]. now exists ps.
Qed.

Lemma first_piece_end (c0 : ascii) (d : string) :
  all_chars (fun c => negb (Ascii.eqb c c0)) d = true ->
  fst (split_from (String c0 "") 0 d) = d.
Proof.
  intros H. rewrite <- (append_empty d) at 1.
  rewrite split_from_pass by exact H. cbn. apply append_empty.
Qed.

Lemma first_piece_cut (c0 : ascii) (d x : string) :
  all_chars (fun c => negb (Ascii.eqb c c0)) d = true ->
  fst (split_from (String c0 "") 0 (d ++ String c0 x)) = d.
Proof.
  intros H. rewrite split_from_pass by exact H.
  cbn [split_from String.prefix].
  destruct (ascii_dec c0 c0); [|congruence].
  assert (String.prefix "" x = true) as -> by now destruct x.
  cbn. destruct (split_from _ 0 x). cbn. apply append_empty.
Qed.

Lemma first_piece_other (c0 c : ascii) (d x : string) :
  all_chars (fun c => negb (Ascii.eqb c c0)) d = true ->
  Ascii.eqb c c0 = false ->
  fst (split_from (String c0 "") 0 (d ++ String c x))
  = (d ++ String c (fst (split_from (String c0 "") 0 x)))%string.
Proof.
  intros H Hc. rewrite split_from_pass by exact H.
  rewrite split_from_skip_char by exact Hc.
  now destruct (split_from _ 0 x).
Qed.

(** [pid=] does not begin inside a text without it and end in the
    [pid=] that follows the text. *)
Lemma pid_no_straddle (a x : string) :
  a <> "" ->
  String.prefix "pid=" a = false ->
  String.prefix "pid=" (a ++ "pid=" ++ x) = false.
Proof.
  destruct a as [|c1 [|c2 [|c3 [|c4 a]]]]; intros Hne; [congruence|..];
    cbn [append String.prefix];
    repeat match goal with
           | |- context [ascii_dec ?a ?b] =>
               destruct (ascii_dec a b) as [E|E];
               [try discriminate E; try subst|]
           end; try reflexivity; try discriminate; try congruence.
  intros H. destruct a; discriminate H.
Qed.

Lemma split_from_pid (a x : string) :
  contains "pid=" a = false ->
  split_from "pid=" 0 (a ++ "pid=" ++ x)
  = (a, let (p, ps) := split_from "pid=" 0 x in p :: ps).
Proof.
  remember ("pid=" ++ x)%string as y eqn:Ey.
  induction a as [|c a IH]; intros H.
  - cbn [append]. pose proof (prefix_of_append "pid=" x) as Hp.
    rewrite <- Ey in Hp. subst y. cbn [append] in *.
    cbn [split_from]. rewrite Hp. cbn.
    now destruct (split_from _ 0 x).
  - cbn [contains] in H. apply orb_false_iff in H as [H1 H2].
    pose proof (pid_no_straddle (String c a) x ltac:(discriminate) H1)
      as Hp.
    rewrite <- Ey in Hp. cbn [append] in Hp.
    cbn [append split_from]. now rewrite Hp, (IH H2).
Qed.

Lemma contains_after (sub a x : string) :
  contains sub (a ++ sub ++ x) = true.
Proof.
  induction a as [|c a IH].
  - cbn [append]. apply contains_prefix. apply prefix_of_append.
  - cbn [append]. now apply contains_cons.
Qed.

Lemma numeral_without (c0 : ascii) (n : Z) :
  0 <= n -> isdigit c0 = false ->
  all_chars (fun c => negb (Ascii.eqb c c0)) (str_of_int n) = true.
Proof.
  intros Hn Hc.
  destruct (PyStrFacts.numeral_nonneg n Hn) as (c & t & _ & Hd & _).
  revert Hd. apply all_chars_weaken. intros x Hx.
  destruct (Ascii.eqb_spec x c0) as [->|]; [congruence|reflexivity].
Qed.

(** The number of a [pid=] entry, as the chain of splits reads it. *)
Lemma read_pid_part (pid : Z) (y : string) :
  0 <= pid -> closes_number y = true ->
  exists l2 l3 head,
    split (fst (split_from "pid=" 0 (str_of_int pid ++ y))) ","
    = Return (head :: l2)
    /\ split head ")" = Return (str_of_int pid :: l3).
Proof.
  intros Hp Hy.
  pose proof (numeral_without "p" pid Hp eq_refl) as Dp.
  pose proof (numeral_without "," pid Hp eq_refl) as Dc.
  pose proof (numeral_without ")" pid Hp eq_refl) as Dr.
  set (D := str_of_int pid) in *.
  assert (exists q, fst (split_from "pid=" 0 (D ++ y)) = (D ++ q)%string
                    /\ closes_number q = true) as (q & -> & Hq).
  { rewrite split_from_pass by exact Dp.
    destruct y as [|c t].
    - exists "". now cbn.
    - assert (Ascii.eqb c "p" = false) as Hc.
      { cbn [closes_number] in Hy.
        destruct (Ascii.eqb_spec c ",") as [->|]; [reflexivity|].
        destruct (Ascii.eqb_spec c ")") as [->|]; [reflexivity|].
        discriminate Hy. }
      rewrite split_from_skip_char by exact Hc.
      destruct (split_from _ 0 t) as [p ps]. now exists (String c p). }
  destruct (split_first (D ++ q) "," ltac:(discriminate)) as (l2 & E2).
  exists l2. rewrite E2.
  destruct q as [|c t].
  - rewrite append_empty, first_piece_end by exact Dc.
    destruct (split_first D ")" ltac:(discriminate)) as (l3 & E3).
    exists l3, D. rewrite E3, first_piece_end by exact Dr. now split.
  - cbn [closes_number] in Hq.
    destruct (Ascii.eqb_spec c ",") as [->|Hc].
    + rewrite first_piece_cut by exact Dc.
      destruct (split_first D ")" ltac:(discriminate)) as (l3 & E3).
      exists l3, D. rewrite E3, first_piece_end by exact Dr. now split.
    + destruct (Ascii.eqb_spec c ")") as [->|]; [|discriminate Hq].
      rewrite first_piece_other by (exact Dc || reflexivity).
      destruct (split_first
                  (D ++ String ")" (fst (split_from "," 0 t))) ")"
                  ltac:(discriminate)) as (l3 & E3).
      exists l3. eexists. split; [reflexivity|].
      rewrite E3, first_piece_cut by exact Dr. reflexivity.
Qed.

(** The loop over the lines: the first line that mentions the port and
    holds a [pid=] decides. *)
Lemma scan_ss_first (tag : string) (before after : list string)
    (line a y : string) (pid : Z) (h : trace) :
  0 <= pid ->
  within_limit pid = true ->
  (forall l, In l before -> contains tag l && contains "pid=" l = false) ->
  contains tag line = true ->
  line = (a ++ "pid=" ++ str_of_int pid ++ y)%string ->
  contains "pid=" a = false ->
  closes_number y = true ->
  scan_ss tag (before ++ line :: after) h = (Return (Some pid), h).
Proof.
  intros Hp Hlim Hb Ht El Ha Hy.
  induction before as [|l before IH]; cbn [app scan_ss].
  - rewrite Ht. assert (contains "pid=" line = true) as ->.
    { rewrite El. apply contains_after. }
    cbn [andb].
    destruct (read_pid_part pid y Hp Hy) as (l2 & l3 & head & E2 & E3).
    assert (exists ps,
              split line "pid="
              = Return (a :: fst (split_from "pid=" 0 (str_of_int pid ++ y))
                          :: ps)) as (ps & E1).
    { unfold split. cbn [str_truthy]. rewrite El, split_from_pid by exact Ha.
      destruct (split_from "pid=" 0 (str_of_int pid ++ y)) as [p ps].
      now exists ps. }
    run. rewrite E1. cbn [item nth_error]. rewrite E2. cbn [item nth_error].
    rewrite E3. cbn [item nth_error].
    now rewrite int_of_str_numeral.
  - rewrite (Hb l) by now left. apply IH. intros l' Hl. apply Hb. now right.
Qed.

(** On Linux, the owner is read off the first line of the output of
    [ss -lptn] that mentions [:port] and holds [pid=]: the number between
    the first [pid=] of that line and the comma or parenthesis after it
    (or the end of the line) is returned.  The numerals of the port and
    of the pid are within the limit of the interpreter. *)
Theorem ss_first_match (host : Host) (port : Z) (h : trace)
    (result : Completed) (before after : list string) (line a y : string)
    (pid : Z) :
  system host = "Linux" ->
  within_limit port = true ->
  0 <= pid ->
  within_limit pid = true ->
  run host h (lookup_command "Linux" port) = Return result ->
  returncode result = 0 ->
  split (strip (stdout result)) newline
  = Return (before ++ line :: after)%list ->
  (forall l, In l before ->
             contains (port_tag port) l && contains "pid=" l = false) ->
  contains (port_tag port) line = true ->
  line = (a ++ "pid=" ++ str_of_int pid ++ y)%string ->
  contains "pid=" a = false ->
  closes_number y = true ->
  fst (get_process_using_port host port h) = Return (Some pid).
Proof.
  intros Hsys Hport Hp Hlim Hrun Hrc Hsplit Hb Ht El Ha Hy.
  assert (str_truthy (strip (stdout result)) = true) as Htruthy.
  { destruct (strip (stdout result)) eqn:Es; [|reflexivity].
    cbn in Hsplit. injection Hsplit as Hs.
    destruct before as [|l0 [|l1 before]]; try discriminate Hs.
    injection Hs as <- _. discriminate Ht. }
  unfold get_process_using_port, get_process_using_port_try, format_int.
  rewrite Hsys, Hport.
  cbn [supported String.eqb Ascii.eqb Bool.eqb orb andb].
  unfold subprocess_run. run. rewrite Hrun, Hrc, Htruthy, Hsplit.
  cbn [Z.eqb andb].
  now rewrite (scan_ss_first (port_tag port) before after line a y pid)
    by assumption.
Qed.

Lemma ss_first_match_witness :
  fst (get_process_using_port MoreSamples.linux_host 8001 [])
  = Return (Some 4242).
Proof.
  apply (ss_first_match MoreSamples.linux_host 8001 []
           {| returncode := 0; stdout := MoreSamples.ss_output |}
           [MoreSamples.ss_header] [] MoreSamples.ss_entry
           MoreSamples.ss_entry_start ",fd=6))" 4242);
    try (vm_compute; reflexivity); [lia|].
  intros l [<-|[]]. vm_compute. reflexivity.
Defined.

End LookupFacts.

(* ===================================================================== *)
(** * cleanup_zombie_processes *)
(* ===================================================================== *)

Module CleanupFacts.
Import PyStr PortTools.

Lemma os_kill_run (host : Host) (pid : Z) (h : trace) :
  os_kill host pid h
  = let k := PortManager.os_kill (net host h) [] pid PortManager.SIGTERM in
    (k, Net (PortManager.Kill pid PortManager.SIGTERM k) :: h).
Proof. reflexivity. Qed.

(** One line of the listing: nothing happens, or the process the line
    names is signalled once. *)
Lemma sweep_line_outcome (host : Host) (service_name line : string)
    (cleaned : Z) (h : trace) :
  sweep_line host service_name line cleaned h = (Return cleaned, h)
  \/ exists pid,
       targets service_name line pid
       /\ let k := PortManager.os_kill (net host h) [] pid
                     PortManager.SIGTERM in
          sweep_line host service_name line cleaned h
          = (match k with
             | Return _ => Return (cleaned + 1)
             | Raise e => if swallowed e then Return cleaned else Raise e
             end,
             Net (PortManager.Kill pid PortManager.SIGTERM k) :: h).
Proof.
  unfold sweep_line.
  destruct (contains service_name line) eqn:H1; [|now left].
  destruct (contains "python" line) eqn:H2; [|now left]. cbn [andb].
  destruct (1 <? Z.of_nat (List.length (fields line))) eqn:Hl; [|now left].
  destruct (fields line) as [|a [|field l]] eqn:Ef; try discriminate Hl.
  run. cbn [item nth_error].
  destruct (int_of_str field) as [pid|e] eqn:Ei.
  - right. exists pid. split.
    { unfold targets. rewrite Ef. repeat split; try assumption.
      exists field. now split. }
    cbv zeta. rewrite os_kill_run. cbv zeta.
    destruct (PortManager.os_kill (net host h) [] pid PortManager.SIGTERM)
      as [[]|e]; [reflexivity|].
    fold (swallowed e). now destruct (swallowed e).
  - left. apply PyStrFacts.int_of_str_raises in Ei. now subst e.
Qed.

Lemma kills_app (a b : trace) : kills (a ++ b) = (kills b ++ kills a)%list.
Proof. unfold kills. now rewrite rev_app_distr, flat_map_app. Qed.

Lemma delivered_app (a b : trace) :
  delivered (a ++ b) = delivered a + delivered b.
Proof.
  unfold delivered. rewrite kills_app, filter_app, length_app. lia.
Qed.

Lemma signal_for_later (service_name line : string) (lines : list string)
    (evs : trace) :
  Forall (signal_for service_name lines) evs ->
  Forall (signal_for service_name (line :: lines)) evs.
Proof.
  apply Forall_impl. intros e (pid & k & l & -> & Hin & Ht).
  exists pid, k, l. split; [reflexivity|]. split; [now right|exact Ht].
Qed.

(** The loop: it returns, every effect is a [SIGTERM] for a process named
    by a line it acts on, the count grows by the signals that went
    through, and a failure it does not take is the last thing done. *)
Lemma sweep_outcome (host : Host) (service_name : string)
    (lines : list string) :
  forall (cleaned : Z) (h : trace),
  exists c evs,
    sweep host service_name lines cleaned h = (Return c, evs ++ h)
    /\ Forall (signal_for service_name lines) evs
    /\ c = cleaned + delivered evs
    /\ forallb (fun e => negb (aborting e)) (tl evs) = true.
Proof.
  induction lines as [|line rest IH]; intros cleaned h.
  { exists cleaned, []. repeat split; [constructor|unfold delivered; cbn; lia]. }
  cbn [sweep].
  destruct (sweep_line_outcome host service_name line cleaned h)
    as [E|(pid & Ht & E)].
  - run. rewrite E.
    destruct (IH cleaned h) as (c & evs & -> & Hf & Hc & Ha).
    exists c, evs. repeat split; try assumption.
    now apply signal_for_later.
  - cbv zeta in E. run. rewrite E.
    remember (PortManager.os_kill (net host h) [] pid PortManager.SIGTERM)
      as k eqn:Ek.
    remember (Net (PortManager.Kill pid PortManager.SIGTERM k)) as ev eqn:Eev.
    assert (signal_for service_name (line :: rest) ev) as Hev.
    { exists pid, k, line. split; [exact Eev|].
      split; [now left|exact Ht]. }
    assert (forall c evs,
              Forall (signal_for service_name rest) evs ->
              c = cleaned + delivered [ev] + delivered evs ->
              aborting ev = false ->
              forallb (fun e => negb (aborting e)) (tl evs) = true ->
              Forall (signal_for service_name (line :: rest)) (evs ++ [ev])
              /\ c = cleaned + delivered (evs ++ [ev])
              /\ forallb (fun e => negb (aborting e)) (tl (evs ++ [ev]))
                 = true) as Hstep.
    { intros c evs Hf Hc Hab Ha. split; [|split].
      - apply Forall_app. split; [now apply signal_for_later|].
        now constructor.
      - rewrite delivered_app. lia.
      - destruct evs as [|e0 evs]; [reflexivity|]. cbn [tl app] in *.
        rewrite forallb_app, Ha. cbn [forallb andb]. now rewrite Hab. }
    clear Ek. destruct k as [[]|e].
    + destruct (IH (cleaned + 1) (ev :: h)) as (c & evs & -> & Hf & Hc & Ha).
      exists c, (evs ++ [ev])%list. rewrite <- app_assoc.
      split; [reflexivity|]. apply Hstep; try assumption.
      * subst c ev. unfold delivered at 2. cbn. lia.
      * now subst ev.
    + destruct (swallowed e) eqn:Hs.
      * destruct (IH cleaned (ev :: h)) as (c & evs & -> & Hf & Hc & Ha).
        exists c, (evs ++ [ev])%list. rewrite <- app_assoc.
        split; [reflexivity|]. apply Hstep; try assumption.
        -- subst c ev. unfold delivered at 2. cbn. lia.
        -- subst ev. cbn. now rewrite Hs.
      * cbn [any_Exception]. exists cleaned, [ev].
        split; [reflexivity|]. split; [now constructor|].
        split; [|reflexivity].
        subst ev. unfold delivered. cbn. lia.
Qed.

(** All runs of [cleanup_zombie_processes]. *)
Lemma cleanup_cases (host : Host) (service_name : string) (h : trace) :
  exists n evs,
    cleanup_zombie_processes host service_name h = (Return n, evs ++ h)
    /\ n = delivered evs
    /\ forallb (fun e => negb (aborting e)) (tl evs) = true
    /\ if supported (system host) then
         exists sig_evs,
           evs = (sig_evs ++ [Run ["ps"; "aux"] (run host h ["ps"; "aux"])])%list
           /\ match run host h ["ps"; "aux"] with
              | Return result =>
                  if returncode result =? 0 then
                    exists lines,
                      split (strip (stdout result)) newline = Return lines
                      /\ Forall (signal_for service_name lines) sig_evs
                  else sig_evs = []
              | Raise _ => sig_evs = []
              end
       else evs = [].
Proof.
  unfold cleanup_zombie_processes.
  destruct (supported (system host)).
  2:{ exists 0, []. now repeat split. }
  unfold subprocess_run. run.
  destruct (run host h ["ps"; "aux"]) as [result|e] eqn:Er.
  2:{ cbn [any_Exception]. exists 0, [Run ["ps"; "aux"] (Raise e)].
      repeat split. now exists []. }
  set (ev := Run ["ps"; "aux"] (Return result)).
  destruct (returncode result =? 0) eqn:Hrc.
  2:{ exists 0, [ev]. repeat split. now exists []. }
  destruct (PyStrFacts.split_returns (strip (stdout result)) newline
              ltac:(discriminate)) as (p & ps & Es & _).
  rewrite Es.
  destruct (sweep_outcome host service_name (p :: ps) 0 (ev :: h))
    as (c & evs & -> & Hf & Hc & Ha).
  exists c, (evs ++ [ev])%list. rewrite <- app_assoc.
  split; [reflexivity|]. split; [|split].
  - rewrite delivered_app. unfold delivered at 2. cbn. lia.
  - destruct evs as [|e0 evs]; [reflexivity|]. cbn [tl app] in *.
    rewrite forallb_app, Ha. reflexivity.
  - exists evs. split; [reflexivity|]. now exists (p :: ps).
Qed.

Lemma kills_in (evs : trace) (pid : Z) (sig : PortManager.signal)
    (ok : bool) :
  In (pid, sig, ok) (kills evs) ->
  exists k, In (Net (PortManager.Kill pid sig k)) evs /\ ok = returns k.
Proof.
  unfold kills. rewrite in_flat_map. intros (e & He & Hin).
  apply in_rev in He.
  destruct e as [cmd r|[? ? ?|? ? ?|? ?|p s k|?]]; try contradiction.
  destruct Hin as [Hin|[]]. injection Hin as -> -> <-. now exists k.
Qed.

(** [cleanup_zombie_processes] never raises, and the number it returns is
    the number of [os.kill] calls that returned: a signal that could not
    be delivered is not counted, whatever the failure.  On a platform other
    than macOS and Linux it does nothing. *)
Theorem cleanup_zombie_processes_count (host : Host) (service_name : string)
    (h : trace) :
  exists n evs,
    cleanup_zombie_processes host service_name h = (Return n, evs ++ h)
    /\ n = delivered evs
    /\ (supported (system host) = false -> evs = []).
Proof.
  destruct (cleanup_cases host service_name h) as (n & evs & E & Hn & _ & Hs).
  exists n, evs. split; [exact E|]. split; [exact Hn|].
  intros Hno. now rewrite Hno in Hs.
Qed.

(** Every signal [cleanup_zombie_processes] sends is a [SIGTERM] for a
    process named by the listing it has just read: [ps aux] exited with 0,
    a line of its stripped output contains the service name and [python],
    and the second field of that line is the numeral of the process
    signalled. *)
Theorem cleanup_signals_listed (host : Host) (service_name : string)
    (h evs : trace) (pid : Z) (sig : PortManager.signal) (ok : bool) :
  snd (cleanup_zombie_processes host service_name h) = (evs ++ h)%list ->
  In (pid, sig, ok) (kills evs) ->
  sig = PortManager.SIGTERM
  /\ exists result lines line,
       run host h ["ps"; "aux"] = Return result
       /\ returncode result = 0
       /\ split (strip (stdout result)) newline = Return lines
       /\ In line lines
       /\ targets service_name line pid.
Proof.
  intros E Hin.
  destruct (cleanup_cases host service_name h)
    as (n & evs' & E' & _ & _ & Hs).
  rewrite E' in E. cbn [snd] in E. apply app_inv_tail in E. subst evs'.
  apply kills_in in Hin as (k & Hin & _).
  destruct (supported (system host)); [|now subst evs].
  destruct Hs as (sig_evs & -> & Hs).
  apply in_app_or in Hin as [Hin|[Hin|[]]]; [|discriminate Hin].
  destruct (run host h ["ps"; "aux"]) as [result|e];
    [|now subst sig_evs].
  destruct (returncode result =? 0) eqn:Hrc; [|now subst sig_evs].
  destruct Hs as (lines & Es & Hf).
  rewrite Forall_forall in Hf.
  destruct (Hf _ Hin) as (pid' & k' & line & Ee & Hl & Ht).
  injection Ee as -> -> _. split; [reflexivity|].
  exists result, lines, line. apply Z.eqb_eq in Hrc.
  repeat (split; [first [reflexivity|assumption]|]). exact Ht.
Qed.

Lemma cleanup_signals_listed_witness :
  PortManager.SIGTERM = PortManager.SIGTERM
  /\ exists result lines line,
       run MoreSamples.linux_host [] ["ps"; "aux"] = Return result
       /\ returncode result = 0
       /\ split (strip (stdout result)) newline = Return lines
       /\ In line lines
       /\ targets "webhook" line 4250.
Proof.
  apply (cleanup_signals_listed MoreSamples.linux_host "webhook" []
           [MoreSamples.term 4260 (Return tt);
            MoreSamples.term 4250 (Return tt);
            MoreSamples.term 4242 (Return tt);
            MoreSamples.listed]
           4250 PortManager.SIGTERM true).
  - vm_compute. reflexivity.
  - vm_compute. right. left. reflexivity.
Defined.

(** A failure of [os.kill] that is neither a [ProcessLookupError] nor a
    [PermissionError] ends the sweep: it is the last thing
    [cleanup_zombie_processes] does (the processes on the lines after it
    are left alone), and the count of the signals delivered before it is
    returned. *)
Theorem cleanup_stops_at_failure (host : Host) (service_name : string)
    (h evs : trace) (pid : Z) (sig : PortManager.signal) (e : exn) :
  snd (cleanup_zombie_processes host service_name h) = (evs ++ h)%list ->
  In (Net (PortManager.Kill pid sig (Raise e))) evs ->
  swallowed e = false ->
  exists earlier,
    evs = Net (PortManager.Kill pid sig (Raise e)) :: earlier
    /\ fst (cleanup_zombie_processes host service_name h)
       = Return (delivered earlier).
Proof.
  intros E Hin Hsw.
  destruct (cleanup_cases host service_name h)
    as (n & evs' & E' & Hn & Ha & _).
  rewrite E' in *. cbn [snd fst] in *. apply app_inv_tail in E. subst evs'.
  destruct evs as [|e0 earlier]; [contradiction|]. cbn [tl] in Ha.
  exists earlier. destruct Hin as [->|Hin].
  - split; [reflexivity|]. subst n.
    change (?x :: earlier) with ([x] ++ earlier)%list.
    rewrite delivered_app. reflexivity.
  - rewrite forallb_forall in Ha. specialize (Ha _ Hin).
    cbn in Ha. now rewrite Hsw in Ha.
Qed.

Lemma cleanup_stops_at_failure_witness :
  exists earlier,
    [MoreSamples.term 4250 (Raise (OSError 22));
     MoreSamples.term 4242 (Return tt);
     MoreSamples.listed]
    = MoreSamples.term 4250 (Raise (OSError 22)) :: earlier
    /\ fst (cleanup_zombie_processes MoreSamples.linux_host_faulty
              "webhook" [])
       = Return (delivered earlier).
Proof.
  apply (cleanup_stops_at_failure MoreSamples.linux_host_faulty "webhook" []
           [MoreSamples.term 4250 (Raise (OSError 22));
            MoreSamples.term 4242 (Return tt);
            MoreSamples.listed]
           4250 PortManager.SIGTERM (OSError 22)).
  - vm_compute. reflexivity.
  - left. reflexivity.
  - reflexivity.
Defined.

End CleanupFacts.

(* ===================================================================== *)
(** * get_port_info *)
(* ===================================================================== *)

Module PortInfoFacts.
Import PyStr PortTools.



End PortInfoFacts.

(* ===================================================================== *)
(** * run_server_with_retry *)
(* ===================================================================== *)

Module ServerFacts.
Import Server.

(** A restart keeps the port or moves it up by less than 100; a failure
    to resolve the conflict keeps it. *)
Lemma next_port (w : World) (PORT : Z) (h : trace) :
  exists p evs,
    try_except (handle_port_conflict w PORT) any_Exception
      (fun _ => ret PORT) h = (Return p, evs ++ h)
    /\ PORT <= p <= PORT + 99
    /\ rounds evs = O
    /\ forallb no_clean_stop evs = true
    /\ forall lo hi, Forall (served_within lo hi) evs.
Proof.
  unfold handle_port_conflict. run.
  destruct (PortConflictFacts.handle_port_conflict_cases (net w h) PORT 3 [])
    as (r & evs & -> & Hr).
  rewrite app_nil_r.
  assert (rounds (map Net evs) = O
          /\ forallb no_clean_stop (map Net evs) = true
          /\ forall lo hi, Forall (served_within lo hi) (map Net evs))
    as (H1 & H2 & H3).
  { clear Hr. induction evs as [|e evs IHe].
    - repeat split. constructor.
    - destruct IHe as (I1 & I2 & I3).
      repeat split; [exact I1|exact I2|]. intros lo hi.
      constructor; [exact I|apply I3]. }
  destruct r as [p|e]; cbn [any_Exception].
  - exists p, (map Net evs). split; [reflexivity|].
    split; [|now repeat split].
    destruct Hr as [(-> & _)|[(-> & _)|(Hp & _)]]; lia.
  - exists PORT, (map Net evs). split; [reflexivity|].
    split; [lia|now repeat split].
Qed.

Lemma rounds_app (a b : trace) : rounds (a ++ b) = (rounds a + rounds b)%nat.
Proof. unfold rounds. now rewrite filter_app, length_app. Qed.

Lemma served_within_wider (lo hi lo' hi' : Z) (evs : trace) :
  lo' <= lo -> hi <= hi' ->
  Forall (served_within lo hi) evs -> Forall (served_within lo' hi') evs.
Proof.
  intros Hl Hh. apply Forall_impl. intros [r|q r|s|e]; cbn; try easy. lia.
Qed.

(** One round: the logging is configured and, if that went through, the
    server is run.  [Some None] is a server that stopped, [Some (Some c)]
    one that left with [sys.exit(c)], [None] a round that crashed. *)
Lemma round_outcome (w : World) (PORT : Z) (h : trace) :
  exists first round,
    try_except
      (_ <- configure_logging w ;;
       exited <- serve w PORT ;;
       ret (Some exited))
      any_Exception (fun _ => ret None) h
    = (Return round, first ++ h)
    /\ rounds first = 1%nat
    /\ Forall (served_within PORT PORT) first
    /\ forallb no_clean_stop (tl first) = true
    /\ match round with
       | Some None => first = [Serve PORT Returned; Logging (Return tt)]
       | Some (Some code) =>
           first = [Serve PORT (SysExit code); Logging (Return tt)]
       | None => forallb no_clean_stop first = true
       end.
Proof.
  unfold configure_logging, serve. run.
  destruct (logging_config w h) as [[]|e].
  - destruct (uvicorn_run w (Logging (Return tt) :: h) PORT) as [|e|code].
    + exists [Serve PORT Returned; Logging (Return tt)], (Some None).
      repeat split. repeat constructor; cbn; lia.
    + exists [Serve PORT (Crashed e); Logging (Return tt)], None.
      repeat split. repeat constructor; cbn; lia.
    + exists [Serve PORT (SysExit code); Logging (Return tt)],
        (Some (Some code)).
      repeat split. repeat constructor; cbn; lia.
  - exists [Logging (Raise e)], None. repeat split. repeat constructor.
Qed.

(** All runs of the loop, [remaining] rounds being left. *)
Lemma attempts_outcome (w : World) (max_retries retry_delay : Z) :
  forall (remaining : nat) (attempt PORT : Z) (h : trace),
    attempt + Z.of_nat remaining = max_retries ->
    exists r evs,
      attempts w max_retries retry_delay attempt remaining PORT h
      = (r, evs ++ h)
      /\ (rounds evs <= remaining)%nat
      /\ Forall (served_within PORT
                   (PORT + 99 * Z.of_nat (Nat.pred remaining))) evs
      /\ forallb no_clean_stop (tl evs) = true
      /\ match r with
         | Return (Stopped, p) =>
             PORT <= p <= PORT + 99 * Z.of_nat (Nat.pred remaining)
             /\ ((remaining = O /\ evs = [])
                 \/ exists evs',
                      evs = Serve p Returned :: Logging (Return tt) :: evs')
         | Return (Exit c, p) =>
             (exists evs',
                evs = Serve p (SysExit c) :: Logging (Return tt) :: evs')
             \/ (c = 1 /\ rounds evs = remaining /\ remaining <> O
                 /\ forallb no_clean_stop evs = true)
         | Raise e =>
             e = ValueError /\ retry_delay < 0
             /\ forallb no_clean_stop evs = true
         end.
Proof.
  induction remaining as [|n IH]; intros attempt PORT h Hinv.
  { exists (Return (Stopped, PORT)), []. cbn.
    repeat split; try lia; [constructor|now left]. }
  cbn [attempts]. unfold bind at 1.
  destruct (round_outcome w PORT h)
    as (first & round & E & Hr1 & Hw1 & Ht1 & Hc1).
  rewrite E. clear E.
  assert (Forall (served_within PORT (PORT + 99 * Z.of_nat n)) first) as Hw1'.
  { revert Hw1. apply served_within_wider; lia. }
  destruct round as [[code|]|].
  { exists (Return (Exit code, PORT)), first. subst first.
    split; [reflexivity|]. split; [cbn; lia|]. split; [exact Hw1'|].
    split; [reflexivity|]. left. now eexists. }
  { exists (Return (Stopped, PORT)), first. subst first.
    split; [reflexivity|]. split; [cbn; lia|]. split; [exact Hw1'|].
    split; [reflexivity|].
    cbn [Nat.pred]. split; [lia|]. right. now eexists. }
  assert (forallb no_clean_stop (tl first) = true) as Ht1' by exact Ht1.
  destruct (attempt <? max_retries - 1) eqn:Hlast.
  2:{ exists (Return (Exit 1, PORT)), first.
      split; [reflexivity|]. split; [lia|]. split; [exact Hw1'|].
      split; [exact Ht1|].
      apply Z.ltb_ge in Hlast. right. repeat split; try assumption; lia. }
  apply Z.ltb_lt in Hlast.
  unfold sleep. destruct (retry_delay <? 0) eqn:Hd.
  { exists (Raise ValueError), first. apply Z.ltb_lt in Hd.
    split; [reflexivity|]. split; [lia|]. split; [exact Hw1'|].
    split; [exact Ht1|]. now repeat split. }
  destruct (next_port w PORT (Pause retry_delay :: first ++ h))
    as (p & mid & Em & Hp & Hr2 & Hc2 & Hw2).
  run. rewrite Em.
  destruct (IH (attempt + 1) p (mid ++ Pause retry_delay :: first ++ h)
              ltac:(lia)) as (r & rest & Er & Hr3 & Hw3 & Ht3 & Hres).
  rewrite Er.
  exists r, (rest ++ mid ++ Pause retry_delay :: first)%list.
  split. { now rewrite <- !app_assoc. }
  assert (n <> O) as Hn by lia.
  assert (99 * Z.of_nat (Nat.pred n) + 99 = 99 * Z.of_nat n) as Hbound.
  { destruct n; [congruence|]. cbn [Nat.pred]. lia. }
  assert (forallb no_clean_stop (mid ++ Pause retry_delay :: first) = true)
    as Hold.
  { rewrite forallb_app, Hc2. cbn [forallb no_clean_stop andb]. exact Hc1. }
  assert (forallb no_clean_stop
            (rest ++ mid ++ Pause retry_delay :: first)
          = forallb no_clean_stop rest) as Hall.
  { now rewrite forallb_app, Hold, andb_true_r. }
  cbn [Nat.pred]. split; [|split; [|split]].
  - rewrite !rounds_app, Hr2.
    change (Pause retry_delay :: first) with ([Pause retry_delay] ++ first)%list.
    rewrite rounds_app, Hr1. cbn. lia.
  - apply Forall_app. split.
    + revert Hw3. apply served_within_wider; lia.
    + apply Forall_app. split; [apply Hw2|].
      constructor; [exact I|exact Hw1'].
  - destruct rest as [|e0 rest]; cbn [app tl] in *.
    + destruct mid as [|m0 mid]; cbn [app tl] in *.
      * exact Hc1.
      * cbn [forallb] in Hold. now apply andb_true_iff in Hold as [_ Hold].
    + now rewrite forallb_app, Ht3, Hold.
  - destruct r as [[[|c] q]|e].
    + destruct Hres as (Hq & Hres). split; [lia|]. right.
      destruct Hres as [(-> & _)|(evs' & ->)]; [congruence|].
      cbn [app]. now eexists.
    + destruct Hres as [(evs' & ->)|(-> & Hk & _ & Hcr)].
      * left. cbn [app]. now eexists.
      * right. split; [reflexivity|].
        split; [|split; [congruence|now rewrite Hall]].
        rewrite !rounds_app, Hr2.
        change (Pause retry_delay :: first)
          with ([Pause retry_delay] ++ first)%list.
        rewrite rounds_app, Hr1, Hk. cbn. lia.
    + destruct Hres as (-> & Hneg & Hcr). repeat split; try assumption.
      now rewrite Hall.
Qed.

(** All runs of [run_server_with_retry]. *)
Lemma run_server_cases (w : World) (max_retries retry_delay PORT : Z)
    (h : trace) :
  exists r evs,
    run_server_with_retry w max_retries retry_delay PORT h = (r, evs ++ h)
    /\ (rounds evs <= Z.to_nat max_retries)%nat
    /\ Forall (served_within PORT (PORT + 99 * (Z.max max_retries 1 - 1)))
         evs
    /\ forallb no_clean_stop (tl evs) = true
    /\ match r with
       | Return (Stopped, p) =>
           PORT <= p <= PORT + 99 * (Z.max max_retries 1 - 1)
           /\ ((max_retries <= 0 /\ evs = [])
               \/ exists evs',
                    evs = Serve p Returned :: Logging (Return tt) :: evs')
       | Return (Exit c, p) =>
           (exists evs',
              evs = Serve p (SysExit c) :: Logging (Return tt) :: evs')
           \/ (c = 1 /\ 0 < max_retries
               /\ rounds evs = Z.to_nat max_retries
               /\ forallb no_clean_stop evs = true)
       | Raise e =>
           e = ValueError /\ retry_delay < 0
           /\ forallb no_clean_stop evs = true
       end.
Proof.
  unfold run_server_with_retry.
  destruct (Z_le_gt_dec max_retries 0) as [Hle|Hgt].
  { assert (Z.to_nat max_retries = O) as -> by lia.
    exists (Return (Stopped, PORT)), [].
    split; [reflexivity|]. split; [cbn; lia|]. split; [constructor|].
    split; [reflexivity|]. split; [lia|now left]. }
  destruct (attempts_outcome w max_retries retry_delay
              (Z.to_nat max_retries) 0 PORT h ltac:(lia))
    as (r & evs & E & Hr & Hw & Ht & Hres).
  assert (Z.of_nat (Nat.pred (Z.to_nat max_retries))
          = Z.max max_retries 1 - 1) as Hb by lia.
  rewrite Hb in *.
  exists r, evs. split; [exact E|]. split; [exact Hr|]. split; [exact Hw|].
  split; [exact Ht|].
  destruct r as [[[|c] p]|e].
  - destruct Hres as (Hp & Hres). split; [exact Hp|].
    destruct Hres as [(Hz & _)|Hs]; [lia|now right].
  - destruct Hres as [Hx|(-> & Hk & _ & Hc)]; [now left|right].
    repeat split; try assumption; lia.
  - exact Hres.
Qed.



(** The runs of the sample worlds: a log directory that is missing at
    first costs one round; a server that cannot bind its address ends the
    function at once, with the exit code of [uvicorn.run] and without a
    restart; a server that always crashes uses up the rounds. *)
Example run_server_with_retry_runs :
  run_server_with_retry MoreSamples.world_flaky 3 5 8001 []
  = (Return (Stopped, 8001),
     [ Serve 8001 Returned; Logging (Return tt);
       Net (PortManager.Connect PortManager.default_host 8001 (Return 111));
       Pause 5; Logging (Raise FileNotFoundError) ])
  /\ run_server_with_retry MoreSamples.world_taken 3 5 8001 []
     = (Return (Exit 1, 8001),
        [ Serve 8001 (SysExit 1); Logging (Return tt) ])
  /\ fst (run_server_with_retry MoreSamples.world_broken 3 5 8001 [])
     = Return (Exit 1, 8001).
Proof. repeat split; reflexivity. Qed.



(** Restarts move the port upwards only, by at most 99 each: every run of
    the server is on a port from [PORT] to
    [PORT + 99 * (max_retries - 1)], and so is the port in use when the
    function returns. *)
Theorem restarts_move_port_up (w : World) (max_retries retry_delay PORT : Z)
    (h evs : trace) (q : Z) (r : ending) :
  snd (run_server_with_retry w max_retries retry_delay PORT h)
  = (evs ++ h)%list ->
  In (Serve q r) evs ->
  PORT <= q <= PORT + 99 * (max_retries - 1).
Proof.
  intros E Hin.
  destruct (run_server_cases w max_retries retry_delay PORT h)
    as (r' & evs' & E' & Hr & Hw & _).
  rewrite E' in E. cbn [snd] in E. apply app_inv_tail in E. subst evs'.
  rewrite Forall_forall in Hw. specialize (Hw _ Hin).
  unfold served_within in Hw.
  assert (0 < max_retries).
  { destruct (Z_le_gt_dec max_retries 0) as [Hle|]; [|lia].
    assert (rounds evs = O) as H0 by lia.
    assert (Z.to_nat max_retries = O) as Hz by lia.
    unfold run_server_with_retry in E'. rewrite Hz in E'. cbn in E'.
    injection E' as _ E'. rewrite <- (app_nil_l h) in E' at 1.
    apply app_inv_tail in E'. subst evs. contradiction. }
  lia.
Qed.

Lemma restarts_move_port_up_witness :
  8001 <= 8003 <= 8001 + 99 * (3 - 1).
Proof.
  apply (restarts_move_port_up MoreSamples.world_moving 3 5 8001 []
           MoreSamples.moving_run 8003 Returned).
  - vm_compute. reflexivity.
  - left. reflexivity.
Defined.

End ServerFacts.
(* ===================================================================== *)
(** * The tunnel *)
(* ===================================================================== *)

Module TunnelFacts.
Import PyStr Tunnel.

Ltac strun :=
  unfold st_bind, st_ret, st_eff, st_self, st_assign, st_try in *.

(** ** Stopping *)

(** [stop_tunnel] returns.  With a stored process it begins with the
    graceful signal to that process, and it clears the object exactly
    when no step failed. *)
Lemma stop_cases (ps : NgrokManager.Procs) (self : manager)
    (h : NgrokManager.trace) :
  match NgrokManager.process self with
  | None => NgrokManager.stop_tunnel ps self h = (Return self, h)
  | Some proc =>
      exists later r,
        NgrokManager.stop_tunnel ps self h
        = (Return (if existsb NgrokManager.failed
                        (later ++ [NgrokManager.Terminate proc r])
                   then self else NgrokManager.clear self),
           (later ++ [NgrokManager.Terminate proc r]) ++ h)
  end.
Proof.
  unfold NgrokManager.stop_tunnel.
  destruct (NgrokManager.process self) as [proc|]; [|reflexivity].
  unfold NgrokManager.stop_tunnel_try. run.
  destruct (NgrokManager.proc_terminate ps h proc) as [[]|e0].
  2:{ now exists [], (Raise e0). }
  match goal with
  | |- context [NgrokManager.proc_wait ps ?h1 proc (Some 5)] =>
      destruct (NgrokManager.proc_wait ps h1 proc (Some 5)) as [rc|e1]
  end.
  { now exists [NgrokManager.Wait proc (Some 5) (Return rc)], (Return tt). }
  destruct (is_TimeoutExpired e1) eqn:Hto.
  2:{ exists [NgrokManager.Wait proc (Some 5) (Raise e1)], (Return tt).
      cbn. now rewrite Hto. }
  destruct e1; try discriminate Hto.
  match goal with
  | |- context [NgrokManager.proc_kill ps ?h2 proc] =>
      destruct (NgrokManager.proc_kill ps h2 proc) as [[]|e2]
  end.
  2:{ now exists [NgrokManager.KillProc proc (Raise e2);
                  NgrokManager.Wait proc (Some 5) (Raise TimeoutExpired)],
                 (Return tt). }
  match goal with
  | |- context [NgrokManager.proc_wait ps ?h3 proc None] =>
      destruct (NgrokManager.proc_wait ps h3 proc None) as [rc|e3]
  end.
  - now exists [NgrokManager.Wait proc None (Return rc);
                NgrokManager.KillProc proc (Return tt);
                NgrokManager.Wait proc (Some 5) (Raise TimeoutExpired)],
               (Return tt).
  - now exists [NgrokManager.Wait proc None (Raise e3);
                NgrokManager.KillProc proc (Return tt);
                NgrokManager.Wait proc (Some 5) (Raise TimeoutExpired)],
               (Return tt).
Qed.

Lemma stop_tunnel_cases (w : World) (self : manager) (h : trace) :
  match NgrokManager.process self with
  | None => stop_tunnel w self h = (Return tt, self, h)
  | Some proc =>
      exists evs self',
        stop_tunnel w self h = (Return tt, self', evs ++ h)
        /\ stopping proc evs
        /\ (self' = self \/ self' = NgrokManager.clear self)
  end.
Proof.
  unfold stop_tunnel.
  pose proof (stop_cases (procs w h) self []) as H.
  destruct (NgrokManager.process self) as [proc|].
  - destruct H as (later & r & ->). rewrite app_nil_r.
    eexists _, _. split; [reflexivity|]. split; [now exists later, r|].
    destruct (existsb _ _); auto.
  - now rewrite H.
Qed.

(** ** The checks *)

Lemma is_installed_cases (w : World) (h : trace) :
  is_installed w h
  = (match run w h version_check (Some 5) with
     | Return result => Return (returncode result =? 0)
     | Raise e =>
         if is_TimeoutExpired e || is_FileNotFoundError e
         then Return false else Raise e
     end,
     Run version_check (Some 5) (run w h version_check (Some 5)) :: h).
Proof.
  unfold is_installed, subprocess_run, version_check. run.
  destruct (run w h ["ngrok"; "version"] (Some 5)) as [result|e];
    [reflexivity|].
  now destruct (is_TimeoutExpired e || is_FileNotFoundError e).
Qed.

Lemma cleanup_existing_tunnels_cases (w : World) (h : trace) :
  exists evs,
    cleanup_existing_tunnels w h = (Return tt, evs ++ h)
    /\ forallb housekeeping evs = true.
Proof.
  unfold cleanup_existing_tunnels, subprocess_run, sleep. run.
  destruct (String.eqb (os_name w) "posix");
    match goal with
    | |- context [run w h ?c None] =>
        destruct (run w h c None) as [res|e];
        [exists [Pause 1; Run c None (Return res)]
        |exists [Run c None (Raise e)]]
    end; now split.
Qed.

(** ** Asking for the URL *)

Lemma with_tunnel_url_same (self : manager) :
  with_tunnel_url self (NgrokManager.tunnel_url self) = self.
Proof. now destruct self. Qed.

Lemma get_raises (d : json) (k : string) (v : json) (e : exn) :
  TriggerWebhook.get d k v = Raise e -> e = AttributeError.
Proof. destruct d; cbn; congruence. Qed.

(** The loop over the tunnels has no effect but on the stored URL, which
    it leaves alone when there is one; what it returns is a URL that is
    not empty, what it raises an [AttributeError]. *)
Lemma scan_tunnels_cases (tunnels : list json) :
  forall (self : manager) (h : trace),
  exists r u,
    scan_tunnels tunnels self h = (r, with_tunnel_url self u, h)
    /\ (opt_truthy (NgrokManager.tunnel_url self) = true ->
        u = NgrokManager.tunnel_url self)
    /\ match r with
       | Return (Some url) => str_truthy url = true
       | Return None => True
       | Raise e => e = AttributeError
       end.
Proof.
  induction tunnels as [|tunnel rest IH]; intros self h.
  { exists (Return None), (NgrokManager.tunnel_url self).
    cbn. now rewrite with_tunnel_url_same. }
  cbn [scan_tunnels]. strun. unfold lift.
  destruct (TriggerWebhook.get tunnel "proto" JNull) as [proto|e] eqn:E1.
  2:{ apply get_raises in E1. subst e.
      exists (Raise AttributeError), (NgrokManager.tunnel_url self).
      now rewrite with_tunnel_url_same. }
  destruct (TriggerWebhook.eq_str proto "http"
            || TriggerWebhook.eq_str proto "https"); [|apply IH].
  destruct (TriggerWebhook.get tunnel "public_url" JNull)
    as [public_url|e] eqn:E2.
  2:{ apply get_raises in E2. subst e.
      exists (Raise AttributeError), (NgrokManager.tunnel_url self).
      now rewrite with_tunnel_url_same. }
  destruct (TriggerWebhook.truthy public_url) eqn:Ht; [|apply IH].
  destruct public_url as [|b|n|x|url|items|items];
    try (exists (Raise AttributeError), (NgrokManager.tunnel_url self);
         unfold raise; now rewrite with_tunnel_url_same).
  destruct (startswith url "https://").
  { exists (Return (Some url)), (NgrokManager.tunnel_url self).
    now rewrite with_tunnel_url_same. }
  destruct (opt_truthy (NgrokManager.tunnel_url self)) eqn:Hs; cbn [negb].
  - destruct (IH self h) as (r & u & E & Hu & Hr).
    exists r, u. split; [exact E|]. split; [intros _; now apply Hu|exact Hr].
  - destruct (IH (with_tunnel_url self (Some url)) h) as (r & u & E & Hu & Hr).
    exists r, u. split; [exact E|]. split; [discriminate|exact Hr].
Qed.

Lemma iterate_raises (v : json) (e : exn) :
  iterate v = Raise e -> e = TypeError.
Proof. destruct v; cbn; congruence. Qed.

(** An exception in an attempt: taken when it is of [requests]. *)
Lemma caught_cases (e : exn) (self : manager) (h : trace) :
  exists r : Exc (option string),
    (if is_RequestException e then (Return None, self, h)
     else (Raise e, self, h)) = (r, self, h)
    /\ match r with
       | Return (Some _) => False
       | Return None => True
       | Raise e' => is_RequestException e' = false
       end.
Proof.
  destruct (is_RequestException e) eqn:He;
    [now exists (Return None)|now exists (Raise e)].
Qed.

(** One attempt: one request, and no effect besides but on the stored
    URL. *)
Lemma attempt_cases (w : World) (self : manager) (h : trace) :
  let target := (NgrokManager.api_url self ++ "/tunnels")%string in
  exists r u,
    st_try (tunnel_url_try w) is_RequestException (fun _ => st_ret None)
      self h
    = (r, with_tunnel_url self u,
       Get target 2 (http_get w h target 2) :: h)
    /\ (opt_truthy (NgrokManager.tunnel_url self) = true ->
        u = NgrokManager.tunnel_url self)
    /\ match r with
       | Return (Some url) =>
           str_truthy url = true
           /\ exists response,
                http_get w h target 2 = Return response
                /\ status_code response = 200
       | Return None => True
       | Raise e => is_RequestException e = false
       end.
Proof.
  intros target. unfold tunnel_url_try, requests_get. strun. run.
  fold target.
  set (same := NgrokManager.tunnel_url self).
  assert (forall (e : exn) (h' : trace),
            exists r u,
              (if is_RequestException e then (Return None, self, h')
               else (Raise e, self, h'))
              = (r : Exc (option string), with_tunnel_url self u, h')
              /\ (opt_truthy same = true -> u = same)
              /\ match r with
                 | Return (Some url) =>
                     str_truthy url = true
                     /\ exists response : Response,
                          Raise e = Return response
                          /\ status_code response = 200
                 | Return None => True
                 | Raise e => is_RequestException e = false
                 end) as Hfail.
  { intros e h'. destruct (caught_cases e self h') as (r & -> & Hr).
    exists r, same. unfold same. rewrite with_tunnel_url_same.
    split; [reflexivity|]. split; [reflexivity|].
    destruct r as [[url|]|e']; [contradiction|exact I|exact Hr]. }
  assert (forall (e : exn) (h' : trace) (response : Response),
            exists r u,
              (if is_RequestException e then (Return None, self, h')
               else (Raise e, self, h'))
              = (r : Exc (option string), with_tunnel_url self u, h')
              /\ (opt_truthy same = true -> u = same)
              /\ match r with
                 | Return (Some url) =>
                     str_truthy url = true
                     /\ exists response' : Response,
                          Return response = Return response'
                          /\ status_code response' = 200
                 | Return None => True
                 | Raise e => is_RequestException e = false
                 end) as Hbad.
  { intros e h' response. destruct (caught_cases e self h') as (r & -> & Hr).
    exists r, same. unfold same. rewrite with_tunnel_url_same.
    split; [reflexivity|]. split; [reflexivity|].
    destruct r as [[url|]|e']; [contradiction|exact I|exact Hr]. }
  destruct (http_get w h target 2) as [response|e] eqn:Eg; [|apply Hfail].
  destruct (status_code response =? 200) eqn:Hst.
  2:{ exists (Return None), same. unfold same.
      rewrite with_tunnel_url_same. now repeat split. }
  apply Z.eqb_eq in Hst. unfold lift.
  destruct (json_ response) as [data|e]; [|apply Hbad].
  destruct (TriggerWebhook.get data "tunnels" (JArr [])) as [tunnels|e];
    [|apply Hbad].
  destruct (iterate tunnels) as [items|e]; [|apply Hbad].
  destruct (scan_tunnels_cases items self (Get target 2 (Return response) :: h))
    as (r & u & -> & Hu & Hr).
  destruct r as [[url|]|e].
  - exists (Return (Some url)), u. repeat split; try assumption.
    now exists response.
  - cbn [NgrokManager.tunnel_url with_tunnel_url].
    destruct u as [url|]; cbn [opt_truthy].
    + destruct (str_truthy url) eqn:Hurl.
      * exists (Return (Some url)), (Some url). repeat split; try assumption.
        now exists response.
      * exists (Return None), (Some url). now repeat split.
    + exists (Return None), None. now repeat split.
  - subst e. cbn. exists (Raise AttributeError), u. now repeat split.
Qed.

Lemma gets_app (a b : trace) : gets (a ++ b) = (gets a + gets b)%nat.
Proof. unfold gets. now rewrite filter_app, length_app. Qed.

Lemma pauses_app (a b : trace) :
  pauses (a ++ b) = (pauses a + pauses b)%nat.
Proof. unfold pauses. now rewrite filter_app, length_app. Qed.

(** The loop of [get_tunnel_url], [remaining] attempts being left. *)
Lemma tunnel_url_attempts_cases (w : World) (max_retries : Z) :
  forall (remaining : nat) (attempt : Z) (self : manager) (h : trace),
    attempt + Z.of_nat remaining = max_retries ->
    let target := (NgrokManager.api_url self ++ "/tunnels")%string in
    exists r u evs,
      tunnel_url_attempts w max_retries attempt remaining self h
      = (r, with_tunnel_url self u, evs ++ h)
      /\ forallb (polling (NgrokManager.api_url self)) evs = true
      /\ (gets evs <= remaining)%nat
      /\ (pauses evs <= Nat.pred remaining)%nat
      /\ match r with
         | Return None =>
             gets evs = remaining /\ pauses evs = Nat.pred remaining
         | Return (Some url) =>
             str_truthy url = true
             /\ exists response evs',
                  evs = Get target 2 (Return response) :: evs'
                  /\ status_code response = 200
         | Raise e =>
             is_RequestException e = false
             /\ exists g evs', evs = Get target 2 g :: evs'
         end.
Proof.
  induction remaining as [|n IH]; intros attempt self h Hinv target.
  { exists (Return None), (NgrokManager.tunnel_url self), [].
    cbn. rewrite with_tunnel_url_same. now repeat split. }
  cbn [tunnel_url_attempts]. unfold st_bind at 1.
  destruct (attempt_cases w self h) as (r & u & E & _ & Hr).
  fold target in E, Hr. rewrite E. clear E.
  set (g := http_get w h target 2) in *.
  assert (polling (NgrokManager.api_url self) (Get target 2 g) = true) as Hg.
  { cbn. unfold target. now rewrite String.eqb_refl. }
  destruct r as [[url|]|e].
  - exists (Return (Some url)), u, [Get target 2 g]. cbn [app forallb].
    rewrite Hg. destruct Hr as (Hurl & response & Eg & Hst).
    repeat split; try assumption; try (cbn; lia).
    exists response, []. now rewrite Eg.
  - set (self1 := with_tunnel_url self u).
    assert (exists mid,
              (if attempt <? max_retries - 1 then st_eff (sleep 1)
               else st_ret tt) self1 (Get target 2 g :: h)
              = (Return tt, self1, mid ++ Get target 2 g :: h)
              /\ forallb (polling (NgrokManager.api_url self)) mid = true
              /\ gets mid = O
              /\ pauses mid = (if Nat.eqb n 0 then 0 else 1)%nat)
      as (mid & Em & Hm1 & Hm2 & Hm3).
    { destruct (attempt <? max_retries - 1) eqn:Hlast.
      - apply Z.ltb_lt in Hlast. exists [Pause 1].
        destruct n; [lia|]. now repeat split.
      - apply Z.ltb_ge in Hlast. exists [].
        assert (n = O) as -> by lia. now repeat split. }
    unfold st_bind. rewrite Em.
    destruct (IH (attempt + 1) self1 (mid ++ Get target 2 g :: h)
                ltac:(lia)) as (r & u' & rest & Er & Hp & Hgn & Hpn & Hres).
    rewrite Er. cbn [NgrokManager.api_url with_tunnel_url self1] in *.
    fold target in Hres.
    exists r, u', (rest ++ mid ++ [Get target 2 g])%list.
    split. { now rewrite <- !app_assoc. }
    rewrite !forallb_app, !gets_app, !pauses_app, Hp, Hm1, Hm2, Hm3.
    cbn [forallb andb]. rewrite Hg.
    change (gets [Get target 2 g]) with 1%nat.
    change (pauses [Get target 2 g]) with 0%nat.
    cbn [Nat.pred].
    assert ((if Nat.eqb n 0 then 0 else 1) + Nat.pred n = n)%nat as Hsum.
    { destruct n; cbn; lia. }
    split; [reflexivity|]. split; [lia|]. split; [lia|].
    destruct r as [[url|]|e].
    + destruct Hres as (Hurl & response & evs' & -> & Hst).
      split; [exact Hurl|]. exists response. eexists. split; [|exact Hst].
      cbn [app]. reflexivity.
    + destruct Hres as (Hg' & Hp'). split; lia.
    + destruct Hres as (He & g' & evs' & ->). split; [exact He|].
      exists g'. eexists. cbn [app]. reflexivity.
  - exists (Raise e), u, [Get target 2 g]. cbn [app forallb].
    rewrite Hg. repeat split; try assumption; try (cbn; lia).
    now exists g, [].
Qed.

(** [get_tunnel_url] only asks and waits.  Its effects are requests for
    [<api>/tunnels] with a timeout of two seconds and pauses of one
    second, at most ten and nine of them, and of the object it changes the
    stored URL only.  It gives up with [None] after exactly ten requests
    and nine pauses.  A URL it returns is not empty and follows directly a
    response with status 200.  What it raises is no exception of
    [requests], and follows directly a request. *)
Theorem get_tunnel_url_polls (w : World) (self : manager) (h : trace) :
  let target := (NgrokManager.api_url self ++ "/tunnels")%string in
  exists r u evs,
    get_tunnel_url w self h = (r, with_tunnel_url self u, evs ++ h)
    /\ forallb (polling (NgrokManager.api_url self)) evs = true
    /\ (gets evs <= 10)%nat
    /\ (pauses evs <= 9)%nat
    /\ match r with
       | Return None => gets evs = 10%nat /\ pauses evs = 9%nat
       | Return (Some url) =>
           str_truthy url = true
           /\ exists response evs',
                evs = Get target 2 (Return response) :: evs'
                /\ status_code response = 200
       | Raise e =>
           is_RequestException e = false
           /\ exists g evs', evs = Get target 2 g :: evs'
       end.
Proof.
  intros target. unfold get_tunnel_url.
  destruct (tunnel_url_attempts_cases w 10 10 0 self h eq_refl)
    as (r & u & evs & E & H).
  exists r, u, evs. split; [exact E|exact H].
Qed.

(** ** Which URL *)

Lemma passed_step (tunnel : json) (rest : list json) (self : manager)
    (h : trace) :
  passed tunnel = true ->
  exists u,
    scan_tunnels (tunnel :: rest) self h
    = scan_tunnels rest (with_tunnel_url self u) h
    /\ (opt_truthy (NgrokManager.tunnel_url self) = true ->
        u = NgrokManager.tunnel_url self).
Proof.
  intros Hp. destruct tunnel as [| | | | |?|items]; try discriminate Hp.
  cbn [scan_tunnels]. strun. unfold lift. cbn [TriggerWebhook.get].
  cbn [passed] in Hp.
  set (proto := match TriggerWebhook.assoc "proto" items with
                | Some v => v | None => JNull end) in *.
  set (public_url := match TriggerWebhook.assoc "public_url" items with
                     | Some v => v | None => JNull end) in *.
  assert (exists u, with_tunnel_url self u = self
                    /\ (opt_truthy (NgrokManager.tunnel_url self) = true ->
                        u = NgrokManager.tunnel_url self)) as Hsame.
  { exists (NgrokManager.tunnel_url self).
    now rewrite with_tunnel_url_same. }
  destruct (TriggerWebhook.eq_str proto "http"
            || TriggerWebhook.eq_str proto "https").
  2:{ destruct Hsame as (u & E & Hu). exists u. now rewrite E. }
  destruct public_url as [|b|n|x|url|l|l]; cbn [TriggerWebhook.truthy] in *;
    try (apply negb_true_iff in Hp; rewrite Hp;
         destruct Hsame as (u & E & Hu); exists u; now rewrite E);
    try (destruct Hsame as (u & E & Hu); exists u; now rewrite E).
  apply negb_true_iff in Hp. rewrite Hp.
  destruct (str_truthy url).
  2:{ destruct Hsame as (u & E & Hu). exists u. now rewrite E. }
  destruct (opt_truthy (NgrokManager.tunnel_url self)) eqn:Hs; cbn [negb].
  - destruct Hsame as (u & E & Hu). exists u. now rewrite E.
  - exists (Some url). split; [reflexivity|discriminate].
Qed.

Lemma secure_step (tunnel : json) (url : string) (rest : list json)
    (self : manager) (h : trace) :
  secure tunnel url = true ->
  scan_tunnels (tunnel :: rest) self h = (Return (Some url), self, h).
Proof.
  intros Hs. destruct tunnel as [| | | | |?|items]; try discriminate Hs.
  cbn [secure] in Hs.
  cbn [scan_tunnels]. strun. unfold lift. cbn [TriggerWebhook.get].
  destruct (TriggerWebhook.assoc "proto" items) as [proto|];
    [|discriminate Hs].
  destruct (TriggerWebhook.assoc "public_url" items) as [[| | | |u| |]|];
    try discriminate Hs.
  apply andb_true_iff in Hs as [Hs H3]. apply andb_true_iff in Hs as [H1 H2].
  apply String.eqb_eq in H2. subst u. rewrite H1.
  cbn [TriggerWebhook.truthy].
  assert (str_truthy url = true) as ->.
  { destruct url; [discriminate H3|reflexivity]. }
  unfold startswith in *. now rewrite H3.
Qed.

(** The first secure URL of the list is returned, whatever comes
    before it that the loop passes. *)
Lemma scan_tunnels_secure (before after : list json) (tunnel : json)
    (url : string) :
  forallb passed before = true ->
  secure tunnel url = true ->
  forall (self : manager) (h : trace),
  exists u,
    scan_tunnels (before ++ tunnel :: after) self h
    = (Return (Some url), with_tunnel_url self u, h).
Proof.
  intros Hb Hs. induction before as [|t before IH]; intros self h.
  - cbn [app]. rewrite (secure_step _ _ _ _ _ Hs).
    exists (NgrokManager.tunnel_url self). now rewrite with_tunnel_url_same.
  - cbn [forallb] in Hb. apply andb_true_iff in Hb as [Ht Hb].
    cbn [app]. destruct (passed_step t (before ++ tunnel :: after) self h Ht)
      as (u & -> & _).
    destruct (IH Hb (with_tunnel_url self u) h) as (u' & ->).
    now exists u'.
Qed.

(** A list that the loop passes entirely leaves a stored URL alone. *)
Lemma scan_tunnels_passed (tunnels : list json) :
  forallb passed tunnels = true ->
  forall (self : manager) (h : trace),
    opt_truthy (NgrokManager.tunnel_url self) = true ->
    scan_tunnels tunnels self h = (Return None, self, h).
Proof.
  intros Hb. induction tunnels as [|t rest IH]; intros self h Hs;
    [reflexivity|].
  cbn [forallb] in Hb. apply andb_true_iff in Hb as [Ht Hb].
  destruct (passed_step t rest self h Ht) as (u & -> & Hu).
  rewrite (Hu Hs), with_tunnel_url_same. now apply IH.
Qed.

(** The secure URL is preferred: when the first request is answered
    with status 200 and a list of tunnels whose first entry with an
    [https://] URL (and protocol [http] or [https]) comes after entries
    that the loop passes (other protocols, empty URLs, plain URLs), that
    URL is returned after this one request, whatever URL is stored. *)
Theorem secure_url_preferred (w : World) (self : manager) (h : trace)
    (response : Response) (data : json) (before after : list json)
    (tunnel : json) (url : string) :
  let target := (NgrokManager.api_url self ++ "/tunnels")%string in
  http_get w h target 2 = Return response ->
  status_code response = 200 ->
  json_ response = Return data ->
  TriggerWebhook.get data "tunnels" (JArr [])
  = Return (JArr (before ++ tunnel :: after)) ->
  forallb passed before = true ->
  secure tunnel url = true ->
  exists u,
    get_tunnel_url w self h
    = (Return (Some url), with_tunnel_url self u,
       Get target 2 (Return response) :: h).
Proof.
  intros target Hg Hst Hj Ht Hb Hs.
  unfold get_tunnel_url. cbn [tunnel_url_attempts].
  unfold tunnel_url_try, requests_get. strun. run. fold target.
  rewrite Hg, Hst. cbn [Z.eqb Pos.eqb]. unfold lift. rewrite Hj, Ht.
  cbn [iterate].
  destruct (scan_tunnels_secure before after tunnel url Hb Hs self
              (Get target 2 (Return response) :: h)) as (u & ->).
  now exists u.
Qed.

Lemma secure_url_preferred_witness :
  exists u,
    get_tunnel_url (MoreSamples.world_tunnel MoreSamples.two_tunnels)
      MoreSamples.mgr_fresh []
    = (Return (Some "https://abc.ngrok.io"),
       with_tunnel_url MoreSamples.mgr_fresh u,
       [Get "http://localhost:4040/api/tunnels" 2
          (Return (MoreSamples.answer MoreSamples.two_tunnels))]).
Proof.
  apply (secure_url_preferred
           (MoreSamples.world_tunnel MoreSamples.two_tunnels)
           MoreSamples.mgr_fresh []
           (MoreSamples.answer MoreSamples.two_tunnels)
           MoreSamples.two_tunnels
           [MoreSamples.tunnel_entry "http" "http://abc.ngrok.io"] []
           (MoreSamples.tunnel_entry "https" "https://abc.ngrok.io")
           "https://abc.ngrok.io"); reflexivity.
Defined.

(** A stored URL is not replaced by a plain one: when the object holds a
    URL and the first request is answered with status 200 and a list of
    tunnels without a secure URL, the stored URL is returned after this
    one request, and the object is left as it was. *)
Theorem stored_url_returned (w : World) (self : manager) (h : trace)
    (response : Response) (data tunnels : json) (items : list json)
    (old : string) :
  let target := (NgrokManager.api_url self ++ "/tunnels")%string in
  NgrokManager.tunnel_url self = Some old ->
  str_truthy old = true ->
  http_get w h target 2 = Return response ->
  status_code response = 200 ->
  json_ response = Return data ->
  TriggerWebhook.get data "tunnels" (JArr []) = Return tunnels ->
  iterate tunnels = Return items ->
  forallb passed items = true ->
  get_tunnel_url w self h
  = (Return (Some old), self, Get target 2 (Return response) :: h).
Proof.
  intros target Hold Htr Hg Hst Hj Ht Hi Hb.
  assert (opt_truthy (NgrokManager.tunnel_url self) = true) as Hs.
  { now rewrite Hold. }
  unfold get_tunnel_url. cbn [tunnel_url_attempts].
  unfold tunnel_url_try, requests_get. strun. run. fold target.
  rewrite Hg, Hst. cbn [Z.eqb Pos.eqb]. unfold lift. rewrite Hj, Ht, Hi.
  rewrite (scan_tunnels_passed items Hb self _ Hs). now rewrite Hs, Hold.
Qed.

Lemma stored_url_returned_witness :
  get_tunnel_url (MoreSamples.world_tunnel MoreSamples.plain_tunnel)
    Samples.mgr_running []
  = (Return (Some "https://example.ngrok.io"), Samples.mgr_running,
     [Get "http://localhost:4040/api/tunnels" 2
        (Return (MoreSamples.answer MoreSamples.plain_tunnel))]).
Proof.
  apply (stored_url_returned
           (MoreSamples.world_tunnel MoreSamples.plain_tunnel)
           Samples.mgr_running []
           (MoreSamples.answer MoreSamples.plain_tunnel)
           MoreSamples.plain_tunnel
           (JArr [MoreSamples.tunnel_entry "http" "http://new.ngrok.io"])
           [MoreSamples.tunnel_entry "http" "http://new.ngrok.io"]
           "https://example.ngrok.io"); reflexivity.
Defined.

(** ** Starting *)

(** The body of the [try] of [start_tunnel]: the agent cannot be started;
    or it is started and a URL is found; or an exception leaves
    [get_tunnel_url]; or no URL is found and the agent is stopped. *)
Lemma start_tunnel_try_cases (w : World) (protocol : string)
    (self : manager) (h : trace) :
  let cmd := tunnel_command self protocol in
  exists cl,
    forallb housekeeping cl = true
    /\ ((exists e,
           start_tunnel_try w protocol self h
           = (Raise e, self, Spawn cmd (Raise e) :: cl ++ h))
        \/ exists pid polls u,
             forallb (polling (NgrokManager.api_url self)) polls = true
             /\ let s1 := with_tunnel_url (with_process self (Some pid)) u in
                let h1 := (polls ++ Pause 3 :: Spawn cmd (Return pid)
                             :: cl ++ h)%list in
                (exists url,
                   str_truthy url = true /\ u = Some url
                   /\ start_tunnel_try w protocol self h
                      = (Return (Some url), s1, h1))
                \/ (exists e,
                      start_tunnel_try w protocol self h = (Raise e, s1, h1))
                \/ (exists stops self',
                      stopping pid stops
                      /\ (self' = s1 \/ self' = NgrokManager.clear s1)
                      /\ start_tunnel_try w protocol self h
                         = (Return None, self', stops ++ h1))).
Proof.
  intros cmd. unfold start_tunnel_try. strun.
  destruct (cleanup_existing_tunnels_cases w h) as (cl & -> & Hcl).
  exists cl. split; [exact Hcl|]. fold cmd. unfold call.
  destruct (popen w (cl ++ h) cmd) as [pid|e].
  2:{ left. now exists e. }
  right. unfold sleep, get_tunnel_url.
  set (self1 := with_process self (Some pid)).
  set (h0 := Pause 3 :: Spawn cmd (Return pid) :: cl ++ h).
  destruct (tunnel_url_attempts_cases w 10 10 0 self1 h0 eq_refl)
    as (r & u & polls & -> & Hp & _ & _ & Hr).
  cbn [NgrokManager.api_url with_process self1] in Hp.
  exists pid, polls. destruct r as [[url|]|e].
  - exists (Some url). split; [exact Hp|]. left. exists url.
    destruct Hr as (Hurl & _). cbn [opt_truthy]. rewrite Hurl.
    now repeat split.
  - exists None. split; [exact Hp|]. right. right.
    cbn [opt_truthy].
    pose proof (stop_tunnel_cases w
                  (with_tunnel_url (with_tunnel_url self1 u) None)
                  (polls ++ h0)) as Hstop.
    cbn [NgrokManager.process with_tunnel_url with_process self1] in Hstop.
    destruct Hstop as (stops & self' & Es & Hst & Hs').
    exists stops, self'. split; [exact Hst|]. split; [exact Hs'|].
    change (with_tunnel_url (with_process self (Some pid)) None)
      with (with_tunnel_url (with_tunnel_url self1 u) None).
    now rewrite Es.
  - exists u. split; [exact Hp|]. right. left. now exists e.
Qed.

(** All runs of [start_tunnel]; [rest] is what follows the version
    check. *)
Lemma start_tunnel_cases (w : World) (protocol : string) (self : manager)
    (h : trace) :
  let cmd := tunnel_command self protocol in
  let v := run w h version_check (Some 5) in
  exists r self' rest,
    start_tunnel w protocol self h
    = (r, self', rest ++ Run version_check (Some 5) v :: h)
    /\ match r with
       | Raise e =>
           v = Raise e
           /\ is_TimeoutExpired e || is_FileNotFoundError e = false
           /\ rest = [] /\ self' = self
       | Return (Some url) =>
           str_truthy url = true
           /\ is_configured self = true
           /\ exists pid cl polls,
                rest = (polls ++ Pause 3 :: Spawn cmd (Return pid) :: cl)%list
                /\ forallb housekeeping cl = true
                /\ forallb (polling (NgrokManager.api_url self)) polls = true
                /\ self' = with_tunnel_url (with_process self (Some pid))
                             (Some url)
       | Return None =>
           (rest = [] /\ self' = self)
           \/ (is_configured self = true
               /\ exists cl,
                    forallb housekeeping cl = true
                    /\ ((exists e stops,
                           rest = (stops ++ Spawn cmd (Raise e) :: cl)%list
                           /\ match NgrokManager.process self with
                              | None => stops = [] /\ self' = self
                              | Some old =>
                                  stopping old stops
                                  /\ (self' = self
                                      \/ self' = NgrokManager.clear self)
                              end)
                        \/ exists pid polls stops u,
                             rest = (stops ++ polls ++ Pause 3
                                       :: Spawn cmd (Return pid) :: cl)%list
                             /\ forallb (polling (NgrokManager.api_url self))
                                  polls = true
                             /\ stopping pid stops
                             /\ let s1 := with_tunnel_url
                                            (with_process self (Some pid)) u in
                                self' = s1 \/ self' = NgrokManager.clear s1))
       end.
Proof.
  intros cmd v. unfold start_tunnel. unfold st_bind at 1, st_eff at 1.
  rewrite is_installed_cases. fold v.
  set (h0 := Run version_check (Some 5) v :: h).
  destruct v as [result|e] eqn:Ev.
  2:{ destruct (is_TimeoutExpired e || is_FileNotFoundError e) eqn:He.
      - exists (Return None), self, []. split; [reflexivity|]. now left.
      - exists (Raise e), self, []. now repeat split. }
  destruct (returncode result =? 0); cbn [negb].
  2:{ exists (Return None), self, []. split; [reflexivity|]. now left. }
  unfold st_bind at 1, st_self at 1.
  destruct (is_configured self) eqn:Hc; cbn [negb].
  2:{ exists (Return None), self, []. split; [reflexivity|]. now left. }
  unfold st_try.
  destruct (start_tunnel_try_cases w protocol self h0) as (cl & Hcl & Hcases).
  fold cmd in Hcases.
  destruct Hcases as [(e & ->)|(pid & polls & u & Hp & Hcases)].
  - (* the agent could not be started *)
    cbn [any_Exception]. unfold st_bind, st_ret.
    pose proof (stop_tunnel_cases w self (Spawn cmd (Raise e) :: cl ++ h0))
      as Hstop.
    destruct (NgrokManager.process self) as [old|] eqn:Hproc.
    + destruct Hstop as (stops & self' & -> & Hst & Hs').
      exists (Return None), self', (stops ++ Spawn cmd (Raise e) :: cl)%list.
      split. { now rewrite <- app_assoc. }
      right. split; [reflexivity|]. exists cl. split; [exact Hcl|]. left.
      exists e, stops. now repeat split.
    + rewrite Hstop.
      exists (Return None), self, (Spawn cmd (Raise e) :: cl).
      split; [reflexivity|].
      right. split; [reflexivity|]. exists cl. split; [exact Hcl|]. left.
      exists e, []. now repeat split.
  - cbv zeta in Hcases.
    set (s1 := with_tunnel_url (with_process self (Some pid)) u) in *.
    set (h1 := (polls ++ Pause 3 :: Spawn cmd (Return pid) :: cl ++ h0)%list)
      in *.
    destruct Hcases as [(url & Hurl & -> & ->)|[(e & ->)|
                        (stops & self' & Hst & Hs' & ->)]].
    + exists (Return (Some url)), s1,
        (polls ++ Pause 3 :: Spawn cmd (Return pid) :: cl)%list.
      split. { unfold h1. now rewrite <- app_assoc. }
      split; [exact Hurl|]. split; [reflexivity|].
      exists pid, cl, polls. now repeat split.
    + cbn [any_Exception]. unfold st_bind, st_ret.
      pose proof (stop_tunnel_cases w s1 h1) as Hstop.
      cbn [NgrokManager.process with_tunnel_url with_process s1] in Hstop.
      destruct Hstop as (stops & self' & -> & Hst & Hs').
      exists (Return None), self',
        (stops ++ polls ++ Pause 3 :: Spawn cmd (Return pid) :: cl)%list.
      split. { unfold h1. now rewrite <- !app_assoc. }
      right. split; [reflexivity|]. exists cl. split; [exact Hcl|]. right.
      exists pid, polls, stops, u. now repeat split.
    + exists (Return None), self',
        (stops ++ polls ++ Pause 3 :: Spawn cmd (Return pid) :: cl)%list.
      split. { unfold h1. now rewrite <- !app_assoc. }
      right. split; [reflexivity|]. exists cl. split; [exact Hcl|]. right.
      exists pid, polls, stops, u. now repeat split.
Qed.

Lemma adjacent_app (a b : string) (pre post : list string) :
  adjacent a b (pre ++ a :: b :: post) = true.
Proof.
  induction pre as [|x pre IH].
  - cbn. now rewrite !String.eqb_refl.
  - cbn [app]. destruct pre as [|y pre]; cbn [app adjacent] in *;
      rewrite IH; apply orb_true_r.
Qed.

(** A configured manager passes its token on the command line. *)
Lemma token_on_command_line (self : manager) (protocol : string) :
  is_configured self = true ->
  exists token,
    NgrokManager.authtoken self = Some token
    /\ adjacent "--authtoken" token (tunnel_command self protocol) = true.
Proof.
  unfold is_configured, tunnel_command.
  destruct (NgrokManager.authtoken self) as [token|]; [|discriminate].
  cbn [opt_truthy]. intros ->. exists token. split; [reflexivity|].
  cbn [app].
  apply (adjacent_app "--authtoken" token
           ["ngrok"; protocol; str_of_int (NgrokManager.port self)]).
Qed.

(** Where a started agent can be found among the effects. *)
Lemma spawn_not_stop (cmd : list string) (r : Exc Z)
    (l : NgrokManager.trace) :
  ~ In (Spawn cmd r) (map Proc l).
Proof. rewrite in_map_iff. intros (x & Hx & _). discriminate Hx. Qed.

Lemma spawn_not_polling (api : string) (cmd : list string) (r : Exc Z)
    (l : trace) :
  forallb (polling api) l = true -> ~ In (Spawn cmd r) l.
Proof.
  intros H Hin. rewrite forallb_forall in H. specialize (H _ Hin).
  discriminate H.
Qed.

Lemma spawn_not_housekeeping (cmd : list string) (r : Exc Z) (l : trace) :
  forallb housekeeping l = true -> ~ In (Spawn cmd r) l.
Proof.
  intros H Hin. rewrite forallb_forall in H. specialize (H _ Hin).
  discriminate H.
Qed.

(** [start_tunnel] raises only what the version check raised: an
    exception of [ngrok version] that is neither a [TimeoutExpired] nor a
    [FileNotFoundError].  Nothing else was done then, and the object is as
    it was; every failure after the check is handled. *)
Theorem start_tunnel_raises_only_check (w : World) (protocol : string)
    (self : manager) (h : trace) (e : exn) :
  fst (fst (start_tunnel w protocol self h)) = Raise e ->
  start_tunnel w protocol self h
  = (Raise e, self, Run version_check (Some 5) (Raise e) :: h)
  /\ is_TimeoutExpired e = false
  /\ is_FileNotFoundError e = false.
Proof.
  intros H.
  destruct (start_tunnel_cases w protocol self h)
    as (r & self' & rest & E & Hr).
  rewrite E in *. cbn [fst] in H. subst r.
  destruct Hr as (Hv & He & -> & ->). rewrite Hv.
  apply orb_false_iff in He as [H1 H2]. now repeat split.
Qed.

Lemma start_tunnel_raises_only_check_witness :
  start_tunnel MoreSamples.world_no_exec "http" MoreSamples.mgr_fresh []
  = (Raise PermissionError, MoreSamples.mgr_fresh,
     [Run version_check (Some 5) (Raise PermissionError)])
  /\ is_TimeoutExpired PermissionError = false
  /\ is_FileNotFoundError PermissionError = false.
Proof.
  apply (start_tunnel_raises_only_check MoreSamples.world_no_exec "http"
           MoreSamples.mgr_fresh [] PermissionError).
  reflexivity.
Defined.

(** When [start_tunnel] returns a URL, the URL is not empty and is the
    one stored; the stored process is the agent it has started, with the
    token of the object on the command line; and its effects are, in this
    order, the version check, the cleanup of old agents, the start of the
    agent, a pause of three seconds, and the requests and pauses of
    [get_tunnel_url].  Nothing was stopped. *)
Theorem start_tunnel_success (w : World) (protocol : string)
    (self self' : manager) (h evs : trace) (url : string) :
  start_tunnel w protocol self h = (Return (Some url), self', evs ++ h) ->
  str_truthy url = true
  /\ NgrokManager.tunnel_url self' = Some url
  /\ exists pid token polls cl v,
       NgrokManager.process self' = Some pid
       /\ NgrokManager.authtoken self = Some token
       /\ adjacent "--authtoken" token (tunnel_command self protocol) = true
       /\ evs = (polls ++ Pause 3
                   :: Spawn (tunnel_command self protocol) (Return pid)
                   :: cl ++ [Run version_check (Some 5) v])%list
       /\ forallb (polling (NgrokManager.api_url self)) polls = true
       /\ forallb housekeeping cl = true.
Proof.
  intros E.
  destruct (start_tunnel_cases w protocol self h)
    as (r & s & rest & E' & Hr).
  rewrite E' in E. injection E as -> -> E.
  change (rest ++ ?x :: h)%list with (rest ++ [x] ++ h)%list in E.
  rewrite app_assoc in E. apply app_inv_tail in E. subst evs.
  destruct Hr as (Hurl & Hc & pid & cl & polls & -> & Hcl & Hp & ->).
  destruct (token_on_command_line self protocol Hc) as (token & Ht & Ha).
  split; [exact Hurl|]. split; [reflexivity|].
  exists pid, token, polls, cl. eexists.
  repeat split; try eassumption.
  now rewrite <- app_assoc.
Qed.

Lemma start_tunnel_success_witness :
  str_truthy "https://abc.ngrok.io" = true
  /\ NgrokManager.tunnel_url
       (with_tunnel_url (with_process MoreSamples.mgr_fresh (Some 777))
          (Some "https://abc.ngrok.io"))
     = Some "https://abc.ngrok.io"
  /\ exists pid token polls cl v,
       NgrokManager.process
         (with_tunnel_url (with_process MoreSamples.mgr_fresh (Some 777))
            (Some "https://abc.ngrok.io")) = Some pid
       /\ NgrokManager.authtoken MoreSamples.mgr_fresh = Some token
       /\ adjacent "--authtoken" token
            (tunnel_command MoreSamples.mgr_fresh "http") = true
       /\ [Get "http://localhost:4040/api/tunnels" 2
             (Return (MoreSamples.answer MoreSamples.two_tunnels));
           Pause 3;
           Spawn (tunnel_command MoreSamples.mgr_fresh "http") (Return 777);
           Pause 1;
           Run ["killall"; "ngrok"] None (Return MoreSamples.done);
           Run version_check (Some 5) (Return MoreSamples.done)]
          = (polls ++ Pause 3
               :: Spawn (tunnel_command MoreSamples.mgr_fresh "http")
                    (Return pid)
               :: cl ++ [Run version_check (Some 5) v])%list
       /\ forallb (polling (NgrokManager.api_url MoreSamples.mgr_fresh))
            polls = true
       /\ forallb housekeeping cl = true.
Proof.
  apply (start_tunnel_success
           (MoreSamples.world_tunnel MoreSamples.two_tunnels) "http"
           MoreSamples.mgr_fresh
           (with_tunnel_url (with_process MoreSamples.mgr_fresh (Some 777))
              (Some "https://abc.ngrok.io"))
           []
           [Get "http://localhost:4040/api/tunnels" 2
              (Return (MoreSamples.answer MoreSamples.two_tunnels));
            Pause 3;
            Spawn (tunnel_command MoreSamples.mgr_fresh "http") (Return 777);
            Pause 1;
            Run ["killall"; "ngrok"] None (Return MoreSamples.done);
            Run version_check (Some 5) (Return MoreSamples.done)]
           "https://abc.ngrok.io").
  vm_compute. reflexivity.
Defined.

(** An agent that was started is not left behind when [start_tunnel]
    gives up: if [None] is returned after [Popen] has returned a process,
    that process was sent the termination signal, and the object ends
    either without process and URL or still holding that process (when a
    step of the stop failed). *)
Theorem start_tunnel_failure_stops (w : World) (protocol : string)
    (self : manager) (h evs : trace) (cmd : list string) (pid : Z) :
  fst (fst (start_tunnel w protocol self h)) = Return None ->
  snd (start_tunnel w protocol self h) = (evs ++ h)%list ->
  In (Spawn cmd (Return pid)) evs ->
  (exists r, In (Proc (NgrokManager.Terminate pid r)) evs)
  /\ let self' := snd (fst (start_tunnel w protocol self h)) in
     (NgrokManager.process self' = None
      /\ NgrokManager.tunnel_url self' = None)
     \/ NgrokManager.process self' = Some pid.
Proof.
  intros Hr Hevs Hin.
  destruct (start_tunnel_cases w protocol self h)
    as (r & self' & rest & E & Hres).
  rewrite E in *. cbn [fst snd] in *. subst r.
  change (rest ++ ?x :: h)%list with (rest ++ [x] ++ h)%list in Hevs.
  rewrite app_assoc in Hevs. apply app_inv_tail in Hevs. subst evs.
  apply in_app_or in Hin as [Hin|[Hin|[]]]; [|discriminate Hin].
  destruct Hres as [(-> & _)|(_ & cl & Hcl & Hres)]; [contradiction|].
  destruct Hres as [(e & stops & -> & Hold)
                   |(pid' & polls & stops & u & -> & Hp & Hst & Hs')].
  - exfalso. apply in_app_or in Hin as [Hin|[Hin|Hin]].
    + destruct (NgrokManager.process self) as [old|].
      * destruct Hold as ((later & r & ->) & _).
        now apply spawn_not_stop in Hin.
      * destruct Hold as (-> & _). contradiction.
    + discriminate Hin.
    + now apply spawn_not_housekeeping in Hin.
  - destruct Hst as (later & r & ->).
    assert (pid' = pid) as ->.
    { apply in_app_or in Hin as [Hin|Hin];
        [now apply spawn_not_stop in Hin|].
      apply in_app_or in Hin as [Hin|[Hin|[Hin|Hin]]].
      - now apply (spawn_not_polling _ _ _ _ Hp) in Hin.
      - discriminate Hin.
      - now injection Hin.
      - now apply spawn_not_housekeeping in Hin. }
    split.
    + exists r. apply in_or_app. left. apply in_or_app. left.
      apply in_map. apply in_or_app. right. now left.
    + cbv zeta in Hs' |- *. destruct Hs' as [-> | ->]; [now right|now left].
Qed.

Lemma start_tunnel_failure_stops_witness :
  (exists r, In (Proc (NgrokManager.Terminate 777 r)) MoreSamples.silent_run)
  /\ let self' :=
       snd (fst (start_tunnel MoreSamples.world_silent "http"
                   MoreSamples.mgr_fresh [])) in
     (NgrokManager.process self' = None
      /\ NgrokManager.tunnel_url self' = None)
     \/ NgrokManager.process self' = Some 777.
Proof.
  apply (start_tunnel_failure_stops MoreSamples.world_silent "http"
           MoreSamples.mgr_fresh [] MoreSamples.silent_run
           (tunnel_command MoreSamples.mgr_fresh "http") 777).
  - vm_compute. reflexivity.
  - vm_compute. reflexivity.
  - vm_compute. do 22 right. left. reflexivity.
Defined.

(** ** The status *)

(** [get_tunnel_status] never raises and reports the port of the
    object.  The tunnel is reported active exactly when there is a stored
    process whose [poll] has returned [None]; only then are the metrics
    asked for, in one request, and the stored URL is reported.  An
    inactive status holds no URL and no metrics. *)
Theorem get_tunnel_status_outcome (w : World) (self : manager) (h : trace) :
  exists st evs,
    get_tunnel_status w self h = (Return st, evs ++ h)
    /\ status_port st = NgrokManager.port self
    /\ if active st then
         url st = NgrokManager.tunnel_url self
         /\ exists proc g,
              NgrokManager.process self = Some proc
              /\ evs = [Get (NgrokManager.api_url self ++ "/metrics") 2 g;
                        Poll proc (Return None)]
              /\ (metrics st <> None ->
                  exists response, g = Return response
                                   /\ status_code response = 200)
       else
         url st = None /\ metrics st = None /\ gets evs = O
         /\ match NgrokManager.process self with
            | None => evs = []
            | Some proc =>
                exists p, evs = [Poll proc p] /\ p <> Return None
            end.
Proof.
  unfold get_tunnel_status.
  destruct (NgrokManager.process self) as [proc|].
  2:{ eexists _, []. split; [reflexivity|]. now repeat split. }
  unfold read_metrics, requests_get. run.
  destruct (poll w h proc) as [[code|]|e] eqn:Ep.
  - eexists _, [Poll proc (Return (Some code))]. split; [reflexivity|].
    cbn. repeat split. eexists. split; [reflexivity|discriminate].
  - set (target := (NgrokManager.api_url self ++ "/metrics")%string).
    set (h1 := Poll proc (Return None) :: h).
    assert (forall m : option (json * json),
              (m <> None ->
               exists response,
                 http_get w h1 target 2 = Return response
                 /\ status_code response = 200) ->
              exists st evs,
                (Return {| active := true;
                           url := NgrokManager.tunnel_url self;
                           status_port := NgrokManager.port self;
                           metrics := m |},
                 Get target 2 (http_get w h1 target 2) :: h1)
                = (Return st, evs ++ h)
                /\ status_port st = NgrokManager.port self
                /\ (if active st
                    then
                     url st = NgrokManager.tunnel_url self
                     /\ (exists (proc0 : Z) (g : Exc Response),
                           Some proc = Some proc0
                           /\ evs = [Get target 2 g; Poll proc0 (Return None)]
                           /\ (metrics st <> None ->
                               exists response : Response,
                                 g = Return response
                                 /\ status_code response = 200))
                    else
                     url st = None
                     /\ metrics st = None
                     /\ gets evs = 0%nat
                     /\ (exists p : Exc (option Z),
                           evs = [Poll proc p] /\ p <> Return None)))
      as Hdone.
    { intros m Hm. eexists _, [_; _]. split; [reflexivity|].
      cbn [status_port active url metrics]. split; [reflexivity|].
      split; [reflexivity|]. eexists _, _. split; [reflexivity|].
      split; [reflexivity|]. exact Hm. }
    destruct (http_get w h1 target 2) as [response|e] eqn:Eg.
    2:{ cbn [any_Exception]. apply Hdone. congruence. }
    destruct (status_code response =? 200) eqn:Hst.
    2:{ apply Hdone. congruence. }
    apply Z.eqb_eq in Hst. unfold lift.
    assert (exists response0,
              Return response = Return response0
              /\ status_code response0 = 200) as Hok by now exists response.
    destruct (json_ response) as [data|e];
      [|cbn [any_Exception]; apply Hdone; congruence].
    destruct (TriggerWebhook.get data "connections" (JNum 0));
      [|cbn [any_Exception]; apply Hdone; congruence].
    destruct (TriggerWebhook.get data "http" (JObj [])) as [http|];
      [|cbn [any_Exception]; apply Hdone; congruence].
    destruct (TriggerWebhook.get http "count" (JNum 0));
      [|cbn [any_Exception]; apply Hdone; congruence].
    apply Hdone. intros _. exact Hok.
  - cbn [any_Exception].
    eexists _, [Poll proc (Raise e)]. split; [reflexivity|].
    cbn. repeat split. eexists. split; [reflexivity|discriminate].
Qed.

End TunnelFacts.

